(** * The MCP provider dispatch gateway (unstract/backend/mcp_v2)

    A shallow embedding of the hook pipeline of [mcp_v2]:
    - [hooks/validation.py]      (record validation),
    - [hooks/pre_processing.py]  (rate limiter, request transform, security),
    - [hooks/post_processing.py] (response transform, error handler, circuit
      breaker),
    - [registry.py]              (provider registry),
    together with the properties the design document states about them.

    Conventions of the embedding.
    - Python [str] is [string]; a character is a code point below 256, and
      [lower] and the whitespace class [\s] are the Python ones on that range.
    - Python [int] is [Z].
    - A Python [dict] with string keys is an insertion-ordered association
      list without duplicate keys ([pydict]); [d[k] = v] overwrites in place
      or appends.
    - The Django cache is a finite map from key to value and expiry instant;
      the clock is an explicit argument.
    - A Python exception is the [Raise] case of [result]. *)

From Stdlib Require Import ZArith String Ascii List Bool Lia.
From stdpp Require Import base option gmap strings.
Import ListNotations.

Local Open Scope Z_scope.
Set Warnings "-register-all".

(** ** Python values *)

Inductive value : Type :=
| VNone
| VBool (b : bool)
| VInt (z : Z)
| VStr (s : string)
| VList (l : list value)
| VDict (d : list (string * value)).

Abbreviation pydict := (list (string * value)).

(** [bool(v)] *)
Definition truthy (v : value) : bool :=
  match v with
  | VNone => false
  | VBool b => b
  | VInt z => negb (z =? 0)
  | VStr s => negb (String.eqb s "")
  | VList l => match l with [] => false | _ => true end
  | VDict d => match d with [] => false | _ => true end
  end.

Inductive exn : Type :=
| ValueError (msg : string)
| TypeError
| AttributeError
| KeyError (key : string)
| Unmodelled.  (* the call leaves the modelled fragment (float arithmetic) *)

Inductive result (A : Type) : Type :=
| Ok (a : A)
| Raise (e : exn).
Arguments Ok {A} a.
Arguments Raise {A} e.

#[global] Instance result_ret : MRet result := fun A a => Ok a.

#[global] Instance result_bind : MBind result := fun A B k r =>
  match r with
  | Ok a => k a
  | Raise e => Raise e
  end.

(** An [int] operand; [bool] is a subclass of [int]. *)
Definition as_int (v : value) : result Z :=
  match v with
  | VInt z => Ok z
  | VBool b => Ok (Z.b2z b)
  | _ => Raise TypeError
  end.

(** ** Dictionaries *)

Module Dict.

Fixpoint get (k : string) (d : pydict) : option value :=
  match d with
  | [] => None
  | (k', v) :: r => if String.eqb k k' then Some v else get k r
  end.

(** [d.get(k, dflt)] *)
Definition get_or (k : string) (dflt : value) (d : pydict) : value :=
  match get k d with Some v => v | None => dflt end.

(** [k in d] *)
Definition mem (k : string) (d : pydict) : bool :=
  match get k d with Some _ => true | None => false end.

(** [d[k] = v] *)
Fixpoint set (k : string) (v : value) (d : pydict) : pydict :=
  match d with
  | [] => [(k, v)]
  | (k', v') :: r =>
      if String.eqb k k' then (k', v) :: r else (k', v') :: set k v r
  end.

(** [d or {}] for an optional dictionary. *)
Definition or_empty (o : option pydict) : pydict :=
  match o with Some d => d | None => [] end.

(** [bool(d)] for an optional dictionary: [None] and [{}] are falsy. *)
Definition nonempty (o : option pydict) : bool :=
  match o with Some (_ :: _) => true | _ => false end.

End Dict.

(** ** Strings *)

Definition code (c : ascii) : Z := Z.of_N (N_of_ascii c).

(** [str.lower] on one code point below 256. *)
Definition lower_char (c : ascii) : ascii :=
  let n := code c in
  if ((65 <=? n) && (n <=? 90)) || ((192 <=? n) && (n <=? 222) && negb (n =? 215))
  then ascii_of_N (Z.to_N (n + 32))
  else c.

Fixpoint lower (s : string) : string :=
  match s with
  | EmptyString => EmptyString
  | String c r => String (lower_char c) (lower r)
  end.

(** The class [\s] of [re] on [str]: [str.isspace] of the code point. *)
Definition is_space (c : ascii) : bool :=
  let n := code c in
  ((9 <=? n) && (n <=? 13)) || ((28 <=? n) && (n <=? 32))
  || (n =? 133) || (n =? 160).

(** [p in s] for two strings. *)
Fixpoint contains (p s : string) : bool :=
  String.prefix p s ||
  match s with
  | EmptyString => false
  | String _ r => contains p r
  end.

(** [s.endswith(d)] *)
Definition endswith (s d : string) : bool :=
  let ls := String.length s in
  let ld := String.length d in
  (ld <=? ls)%nat && String.eqb (String.substring (ls - ld) ld s) d.

(** [sep.join(l)] *)
Fixpoint join (sep : string) (l : list string) : string :=
  match l with
  | [] => ""
  | [x] => x
  | x :: r => x +:+ sep +:+ join sep r
  end.

(** [x in l] for a list of strings. *)
Definition str_in (x : string) (l : list string) : bool :=
  existsb (String.eqb x) l.

(** ** Settings, clock, cache, and the backend record *)

(** [django.conf.settings]: every tunable is read with
    [getattr(settings, NAME, default)], so an unset one is [None] here. *)
Record Settings := {
  MCP_CONNECT_RATE_LIMIT : option Z;
  MCP_CONNECT_RATE_WINDOW : option Z;
  MCP_REQUEST_RATE_LIMIT : option Z;
  MCP_REQUEST_RATE_WINDOW : option Z;
  MCP_DEFAULT_REQUEST_TIMEOUT : option Z;
  MCP_MAX_RETRIES : option Z;
  MCP_BACKOFF_FACTOR : option Z;
  MCP_ERROR_THRESHOLD : option Z;
  MCP_ERROR_WINDOW : option Z;
  MCP_BLOCKED_METHODS : option (list string);
  MCP_ALLOWED_DOMAINS : option (list string);
  MCP_BLOCKED_DOMAINS : option (list string);
  MCP_CUSTOM_PROVIDERS : option (list (string * string))
}.

Definition getattr {A} (o : option A) (dflt : A) : A :=
  match o with Some a => a | None => dflt end.

Definition unset : Settings :=
  {| MCP_CONNECT_RATE_LIMIT := None; MCP_CONNECT_RATE_WINDOW := None;
     MCP_REQUEST_RATE_LIMIT := None; MCP_REQUEST_RATE_WINDOW := None;
     MCP_DEFAULT_REQUEST_TIMEOUT := None;
     MCP_MAX_RETRIES := None; MCP_BACKOFF_FACTOR := None;
     MCP_ERROR_THRESHOLD := None; MCP_ERROR_WINDOW := None;
     MCP_BLOCKED_METHODS := None;
     MCP_ALLOWED_DOMAINS := None; MCP_BLOCKED_DOMAINS := None;
     MCP_CUSTOM_PROVIDERS := None |}.

(** One reading of the clock: [time.time()] in ticks and the text of
    [datetime.now().isoformat()]. *)
Record Clock := { time_time : Z; isoformat : string }.

(** [django.core.cache.cache]: key to (value, instant of expiry). *)
Module Cache.

Abbreviation t := (gmap string (value * Z)).

(** [cache.get(key, dflt)] at instant [now]: an entry is visible strictly
    before its expiry. *)
Definition get (now : Z) (c : t) (key : string) (dflt : value) : value :=
  match c !! key with
  | Some (v, expires) => if now <? expires then v else dflt
  | None => dflt
  end.

(** [cache.set(key, v, timeout=timeout)] at instant [now]. *)
Definition set (now : Z) (c : t) (key : string) (v : value) (timeout : Z) : t :=
  <[key := (v, now + timeout)]> c.

(** The key is absent or expired at [now]. *)
Definition vacant (now : Z) (c : t) (key : string) : Prop :=
  match c !! key with
  | Some (_, expires) => expires <= now
  | None => True
  end.

End Cache.

(** Instants of successive calls, each made while the entry written by the
    one before is still live: [t <= t' < t + window]. *)
Fixpoint within_window (window : Z) (times : list Z) : Prop :=
  match times with
  | t :: (t' :: _) as later => t <= t' < t + window /\ within_window window later
  | _ => True
  end.

Inductive Status := ACTIVE | INACTIVE | ERROR | PENDING.

(** [models.MCPServer]; [id] is the text of [server.id] as the cache keys
    interpolate it. *)
Record MCPServer := {
  id : string;
  name : string;
  server_type : string;
  endpoint : string;
  configuration : value;
  authentication : value;
  status : Status;
  metadata : pydict;
  is_active : bool
}.

Definition with_status (s : MCPServer) (st : Status) : MCPServer :=
  {| id := id s; name := name s; server_type := server_type s;
     endpoint := endpoint s; configuration := configuration s;
     authentication := authentication s; status := st;
     metadata := metadata s; is_active := is_active s |}.

Definition with_metadata (s : MCPServer) (m : pydict) : MCPServer :=
  {| id := id s; name := name s; server_type := server_type s;
     endpoint := endpoint s; configuration := configuration s;
     authentication := authentication s; status := status s;
     metadata := m; is_active := is_active s |}.

(** [provider/base.py] *)
Record MCPRequest := {
  method : string;
  params : pydict;
  context : option pydict
}.

Record MCPResponse := {
  success : bool;
  data : value;
  error : option string;
  resp_metadata : option pydict
}.

Definition with_params (r : MCPRequest) (p : pydict) : MCPRequest :=
  {| method := method r; params := p; context := context r |}.

Definition with_context (r : MCPRequest) (ctx : option pydict) : MCPRequest :=
  {| method := method r; params := params r; context := ctx |}.

Definition with_resp_metadata (r : MCPResponse) (m : option pydict) : MCPResponse :=
  {| success := success r; data := data r; error := error r;
     resp_metadata := m |}.

Definition with_error (r : MCPResponse) (e : option string) : MCPResponse :=
  {| success := success r; data := data r; error := e;
     resp_metadata := resp_metadata r |}.

(** ** pre_processing.py *)

Module RateLimiter.

(** [self.limits[operation]] as (requests, window). *)
Definition limits (st : Settings) (operation : string) : option (Z * Z) :=
  if String.eqb operation "connect" then
    Some (getattr (MCP_CONNECT_RATE_LIMIT st) 10,
          getattr (MCP_CONNECT_RATE_WINDOW st) 60)
  else if String.eqb operation "request" then
    Some (getattr (MCP_REQUEST_RATE_LIMIT st) 100,
          getattr (MCP_REQUEST_RATE_WINDOW st) 60)
  else None.

Definition cache_key (server : MCPServer) (operation : string) : string :=
  "mcp_rate_limit:" +:+ id server +:+ ":" +:+ operation.

Definition check_limit (st : Settings) (now : Z) (c : Cache.t)
    (server : MCPServer) (operation : string) : result (bool * Cache.t) :=
  match limits st operation with
  | None => Ok (true, c)
  | Some (requests, window) =>
      let key := cache_key server operation in
      current_count ← as_int (Cache.get now c key (VInt 0));
      if current_count >=? requests then Ok (false, c)
      else Ok (true, Cache.set now c key (VInt (current_count + 1)) window)
  end.

(** Successive calls at the given instants, threading the cache. *)
Fixpoint check_limits (st : Settings) (times : list Z) (c : Cache.t)
    (server : MCPServer) (operation : string) : result (list bool * Cache.t) :=
  match times with
  | [] => Ok ([], c)
  | now :: later =>
      '(b, c1) ← check_limit st now c server operation;
      '(bs, c2) ← check_limits st later c1 server operation;
      Ok (b :: bs, c2)
  end.

End RateLimiter.

Module RequestTransformer.

Definition _transform_claude_request (request : MCPRequest)
    (context : option pydict) : MCPRequest :=
  match context with
  | Some ((_ :: _) as ctx) =>
      match Dict.get "user_id" ctx with
      | Some user_id =>
          with_params request
            (Dict.set "user_context"
               (VDict [("user_id", user_id);
                       ("session_id", Dict.get_or "session_id" VNone ctx)])
               (params request))
      | None => request
      end
  | _ => request
  end.

Definition _transform_github_request (request : MCPRequest)
    (context : option pydict) : MCPRequest :=
  if String.eqb (method request) "search_code" then
    let p1 := Dict.set "per_page"
                (Dict.get_or "per_page" (VInt 30) (params request))
                (params request) in
    let p2 := Dict.set "sort" (Dict.get_or "sort" (VStr "best-match") p1) p1 in
    with_params request p2
  else request.

Definition _apply_default_transformations (st : Settings) (request : MCPRequest)
    (context : option pydict) : MCPRequest :=
  if negb (Dict.mem "timeout" (params request)) then
    with_params request
      (Dict.set "timeout" (VInt (getattr (MCP_DEFAULT_REQUEST_TIMEOUT st) 30))
         (params request))
  else request.

Definition transform (st : Settings) (server : MCPServer) (request : MCPRequest)
    (context : option pydict) : MCPRequest :=
  if String.eqb (server_type server) "claude" then
    _transform_claude_request request context
  else if String.eqb (server_type server) "github" then
    _transform_github_request request context
  else _apply_default_transformations st request context.

End RequestTransformer.

Module SecurityChecker.

Section Checker.

(** [str(params)]: the text Python prints for a dictionary. *)
Variable py_str : value -> string.

Definition sensitive_param_patterns : list string :=
  ["password"; "secret"; "token"; "key"; "credential"].

Definition sql_patterns : list string :=
  ["'; DROP TABLE"; "' OR '1'='1"; "UNION SELECT"; "/*!"].

Definition _check_injection_attacks (params : pydict) : list string :=
  let params_str := lower (py_str (VDict params)) in
  flat_map
    (fun pattern =>
       if contains (lower pattern) params_str
       then ["Potential SQL injection detected: " +:+ pattern]
       else [])
    sql_patterns.

(** The issues one entry [(key, value)] contributes by its key name. *)
Definition key_issues (key : string) (value : value) (current_path : string)
    : list string :=
  flat_map
    (fun pattern =>
       if contains pattern (lower key) && truthy value
       then ["Potential sensitive data in parameter: " +:+ current_path]
       else [])
    sensitive_param_patterns.

(** The inner [check_dict(d, path)], on the dictionary [VDict d]; any other
    value is not descended into. *)
Fixpoint check_dict (v : value) (path : string) : list string :=
  match v with
  | VDict d =>
      (fix items (l : pydict) : list string :=
         match l with
         | [] => []
         | (key, value) :: r =>
             let current_path :=
               if String.eqb path "" then key else path +:+ "." +:+ key in
             key_issues key value current_path
             ++ check_dict value current_path
             ++ items r
         end) d
  | _ => []
  end.

Definition _check_sensitive_data (params : pydict) : list string :=
  check_dict (VDict params) "".

Definition check_request (st : Settings) (request : MCPRequest) : list string :=
  let blocked_methods := getattr (MCP_BLOCKED_METHODS st) [] in
  (if str_in (method request) blocked_methods
   then ["Method '" +:+ method request +:+ "' is blocked"]
   else [])
  ++ _check_injection_attacks (params request)
  ++ _check_sensitive_data (params request).

End Checker.

(** The parameters hold, at some depth of nested dictionaries, an entry
    whose key contains a sensitive pattern (on the lower-cased key) and whose
    value is truthy. *)
Inductive exposes_sensitive : pydict -> Prop :=
| exposed_here (d : pydict) (key : string) (v : value) (pattern : string) :
    In (key, v) d ->
    In pattern sensitive_param_patterns ->
    contains pattern (lower key) = true ->
    truthy v = true ->
    exposes_sensitive d
| exposed_below (d : pydict) (key : string) (inner : pydict) :
    In (key, VDict inner) d ->
    exposes_sensitive inner ->
    exposes_sensitive d.

End SecurityChecker.

Module MCPPreProcessingHooks.

Section Hooks.

Variable py_str : value -> string.

(** [pre_request]: the cache after the call and what the call returns or
    raises. [uuid4] is the text [_generate_request_id] draws; [hook_context]
    is the [context] argument. *)
Definition pre_request (st : Settings) (clk : Clock) (uuid4 : string)
    (c : Cache.t) (server : MCPServer) (request : MCPRequest)
    (hook_context : option pydict) : Cache.t * result MCPRequest :=
  match RateLimiter.check_limit st (time_time clk) c server "request" with
  | Raise e => (c, Raise e)
  | Ok (false, c1) => (c1, Raise (ValueError "Request rate limit exceeded"))
  | Ok (true, c1) =>
      let security_issues := SecurityChecker.check_request py_str st request in
      match security_issues with
      | _ :: _ =>
          (c1, Raise (ValueError ("Security check failed: "
                                  +:+ join ", " security_issues)))
      | [] =>
          let transformed_request :=
            RequestTransformer.transform st server request hook_context in
          let ctx0 :=
            if Dict.nonempty (context transformed_request)
            then Dict.or_empty (context transformed_request)
            else [] in
          let ctx1 := Dict.set "request_id" (VStr uuid4) ctx0 in
          let ctx2 := Dict.set "timestamp" (VInt (time_time clk)) ctx1 in
          (c1, Ok (with_context transformed_request (Some ctx2)))
      end
  end.

End Hooks.

End MCPPreProcessingHooks.

(** ** post_processing.py *)

Module ResponseTransformer.

(** [key in v] for an arbitrary value [v]. *)
Definition py_in (key : string) (v : value) : result bool :=
  match v with
  | VDict d => Ok (Dict.mem key d)
  | VStr s => Ok (contains key s)
  | VList l =>
      Ok (existsb (fun x => match x with VStr s => String.eqb s key | _ => false end) l)
  | _ => Raise TypeError
  end.

(** [v[key]] for a string key. *)
Definition py_getitem (v : value) (key : string) : result value :=
  match v with
  | VDict d =>
      match Dict.get key d with
      | Some x => Ok x
      | None => Raise (KeyError key)
      end
  | _ => Raise TypeError
  end.

(** [v.get(key)] *)
Definition py_get (v : value) (key : string) : result value :=
  match v with
  | VDict d => Ok (Dict.get_or key VNone d)
  | _ => Raise AttributeError
  end.

Definition _transform_claude_response (response : MCPResponse)
    (context : option pydict) : result MCPResponse :=
  if success response && truthy (data response) then
    has_usage ← py_in "usage" (data response);
    if has_usage : bool then
      let md := if Dict.nonempty (resp_metadata response)
                then Dict.or_empty (resp_metadata response) else [] in
      usage ← py_getitem (data response) "usage";
      Ok (with_resp_metadata response (Some (Dict.set "usage" usage md)))
    else Ok response
  else Ok response.

Definition _transform_github_response (response : MCPResponse)
    (context : option pydict) : result MCPResponse :=
  if success response && truthy (data response) then
    match resp_metadata response with
    | Some ((_ :: _) as md) =>
        match Dict.get "headers" md with
        | Some headers =>
            limit ← py_get headers "X-RateLimit-Limit";
            remaining ← py_get headers "X-RateLimit-Remaining";
            reset ← py_get headers "X-RateLimit-Reset";
            Ok (with_resp_metadata response
                  (Some (Dict.set "rate_limit"
                           (VDict [("limit", limit);
                                   ("remaining", remaining);
                                   ("reset", reset)]) md)))
        | None => Ok response
        end
    | _ => Ok response
    end
  else Ok response.

(** The first character is matched by [[^\s]]. *)
Definition starts_nonspace (s : string) : bool :=
  match s with
  | EmptyString => false
  | String c _ => negb (is_space c)
  end.

(** What is left of [s] after the longest run matched by [[^\s]*]. *)
Fixpoint skip_nonspace (s : string) : string :=
  match s with
  | EmptyString => EmptyString
  | String c r => if is_space c then s else skip_nonspace r
  end.

Fixpoint drop (n : nat) (s : string) : string :=
  match n, s with
  | S m, String _ r => drop m r
  | _, _ => s
  end.

(** [re.sub(lit + r"[^\s]+", "[REDACTED]", s, flags=re.IGNORECASE)] for a
    lower-case literal [lit]: scan from the left, replace each match and
    resume after it. [fuel] bounds the characters still to scan. *)
Fixpoint re_sub_from (fuel : nat) (lit s : string) : string :=
  match fuel with
  | O => s
  | S fuel' =>
      match s with
      | EmptyString => EmptyString
      | String c r =>
          let after := drop (String.length lit) s in
          if String.prefix lit (lower s) && starts_nonspace after
          then "[REDACTED]" +:+ re_sub_from fuel' lit (skip_nonspace after)
          else String c (re_sub_from fuel' lit r)
      end
  end.

Definition re_sub (lit s : string) : string :=
  re_sub_from (String.length s) lit s.

Definition sensitive_patterns : list string :=
  ["token="; "api_key="; "password="].

Definition _sanitize_error_message (error : string) : string :=
  fold_left (fun sanitized pattern => re_sub pattern sanitized)
    sensitive_patterns error.

Definition _apply_default_transformations (clk : Clock) (response : MCPResponse)
    (context : option pydict) : MCPResponse :=
  let md := if Dict.nonempty (resp_metadata response)
            then Dict.or_empty (resp_metadata response) else [] in
  let response1 :=
    with_resp_metadata response
      (Some (Dict.set "processed_at" (VStr (isoformat clk)) md)) in
  match error response1 with
  | Some e =>
      if negb (String.eqb e "")
      then with_error response1 (Some (_sanitize_error_message e))
      else response1
  | None => response1
  end.

Definition transform (clk : Clock) (server : MCPServer) (response : MCPResponse)
    (context : option pydict) : result MCPResponse :=
  if String.eqb (server_type server) "claude" then
    _transform_claude_response response context
  else if String.eqb (server_type server) "github" then
    _transform_github_response response context
  else Ok (_apply_default_transformations clk response context).

End ResponseTransformer.

Module ErrorHandler.

(** What a call may have mutated: the cache, the backend record and the
    request (its context bag). *)
Record Effects := {
  fx_cache : Cache.t;
  fx_server : MCPServer;
  fx_request : MCPRequest
}.

Definition retryable_patterns : list string :=
  ["timeout"; "connection reset"; "temporary failure"; "rate limit";
   "503"; "502"; "504"].

Definition _is_retryable_error (error : option string) : bool :=
  match error with
  | None => false
  | Some e =>
      if String.eqb e "" then false
      else
        let error_lower := lower e in
        existsb (fun pattern => contains pattern error_lower) retryable_patterns
  end.

Definition error_key (server : MCPServer) : string :=
  "mcp_circuit_breaker:" +:+ id server.

(** [server.asave] persists the record; the record returned is the one
    saved. *)
Definition _check_circuit_breaker (st : Settings) (clk : Clock) (c : Cache.t)
    (server : MCPServer) : (Cache.t * MCPServer) * result unit :=
  let error_threshold := getattr (MCP_ERROR_THRESHOLD st) 10 in
  let error_window := getattr (MCP_ERROR_WINDOW st) 300 in
  match as_int (Cache.get (time_time clk) c (error_key server) (VInt 0)) with
  | Raise e => ((c, server), Raise e)
  | Ok n =>
      let error_count := n + 1 in
      let c1 := Cache.set (time_time clk) c (error_key server)
                  (VInt error_count) error_window in
      if error_count >=? error_threshold then
        let server1 :=
          with_metadata (with_status server ERROR)
            (Dict.set "circuit_breaker_triggered" (VStr (isoformat clk))
               (metadata server)) in
        ((c1, server1), Ok tt)
      else ((c1, server), Ok tt)
  end.

(** [request.context.get("retry_count", 0) if request.context else 0] *)
Definition current_retry_count (request : MCPRequest) : value :=
  if Dict.nonempty (context request)
  then Dict.get_or "retry_count" (VInt 0) (Dict.or_empty (context request))
  else VInt 0.

(** [b ** e] on integers; a negative exponent yields a float. *)
Definition py_pow (b e : Z) : result value :=
  if 0 <=? e then Ok (VInt (b ^ e)) else Raise Unmodelled.

(** [not request.context or not request.context.get("should_retry")] *)
Definition not_marked (request : MCPRequest) : bool :=
  negb (Dict.nonempty (context request))
  || negb (truthy (Dict.get_or "should_retry" VNone
                     (Dict.or_empty (context request)))).

Definition handle_error (st : Settings) (clk : Clock) (c : Cache.t)
    (server : MCPServer) (request : MCPRequest) (response : MCPResponse)
    : Effects * result MCPResponse :=
  let max_retries := getattr (MCP_MAX_RETRIES st) 3 in
  let backoff_factor := getattr (MCP_BACKOFF_FACTOR st) 2 in
  (* Check if error is retryable *)
  let '(request1, checked) :=
    if _is_retryable_error (error response) then
      match as_int (current_retry_count request) with
      | Raise e => (request, Raise e)
      | Ok retry_count =>
          if retry_count <? max_retries then
            let ctx0 := if Dict.nonempty (context request)
                        then Dict.or_empty (context request) else [] in
            let ctx1 := Dict.set "retry_count" (VInt (retry_count + 1)) ctx0 in
            let ctx2 := Dict.set "should_retry" (VBool true) ctx1 in
            match py_pow backoff_factor retry_count with
            | Raise e => (with_context request (Some ctx2), Raise e)
            | Ok backoff_delay =>
                (with_context request
                   (Some (Dict.set "retry_delay" backoff_delay ctx2)), Ok tt)
            end
          else (request, Ok tt)
      end
    else (request, Ok tt) in
  match checked with
  | Raise e =>
      ({| fx_cache := c; fx_server := server; fx_request := request1 |}, Raise e)
  | Ok _ =>
      (* Log persistent errors *)
      if not_marked request1 then
        match _check_circuit_breaker st clk c server with
        | ((c1, server1), Raise e) =>
            ({| fx_cache := c1; fx_server := server1; fx_request := request1 |},
             Raise e)
        | ((c1, server1), Ok _) =>
            ({| fx_cache := c1; fx_server := server1; fx_request := request1 |},
             Ok response)
        end
      else
        ({| fx_cache := c; fx_server := server; fx_request := request1 |},
         Ok response)
  end.

(** Successive calls of the circuit breaker for one backend, one per clock
    reading, threading cache and record. *)
Fixpoint record_errors (st : Settings) (clks : list Clock) (c : Cache.t)
    (server : MCPServer) : (Cache.t * MCPServer) * result unit :=
  match clks with
  | [] => ((c, server), Ok tt)
  | clk :: later =>
      match _check_circuit_breaker st clk c server with
      | (cs, Raise e) => (cs, Raise e)
      | ((c1, server1), Ok _) => record_errors st later c1 server1
      end
  end.

(** The same failed response handled once per clock reading, each call
    receiving the request, cache and record the one before left: the
    request as a caller resubmits it. *)
Fixpoint resubmissions (st : Settings) (clks : list Clock) (c : Cache.t)
    (server : MCPServer) (request : MCPRequest) (response : MCPResponse)
    : Effects * result MCPResponse :=
  match clks with
  | [] =>
      ({| fx_cache := c; fx_server := server; fx_request := request |},
       Ok response)
  | clk :: later =>
      match handle_error st clk c server request response with
      | (fx, Raise e) => (fx, Raise e)
      | (fx, Ok _) =>
          resubmissions st later (fx_cache fx) (fx_server fx) (fx_request fx)
            response
      end
  end.

End ErrorHandler.

Module MCPPostProcessingHooks.

(** [post_request] up to the metrics collector: transform, then the error
    handler on a failed response. *)
Definition post_request (st : Settings) (clk : Clock) (c : Cache.t)
    (server : MCPServer) (request : MCPRequest) (response : MCPResponse)
    (hook_context : option pydict) : ErrorHandler.Effects * result MCPResponse :=
  match ResponseTransformer.transform clk server response hook_context with
  | Raise e =>
      ({| ErrorHandler.fx_cache := c; ErrorHandler.fx_server := server;
          ErrorHandler.fx_request := request |}, Raise e)
  | Ok transformed_response =>
      if negb (success transformed_response) then
        ErrorHandler.handle_error st clk c server request transformed_response
      else
        ({| ErrorHandler.fx_cache := c; ErrorHandler.fx_server := server;
            ErrorHandler.fx_request := request |}, Ok transformed_response)
  end.

End MCPPostProcessingHooks.

(** ** validation.py *)

Module MCPValidationHooks.

(** The two fields of [urllib.parse.urlparse]'s result that are read. *)
Record ParseResult := { scheme : string; netloc : string }.

(** [str(e)] *)
Definition exn_str (e : exn) : string :=
  match e with
  | ValueError msg => msg
  | KeyError k => "'" +:+ k +:+ "'"
  | _ => ""
  end.

Definition in_range (lo hi : Z) (c : ascii) : bool :=
  (lo <=? code c) && (code c <=? hi).

(** One character of the class [[a-zA-Z0-9\s\-_]]. *)
Definition name_char (c : ascii) : bool :=
  in_range 97 122 c || in_range 65 90 c || in_range 48 57 c
  || is_space c || (code c =? 45) || (code c =? 95).

Fixpoint all_chars (p : ascii -> bool) (s : string) : bool :=
  match s with
  | EmptyString => true
  | String c r => p c && all_chars p r
  end.

(** [re.match(r"^[a-zA-Z0-9\s\-_]+$", name)]: one or more characters of the
    class up to the end ([\n] is in the class, so [$] adds nothing). *)
Definition re_match_name (name : string) : bool :=
  negb (String.eqb name "") && all_chars name_char name.

(** The character set the design document states for names:
    [[A-Za-z0-9 _-]], with the space as the only blank. *)
Definition stated_name_char (c : ascii) : bool :=
  in_range 97 122 c || in_range 65 90 c || in_range 48 57 c
  || (code c =? 32) || (code c =? 45) || (code c =? 95).

Definition _validate_server_name (name : string) : list string :=
  if String.eqb name "" then ["Server name is required"]
  else
    (if (String.length name <? 3)%nat
     then ["Server name must be at least 3 characters"] else [])
    ++ (if (255 <? String.length name)%nat
        then ["Server name must not exceed 255 characters"] else [])
    ++ (if negb (re_match_name name)
        then ["Server name can only contain alphanumeric characters, "
              +:+ "spaces, hyphens, and underscores"]
        else []).

Section Hooks.

(** [urllib.parse.urlparse], which may raise. *)
Variable urlparse : string -> result ParseResult.

(** The three validators no property below looks into: their lists of
    problems for a record's configuration and authentication. *)
Variable _validate_configuration_size : value -> list string.
Variable _validate_authentication : value -> list string.
Variable _validate_provider_config : string -> value -> list string.

Definition _validate_endpoint (st : Settings) (endpoint : string) : list string :=
  let allowed_domains := getattr (MCP_ALLOWED_DOMAINS st) [] in
  let blocked_domains := getattr (MCP_BLOCKED_DOMAINS st) [] in
  if String.eqb endpoint "" then ["Endpoint URL is required"]
  else
    match urlparse endpoint with
    | Raise e => ["Invalid endpoint URL: " +:+ exn_str e]
    | Ok parsed =>
        (if String.eqb (scheme parsed) ""
         then ["Endpoint must include a scheme (http/https)"] else [])
        ++ (if negb (str_in (scheme parsed) ["http"; "https"; "ws"; "wss"])
            then ["Endpoint scheme must be http, https, ws, or wss"] else [])
        ++ (if String.eqb (netloc parsed) ""
            then ["Endpoint must include a valid host"] else [])
        (* Check allowed/blocked domains *)
        ++ (match allowed_domains with
            | [] => []
            | _ =>
                if negb (existsb (endswith (netloc parsed)) allowed_domains)
                then ["Endpoint domain not in allowed list: " +:+ netloc parsed]
                else []
            end)
        ++ (match blocked_domains with
            | [] => []
            | _ =>
                if existsb (endswith (netloc parsed)) blocked_domains
                then ["Endpoint domain is blocked: " +:+ netloc parsed]
                else []
            end)
    end.

(** [errors[field] = problems] when [problems] is not empty. *)
Definition report (field : string) (problems : list string)
    (errors : gmap string (list string)) : gmap string (list string) :=
  match problems with
  | [] => errors
  | _ => <[field := problems]> errors
  end.

Definition validate_server_configuration (st : Settings) (server : MCPServer)
    : gmap string (list string) :=
  let errors := report "name" (_validate_server_name (name server)) ∅ in
  let errors := report "endpoint" (_validate_endpoint st (endpoint server)) errors in
  let errors := report "configuration"
                  (_validate_configuration_size (configuration server)) errors in
  let errors := report "authentication"
                  (_validate_authentication (authentication server)) errors in
  if negb (String.eqb (server_type server) "") then
    report "provider"
      (_validate_provider_config (server_type server) (configuration server))
      errors
  else errors.

End Hooks.

End MCPValidationHooks.

(** ** registry.py *)

Module MCPServerRegistry.

(** A class object handed to the registry: whether it derives from
    [BaseMCPProvider], which methods it defines itself, and the texts its
    describing class methods return when it defines them. *)
Record ProviderClass := {
  inherits_base : bool;
  defines : list string;
  described_name : string;
  described_description : string;
  described_version : string
}.

(** The abstract methods of [BaseMCPProvider]. *)
Definition abstract_methods : list string :=
  ["get_name"; "get_description"; "get_configuration_schema";
   "connect"; "disconnect"; "execute_request"; "list_tools"; "list_resources"].

(** The class implements every capability of the contract. *)
Definition implements_contract (cls : ProviderClass) : bool :=
  forallb (fun m => str_in m (defines cls)) abstract_methods.

(** [cls.get_name()]: an abstract class method not overridden runs the
    base body [pass]. *)
Definition get_name (cls : ProviderClass) : value :=
  if str_in "get_name" (defines cls) then VStr (described_name cls) else VNone.

Definition get_description (cls : ProviderClass) : value :=
  if str_in "get_description" (defines cls)
  then VStr (described_description cls) else VNone.

Definition get_version (cls : ProviderClass) : value :=
  if str_in "get_version" (defines cls)
  then VStr (described_version cls) else VStr "1.0.0".

Record Registry := {
  _providers : gmap string ProviderClass;
  _initialized : bool
}.

Definition register_provider (name : string) (provider_class : ProviderClass)
    (reg : Registry) : Registry * result unit :=
  if negb (inherits_base provider_class) then
    (reg, Raise (ValueError ("Provider " +:+ name
                             +:+ " must inherit from BaseMCPProvider")))
  else
    ({| _providers := <[name := provider_class]> (_providers reg);
        _initialized := _initialized reg |}, Ok tt).

Section Loading.

(** [importlib.import_module] followed by [getattr] for a built-in provider
    name: [None] when either raises [ImportError] or [AttributeError]. *)
Variable import_builtin : string -> option ProviderClass.

(** The same for a custom module path and its attribute [Provider]:
    [None] when anything is raised. *)
Variable import_custom : string -> option ProviderClass.

Definition builtin_providers : list string :=
  ["claude"; "filesystem"; "github"; "slack"; "postgres"; "web_search"].

Fixpoint load_builtin (names : list string) (reg : Registry)
    : Registry * result unit :=
  match names with
  | [] => (reg, Ok tt)
  | provider_name :: later =>
      match import_builtin provider_name with
      | None => load_builtin later reg
      | Some provider_class =>
          match register_provider provider_name provider_class reg with
          | (reg1, Raise e) => (reg1, Raise e)
          | (reg1, Ok _) => load_builtin later reg1
          end
      end
  end.

Definition _load_builtin_providers (reg : Registry) : Registry * result unit :=
  load_builtin builtin_providers reg.

Fixpoint load_custom (items : list (string * string)) (reg : Registry)
    : Registry :=
  match items with
  | [] => reg
  | (provider_name, module_path) :: later =>
      match import_custom module_path with
      | None => load_custom later reg
      | Some provider_class =>
          load_custom later
            (fst (register_provider provider_name provider_class reg))
      end
  end.

Definition _load_custom_providers (st : Settings) (reg : Registry) : Registry :=
  load_custom (getattr (MCP_CUSTOM_PROVIDERS st) []) reg.

Definition initialize (st : Settings) (reg : Registry) : Registry * result unit :=
  if _initialized reg then (reg, Ok tt)
  else
    match _load_builtin_providers reg with
    | (reg1, Raise e) => (reg1, Raise e)
    | (reg1, Ok _) =>
        let reg2 := _load_custom_providers st reg1 in
        ({| _providers := _providers reg2; _initialized := true |}, Ok tt)
    end.

Definition get_provider (st : Settings) (name : string) (reg : Registry)
    : Registry * result (option ProviderClass) :=
  match (if _initialized reg then (reg, Ok tt) else initialize st reg) with
  | (reg1, Raise e) => (reg1, Raise e)
  | (reg1, Ok _) => (reg1, Ok (_providers reg1 !! name))
  end.

Definition describe (provider_class : ProviderClass) : pydict :=
  [("name", get_name provider_class);
   ("description", get_description provider_class);
   ("version", get_version provider_class)].

Definition list_providers (st : Settings) (reg : Registry)
    : Registry * result (gmap string pydict) :=
  match (if _initialized reg then (reg, Ok tt) else initialize st reg) with
  | (reg1, Raise e) => (reg1, Raise e)
  | (reg1, Ok _) => (reg1, Ok (describe <$> _providers reg1))
  end.

End Loading.

End MCPServerRegistry.

(** ** Sample data for the worked instances *)

Module Sample.

Definition backend : MCPServer :=
  {| id := "1"; name := "Test Server"; server_type := "generic";
     endpoint := "https://api.example.com";
     configuration := VDict []; authentication := VDict [];
     status := ACTIVE; metadata := []; is_active := true |}.

Definition claude_backend : MCPServer :=
  {| id := "1"; name := "Test Server"; server_type := "claude";
     endpoint := "https://api.anthropic.com/v1/mcp";
     configuration := VDict []; authentication := VDict [];
     status := ACTIVE; metadata := []; is_active := true |}.

Definition clock_at (now : Z) (text : string) : Clock :=
  {| time_time := now; isoformat := text |}.

(** Settings with two connects per window and a breaker threshold of three. *)
Definition tight : Settings :=
  {| MCP_CONNECT_RATE_LIMIT := Some 2; MCP_CONNECT_RATE_WINDOW := None;
     MCP_REQUEST_RATE_LIMIT := None; MCP_REQUEST_RATE_WINDOW := None;
     MCP_DEFAULT_REQUEST_TIMEOUT := None;
     MCP_MAX_RETRIES := None; MCP_BACKOFF_FACTOR := None;
     MCP_ERROR_THRESHOLD := Some 3; MCP_ERROR_WINDOW := None;
     MCP_BLOCKED_METHODS := None;
     MCP_ALLOWED_DOMAINS := Some ["anthropic.com"; "localhost"];
     MCP_BLOCKED_DOMAINS := Some ["badsite.com"; "evil.anthropic.com"];
     MCP_CUSTOM_PROVIDERS := None |}.

(** A context bag left by three earlier retries of the same request. *)
Definition exhausted_context : pydict :=
  [("retry_count", VInt 3); ("should_retry", VBool true);
   ("retry_delay", VInt 4)].

Definition request_with (ctx : option pydict) : MCPRequest :=
  {| method := "test"; params := []; context := ctx |}.

Definition failure (text : string) : MCPResponse :=
  {| success := false; data := VNone; error := Some text;
     resp_metadata := None |}.

Definition tools_listing : MCPResponse :=
  {| success := true;
     data := VDict [("tools", VList [VStr "tool1"; VStr "tool2"])];
     error := None; resp_metadata := Some [] |}.

(** The name [a<TAB>b]. *)
Definition tabbed_name : string :=
  String "a"%char (String (ascii_of_nat 9) (String "b"%char EmptyString)).

Definition named (n : string) : MCPServer :=
  {| id := "1"; name := n; server_type := "generic";
     endpoint := "https://api.example.com";
     configuration := VDict []; authentication := VDict [];
     status := PENDING; metadata := []; is_active := true |}.

Definition at_endpoint (url : string) : MCPServer :=
  {| id := "1"; name := "Test Server"; server_type := "generic";
     endpoint := url;
     configuration := VDict []; authentication := VDict [];
     status := PENDING; metadata := []; is_active := true |}.

(** What [urlparse] returns for the one URL the instance below uses. *)
Definition urlparse (url : string) : result MCPValidationHooks.ParseResult :=
  if String.eqb url "https://evil.anthropic.com/v1/mcp"
  then Ok {| MCPValidationHooks.scheme := "https";
             MCPValidationHooks.netloc := "evil.anthropic.com" |}
  else Raise (ValueError "not parsed here").

Definition no_problems (v : value) : list string := [].

Definition no_provider_problems (ty : string) (v : value) : list string := [].

(** A subclass of [BaseMCPProvider] that overrides nothing. *)
Definition abstract_subclass : MCPServerRegistry.ProviderClass :=
  {| MCPServerRegistry.inherits_base := true;
     MCPServerRegistry.defines := [];
     MCPServerRegistry.described_name := "";
     MCPServerRegistry.described_description := "";
     MCPServerRegistry.described_version := "" |}.

(** A class with every method of the contract that does not derive from
    [BaseMCPProvider]. *)
Definition unrelated_class : MCPServerRegistry.ProviderClass :=
  {| MCPServerRegistry.inherits_base := false;
     MCPServerRegistry.defines := MCPServerRegistry.abstract_methods;
     MCPServerRegistry.described_name := "Invalid";
     MCPServerRegistry.described_description := "";
     MCPServerRegistry.described_version := "" |}.

Definition fresh_registry : MCPServerRegistry.Registry :=
  {| MCPServerRegistry._providers := ∅;
     MCPServerRegistry._initialized := true |}.

Definition nothing_importable (name : string)
    : option MCPServerRegistry.ProviderClass := None.

Definition keyword_search : MCPRequest :=
  {| method := "search"; params := [("keywords", VStr "contract law")];
     context := None |}.

(** [str] of the parameters of [keyword_search]. *)
Definition py_str (v : value) : string := "{'keywords': 'contract law'}".

Definition code_search : MCPRequest :=
  {| method := "search_code";
     params := [("q", VStr "urlparse"); ("per_page", VInt 5);
                ("user_context", VStr "mine")];
     context := None |}.

End Sample.

(** ** The rest of the hook files *)

(** Tunables read with [getattr(settings, NAME, default)] that [Settings]
    does not list. *)
Record Tunables := {
  MCP_METRICS_WINDOW : option Z;
  MCP_MAX_CONFIG_SIZE : option Z;
  MCP_MAX_REQUEST_SIZE : option Z
}.

Definition untuned : Tunables :=
  {| MCP_METRICS_WINDOW := None; MCP_MAX_CONFIG_SIZE := None;
     MCP_MAX_REQUEST_SIZE := None |}.

(** *** post_processing.py: MetricsCollector *)

Module MetricsCollector.

Definition metrics_cache_prefix : string := "mcp_metrics".

Definition metrics_window (tn : Tunables) : Z :=
  getattr (MCP_METRICS_WINDOW tn) 3600.

Definition connection_key (server : MCPServer) : string :=
  metrics_cache_prefix +:+ ":connection:" +:+ id server.

Definition count_key (server : MCPServer) : string :=
  metrics_cache_prefix +:+ ":request_count:" +:+ id server.

Definition method_key (server : MCPServer) (request : MCPRequest) : string :=
  metrics_cache_prefix +:+ ":method:" +:+ id server +:+ ":" +:+ method request.

Definition timing_key (server : MCPServer) : string :=
  metrics_cache_prefix +:+ ":timing:" +:+ id server.

Definition error_key (server : MCPServer) : string :=
  metrics_cache_prefix +:+ ":errors:" +:+ id server.

(** [metrics[field] += 1] *)
Definition incr_field (metrics : value) (field : string) : result value :=
  old ← ResponseTransformer.py_getitem metrics field;
  n ← as_int old;
  match metrics with
  | VDict d => Ok (VDict (Dict.set field (VInt (n + 1)) d))
  | _ => Raise TypeError
  end.

Definition record_connection (tn : Tunables) (now : Z) (c : Cache.t)
    (server : MCPServer) (success : bool) : Cache.t * result unit :=
  let cache_key := connection_key server in
  let metrics :=
    Cache.get now c cache_key
      (VDict [("success", VInt 0); ("failure", VInt 0)]) in
  match incr_field metrics (if success then "success" else "failure") with
  | Raise e => (c, Raise e)
  | Ok metrics1 => (Cache.set now c cache_key metrics1 (metrics_window tn), Ok tt)
  end.

(** [n = cache.get(key, 0); cache.set(key, n + 1, timeout=window)] *)
Definition bump (now : Z) (c : Cache.t) (key : string) (window : Z)
    : Cache.t * result unit :=
  match as_int (Cache.get now c key (VInt 0)) with
  | Raise e => (c, Raise e)
  | Ok n => (Cache.set now c key (VInt (n + 1)) window, Ok tt)
  end.

(** The timing block of [record_request], for a truthy [duration]. *)
Definition record_timing (now : Z) (c : Cache.t) (key : string) (window : Z)
    (duration : Z) : Cache.t * result unit :=
  match Cache.get now c key (VList []) with
  | VList timings =>
      let appended := timings ++ [VInt duration] in
      (* Keep only last 100 timings *)
      let kept :=
        if (100 <? length appended)%nat
        then skipn (length appended - 100) appended
        else appended in
      (Cache.set now c key (VList kept) window, Ok tt)
  | _ => (c, Raise AttributeError)
  end.

(** [duration] is [None] or a number of clock ticks. *)
Definition record_request (tn : Tunables) (now : Z) (c : Cache.t)
    (server : MCPServer) (request : MCPRequest) (response : MCPResponse)
    (duration : option Z) : Cache.t * result unit :=
  let window := metrics_window tn in
  (* Record request count *)
  match bump now c (count_key server) window with
  | (c1, Raise e) => (c1, Raise e)
  | (c1, Ok _) =>
      (* Record method usage *)
      match bump now c1 (method_key server request) window with
      | (c2, Raise e) => (c2, Raise e)
      | (c2, Ok _) =>
          (* Record response time *)
          match
            match duration with
            | Some d =>
                if negb (d =? 0)
                then record_timing now c2 (timing_key server) window d
                else (c2, Ok tt)
            | None => (c2, Ok tt)
            end
          with
          | (c3, Raise e) => (c3, Raise e)
          | (c3, Ok _) =>
              (* Record errors *)
              if negb (success response)
              then bump now c3 (error_key server) window
              else (c3, Ok tt)
          end
      end
  end.

End MetricsCollector.

(** *** The connect, request and disconnect hooks *)

Module Lifecycle.

(** [MCPPreProcessingHooks.pre_connect] *)
Definition pre_connect (st : Settings) (clk : Clock) (c : Cache.t)
    (server : MCPServer) (hook_context : option pydict)
    : (Cache.t * MCPServer) * result unit :=
  if negb (is_active server) then
    ((c, server),
     Raise (ValueError ("Server " +:+ name server +:+ " is not active")))
  else
    match RateLimiter.check_limit st (time_time clk) c server "connect" with
    | Raise e => ((c, server), Raise e)
    | Ok (false, c1) =>
        ((c1, server), Raise (ValueError "Connection rate limit exceeded"))
    | Ok (true, c1) =>
        ((c1, with_metadata server
                (Dict.set "last_connection_attempt" (VStr (isoformat clk))
                   (metadata server))), Ok tt)
    end.

(** [MCPPostProcessingHooks.post_connect]; [error] is the text of
    [str(error)] when an exception is passed. *)
Definition post_connect (tn : Tunables) (clk : Clock) (c : Cache.t)
    (server : MCPServer) (success : bool) (error : option string)
    (hook_context : option pydict) : (Cache.t * MCPServer) * result unit :=
  let server1 :=
    if success then
      with_metadata (with_status server ACTIVE)
        (Dict.set "last_successful_connection" (VStr (isoformat clk))
           (metadata server))
    else
      with_metadata (with_status server ERROR)
        (Dict.set "last_connection_error"
           (VStr (match error with Some text => text | None => "Unknown error" end))
           (metadata server)) in
  match MetricsCollector.record_connection tn (time_time clk) c server1 success with
  | (c1, r) => ((c1, server1), r)
  end.

(** [MCPPostProcessingHooks.post_disconnect] *)
Definition post_disconnect (clk : Clock) (server : MCPServer)
    (hook_context : option pydict) : MCPServer :=
  with_metadata server
    (Dict.set "last_disconnection" (VStr (isoformat clk)) (metadata server)).

(** [time.time() - start_time if start_time else None] *)
Definition duration_of (clk : Clock) (request : MCPRequest) : result (option Z) :=
  let start_time :=
    if Dict.nonempty (context request)
    then Dict.get_or "timestamp" VNone (Dict.or_empty (context request))
    else VNone in
  if truthy start_time then
    t ← as_int start_time; Ok (Some (time_time clk - t))
  else Ok None.

(** [MCPPostProcessingHooks.post_request] in full: timing, transform and
    error handling, metrics, and the closing log line, whose
    [f"{duration:.2f}"] raises [TypeError] on [None]. *)
Definition post_request (st : Settings) (tn : Tunables) (clk : Clock)
    (c : Cache.t) (server : MCPServer) (request : MCPRequest)
    (response : MCPResponse) (hook_context : option pydict)
    : ErrorHandler.Effects * result MCPResponse :=
  match duration_of clk request with
  | Raise e =>
      ({| ErrorHandler.fx_cache := c; ErrorHandler.fx_server := server;
          ErrorHandler.fx_request := request |}, Raise e)
  | Ok duration =>
      match MCPPostProcessingHooks.post_request st clk c server request
              response hook_context with
      | (fx, Raise e) => (fx, Raise e)
      | (fx, Ok transformed_response) =>
          match MetricsCollector.record_request tn (time_time clk)
                  (ErrorHandler.fx_cache fx) (ErrorHandler.fx_server fx)
                  (ErrorHandler.fx_request fx) transformed_response duration
          with
          | (c1, Raise e) =>
              ({| ErrorHandler.fx_cache := c1;
                  ErrorHandler.fx_server := ErrorHandler.fx_server fx;
                  ErrorHandler.fx_request := ErrorHandler.fx_request fx |},
               Raise e)
          | (c1, Ok _) =>
              ({| ErrorHandler.fx_cache := c1;
                  ErrorHandler.fx_server := ErrorHandler.fx_server fx;
                  ErrorHandler.fx_request := ErrorHandler.fx_request fx |},
               match duration with
               | Some _ => Ok transformed_response
               | None => Raise TypeError
               end)
          end
      end
  end.

End Lifecycle.

(** *** registry.py: validate_provider *)

Module RegistryLookup.

(** [name in cls._providers]; no initialisation is triggered. *)
Definition validate_provider (name : string)
    (reg : MCPServerRegistry.Registry) : bool :=
  match MCPServerRegistry._providers reg !! name with
  | Some _ => true
  | None => false
  end.

End RegistryLookup.

(** *** validation.py: authentication and request checks *)

Module ValidationDetail.

(** What [json.dumps] does with a value: the text, or the text of the
    exception it raises. *)
Inductive dumped : Type :=
| Dumped (text : string)
| DumpFailed (message : string).

(** [v == s] for a string [s] *)
Definition py_eq_str (v : value) (s : string) : bool :=
  match v with
  | VStr t => String.eqb t s
  | _ => false
  end.

Section Checks.

(** [str] of a value, as an f-string interpolates it. *)
Variable py_str : value -> string.

(** [str] of an integer. *)
Variable str_of_int : Z -> string.

Variable json_dumps : value -> dumped.

Definition text_of (v : value) : string :=
  match v with
  | VStr s => s
  | _ => py_str v
  end.

Definition _validate_authentication (auth : value) : result (list string) :=
  if negb (truthy auth) then Ok []
  else
    match auth with
    | VDict d =>
        let auth_type := Dict.get_or "type" VNone d in
        let missing field := negb (truthy (Dict.get_or field VNone d)) in
        if py_eq_str auth_type "bearer" then
          Ok (if missing "token" then ["Bearer token is required"] else [])
        else if py_eq_str auth_type "api_key" then
          Ok ((if missing "key" then ["API key is required"] else [])
              ++ (if missing "header_name"
                  then ["API key header name is required"] else []))
        else if py_eq_str auth_type "oauth" then
          Ok (flat_map
                (fun field =>
                   if missing field
                   then ["OAuth " +:+ field +:+ " is required"] else [])
                ["client_id"; "client_secret"; "token_url"])
        else if truthy auth_type
                && negb (existsb (py_eq_str auth_type) ["none"; "custom"]) then
          Ok ["Unknown authentication type: " +:+ text_of auth_type]
        else Ok []
    | _ => Raise AttributeError
    end.

Definition _validate_configuration_size (tn : Tunables) (config : value)
    : list string :=
  let max_config_size := getattr (MCP_MAX_CONFIG_SIZE tn) (1024 * 1024) in
  match json_dumps config with
  | Dumped config_str =>
      if max_config_size <? Z.of_nat (String.length config_str)
      then ["Configuration size exceeds maximum allowed ("
            +:+ str_of_int max_config_size +:+ " bytes)"]
      else []
  | DumpFailed message => ["Invalid configuration format: " +:+ message]
  end.

Definition validate_request (tn : Tunables) (server : MCPServer)
    (request_data : value) : result (gmap string (list string)) :=
  match request_data with
  | VDict d =>
      let errors : gmap string (list string) :=
        if negb (truthy (Dict.get_or "method" VNone d))
        then {[ "method" := ["Request method is required"] ]}
        else ∅ in
      let max_request_size :=
        getattr (MCP_MAX_REQUEST_SIZE tn) (10 * 1024 * 1024) in
      match json_dumps request_data with
      | Dumped request_str =>
          if max_request_size <? Z.of_nat (String.length request_str)
          then Ok (<["size" := ["Request size exceeds maximum allowed ("
                                +:+ str_of_int max_request_size +:+ " bytes)"]]>
                     errors)
          else Ok errors
      | DumpFailed message =>
          Ok (<["format" := ["Invalid request format: " +:+ message]]> errors)
      end
  | _ => Raise AttributeError
  end.

End Checks.

End ValidationDetail.

(** *** What the sanitiser is to remove *)

Module Redaction.

(** [lit + r"[^\s]+"] matches at the start of [s], case-insensitively. *)
Definition matches_at (lit s : string) : bool :=
  String.prefix lit (lower s)
  && ResponseTransformer.starts_nonspace
       (ResponseTransformer.drop (String.length lit) s).

(** It matches somewhere in [s]. *)
Fixpoint has_match (lit s : string) : bool :=
  matches_at lit s
  || match s with
     | EmptyString => false
     | String _ r => has_match lit r
     end.

End Redaction.

(** *** Notions used to state further properties *)

(** What a rate-limit check answers, the cache apart. *)
Definition answer (r : result (bool * Cache.t)) : result bool :=
  match r with
  | Ok (allowed, _) => Ok allowed
  | Raise e => Raise e
  end.

(** The entry of [key], if there is one, holds an integer no larger than
    [bound]. *)
Definition counter_within (bound : Z) (c : Cache.t) (key : string) : Prop :=
  forall v expires, c !! key = Some (v, expires) ->
    exists n, v = VInt n /\ n <= bound.

(** Instants each at least one window after the one before. *)
Fixpoint spaced (window : Z) (times : list Z) : Prop :=
  match times with
  | t :: (t' :: _) as later => t + window <= t' /\ spaced window later
  | _ => True
  end.

(** The context bag after the [k]-th retry has been marked. *)
Definition retry_context (backoff_factor k : Z) : pydict :=
  [("retry_count", VInt k); ("should_retry", VBool true);
   ("retry_delay", VInt (backoff_factor ^ (k - 1)))].

(** Connection outcomes recorded one after the other, each at its instant. *)
Fixpoint record_connections (tn : Tunables) (events : list (Z * bool))
    (c : Cache.t) (server : MCPServer) : Cache.t * result unit :=
  match events with
  | [] => (c, Ok tt)
  | (now, success) :: later =>
      match MetricsCollector.record_connection tn now c server success with
      | (c1, Raise e) => (c1, Raise e)
      | (c1, Ok _) => record_connections tn later c1 server
      end
  end.

(** How many of the outcomes are [wanted]. *)
Definition tally (wanted : bool) (events : list (Z * bool)) : Z :=
  Z.of_nat (length (List.filter (fun ev => Bool.eqb (snd ev) wanted) events)).

(** Every place of [s] where [probe] matches is a place where [lit]
    matches. *)
Fixpoint covered_by (probe lit s : string) : bool :=
  implb (Redaction.matches_at probe s) (Redaction.matches_at lit s)
  && match s with
     | EmptyString => true
     | String _ r => covered_by probe lit r
     end.

(** No character of [s] is an opening bracket. *)
Definition bracket_free (s : string) : bool :=
  MCPValidationHooks.all_chars (fun ch => negb (Ascii.eqb ch "["%char)) s.

(** *** Further sample data *)

(** The registry as the class declares it: nothing registered, not yet
    initialised. *)
Definition cold_registry : MCPServerRegistry.Registry :=
  {| MCPServerRegistry._providers := ∅;
     MCPServerRegistry._initialized := false |}.

(** Only the module of the claude provider can be imported, and it holds
    [cls]. *)
Definition claude_importable (cls : MCPServerRegistry.ProviderClass)
    (name : string) : option MCPServerRegistry.ProviderClass :=
  if String.eqb name "claude" then Some cls else None.

(** The domain lists of the repository's endpoint test. *)
Definition test_domains : Settings :=
  {| MCP_CONNECT_RATE_LIMIT := None; MCP_CONNECT_RATE_WINDOW := None;
     MCP_REQUEST_RATE_LIMIT := None; MCP_REQUEST_RATE_WINDOW := None;
     MCP_DEFAULT_REQUEST_TIMEOUT := None;
     MCP_MAX_RETRIES := None; MCP_BACKOFF_FACTOR := None;
     MCP_ERROR_THRESHOLD := None; MCP_ERROR_WINDOW := None;
     MCP_BLOCKED_METHODS := None;
     MCP_ALLOWED_DOMAINS := Some ["anthropic.com"; "localhost"];
     MCP_BLOCKED_DOMAINS := Some ["badsite.com"];
     MCP_CUSTOM_PROVIDERS := None |}.

(** A block-list and no allow-list. *)
Definition blocklist_only : Settings :=
  {| MCP_CONNECT_RATE_LIMIT := None; MCP_CONNECT_RATE_WINDOW := None;
     MCP_REQUEST_RATE_LIMIT := None; MCP_REQUEST_RATE_WINDOW := None;
     MCP_DEFAULT_REQUEST_TIMEOUT := None;
     MCP_MAX_RETRIES := None; MCP_BACKOFF_FACTOR := None;
     MCP_ERROR_THRESHOLD := None; MCP_ERROR_WINDOW := None;
     MCP_BLOCKED_METHODS := None;
     MCP_ALLOWED_DOMAINS := None;
     MCP_BLOCKED_DOMAINS := Some ["badsite.com"];
     MCP_CUSTOM_PROVIDERS := None |}.

(** What [urlparse] returns for four URLs: the [netloc] is the authority
    as written, with its port and its capitals. *)
Definition urlparse_authority (url : string)
    : result MCPValidationHooks.ParseResult :=
  if String.eqb url "https://badsite.com/api"
  then Ok {| MCPValidationHooks.scheme := "https";
             MCPValidationHooks.netloc := "badsite.com" |}
  else if String.eqb url "https://badsite.com:8443/api"
  then Ok {| MCPValidationHooks.scheme := "https";
             MCPValidationHooks.netloc := "badsite.com:8443" |}
  else if String.eqb url "https://BADSITE.com/api"
  then Ok {| MCPValidationHooks.scheme := "https";
             MCPValidationHooks.netloc := "BADSITE.com" |}
  else if String.eqb url "http://localhost:3000"
  then Ok {| MCPValidationHooks.scheme := "http";
             MCPValidationHooks.netloc := "localhost:3000" |}
  else Raise (ValueError "not parsed here").

Definition github_backend : MCPServer :=
  {| id := "2"; name := "Code Host"; server_type := "github";
     endpoint := "https://api.github.com";
     configuration := VDict []; authentication := VDict [];
     status := ACTIVE; metadata := []; is_active := true |}.

(** A successful search answer that carries the response headers and a
    trace id in its metadata. *)
Definition traced_listing : MCPResponse :=
  {| success := true;
     data := VDict [("total_count", VInt 1)];
     error := None;
     resp_metadata :=
       Some [("headers", VDict [("X-RateLimit-Limit", VInt 60)]);
             ("trace", VStr "t1")] |}.

(** [traced_listing] with the rate-limit entry the github transform adds. *)
Definition rated_listing : MCPResponse :=
  with_resp_metadata traced_listing
    (Some [("headers", VDict [("X-RateLimit-Limit", VInt 60)]);
           ("trace", VStr "t1");
           ("rate_limit",
            VDict [("limit", VInt 60); ("remaining", VNone);
                   ("reset", VNone)])]).

(** The registry once the claude provider alone has been loaded. *)
Definition claude_loaded (cls : MCPServerRegistry.ProviderClass)
    : MCPServerRegistry.Registry :=
  {| MCPServerRegistry._providers := <["claude" := cls]> ∅;
     MCPServerRegistry._initialized := true |}.

(** * Properties *)

(** ** Dictionaries and the cache *)

Lemma dict_get_set_eq k v d : Dict.get k (Dict.set k v d) = Some v.
Proof.
  induction d as [|[k' v'] r IH]; simpl.
  - now rewrite String.eqb_refl.
  - destruct (String.eqb k k') eqn:E; simpl; rewrite E; auto.
Qed.

Lemma dict_get_set_ne k k' v d :
  k <> k' -> Dict.get k' (Dict.set k v d) = Dict.get k' d.
Proof.
  intros Hne. induction d as [|[k0 v0] r IH]; simpl.
  - destruct (String.eqb k' k) eqn:E; auto.
    apply String.eqb_eq in E. congruence.
  - destruct (String.eqb k k0) eqn:E; simpl.
    + apply String.eqb_eq in E. subst k0.
      destruct (String.eqb k' k) eqn:E'; auto.
      apply String.eqb_eq in E'. congruence.
    + now rewrite IH.
Qed.

Lemma dict_mem_set k k' v d :
  Dict.mem k' (Dict.set k v d) = String.eqb k k' || Dict.mem k' d.
Proof.
  unfold Dict.mem. destruct (String.eqb k k') eqn:E.
  - apply String.eqb_eq in E. subst. now rewrite dict_get_set_eq.
  - apply String.eqb_neq in E. now rewrite dict_get_set_ne.
Qed.

Lemma cache_get_vacant now c key dflt :
  Cache.vacant now c key -> Cache.get now c key dflt = dflt.
Proof.
  unfold Cache.vacant, Cache.get. destruct (c !! key) as [[v e]|]; auto.
  intros H. destruct (Z.ltb_spec now e); auto. lia.
Qed.

Lemma cache_get_set_live now now' c key v timeout dflt :
  now' < now + timeout ->
  Cache.get now' (Cache.set now c key v timeout) key dflt = v.
Proof.
  intros H. unfold Cache.get, Cache.set. rewrite lookup_insert_eq.
  destruct (Z.ltb_spec now' (now + timeout)); auto. lia.
Qed.

Lemma cache_get_set_expired now now' c key v timeout dflt :
  now + timeout <= now' ->
  Cache.get now' (Cache.set now c key v timeout) key dflt = dflt.
Proof.
  intros H. unfold Cache.get, Cache.set. rewrite lookup_insert_eq.
  destruct (Z.ltb_spec now' (now + timeout)); auto. lia.
Qed.

Lemma cache_set_set now now' c key v v' timeout timeout' :
  Cache.set now' (Cache.set now c key v timeout) key v' timeout'
  = Cache.set now' c key v' timeout'.
Proof. unfold Cache.set. apply insert_insert_eq. Qed.

Lemma last_cons_default {A} (l : list A) : forall a d,
  List.last (a :: l) d = List.last l a.
Proof.
  induction l as [|b l IH]; intros a d; [reflexivity|].
  change (List.last (a :: b :: l) d) with (List.last (b :: l) d).
  now rewrite (IH b d), (IH b a).
Qed.

Lemma within_window_tail window t later :
  within_window window (t :: later) -> within_window window later.
Proof. destruct later; simpl; tauto. Qed.

Lemma within_window_take window k times :
  within_window window times -> within_window window (take k times).
Proof.
  revert k. induction times as [|t later IH]; intros k H.
  - now rewrite take_nil.
  - destruct k as [|k]; [exact I|].
    destruct later as [|t' later']; [now destruct k|].
    destruct k as [|k]; [exact I|].
    destruct H as [Ht H]. split; [exact Ht|].
    apply (IH (S k)). exact H.
Qed.

(** ** The rate limiter *)

Section RateLimit.

Variables (st : Settings) (server : MCPServer) (operation : string).
Variables (requests window : Z).
Hypothesis configured : RateLimiter.limits st operation = Some (requests, window).

Let key := RateLimiter.cache_key server operation.

Lemma check_limit_allows now c n :
  Cache.get now c key (VInt 0) = VInt n -> n < requests ->
  RateLimiter.check_limit st now c server operation
  = Ok (true, Cache.set now c key (VInt (n + 1)) window).
Proof.
  intros Hget Hlt. unfold RateLimiter.check_limit. rewrite configured.
  fold key. rewrite Hget. simpl.
  destruct (Z.geb_spec n requests); [lia|reflexivity].
Qed.

Lemma check_limit_denies now c n :
  Cache.get now c key (VInt 0) = VInt n -> requests <= n ->
  RateLimiter.check_limit st now c server operation = Ok (false, c).
Proof.
  intros Hget Hle. unfold RateLimiter.check_limit. rewrite configured.
  fold key. rewrite Hget. simpl.
  destruct (Z.geb_spec n requests); [reflexivity|lia].
Qed.

Lemma check_limits_cons now later c :
  RateLimiter.check_limits st (now :: later) c server operation
  = '(b, c1) ← RateLimiter.check_limit st now c server operation;
    '(bs, c2) ← RateLimiter.check_limits st later c1 server operation;
    Ok (b :: bs, c2).
Proof. reflexivity. Qed.

(** A run of allowed calls: the counter seen by the first one is [n], and
    every call finds the entry of the one before it still live. *)
Lemma check_limits_run later : forall t c n,
  Cache.get t c key (VInt 0) = VInt n ->
  within_window window (t :: later) ->
  n + Z.of_nat (S (length later)) <= requests ->
  RateLimiter.check_limits st (t :: later) c server operation
  = Ok (repeat true (S (length later)),
        Cache.set (List.last later t) c key
          (VInt (n + Z.of_nat (S (length later)))) window).
Proof.
  induction later as [|t' later IH]; intros t c n Hget Hwin Hle.
  - rewrite check_limits_cons.
    rewrite (check_limit_allows _ _ n) by (auto; cbn in Hle; lia).
    reflexivity.
  - rewrite check_limits_cons.
    rewrite (check_limit_allows _ _ n) by (auto; cbn [length] in Hle; lia).
    cbn [mbind result_bind].
    destruct Hwin as [Ht Hwin].
    specialize (IH t' (Cache.set t c key (VInt (n + 1)) window) (n + 1)).
    rewrite IH; cycle 1.
    + apply cache_get_set_live. lia.
    + exact Hwin.
    + cbn [length] in *. lia.
    + cbn [mbind result_bind]. rewrite cache_set_set.
      rewrite (last_cons_default later t' t).
      replace (n + 1 + Z.of_nat (S (length later)))
        with (n + Z.of_nat (S (length (t' :: later))))
        by (cbn [length]; lia).
      reflexivity.
Qed.

End RateLimit.

(** C5. With a configured maximum of N >= 1 calls per window, starting from
    an absent or expired counter, N calls made in one window (each while the
    entry written by the one before is live) are all allowed, the k-th
    leaving the counter at k with a fresh time-to-live; a further call in
    the window is denied and leaves the cache as it is; a call made once the
    window has elapsed is allowed again. *)
Theorem check_limit_window
    (st : Settings) (server : MCPServer) (operation : string)
    (requests window : Z) (c : Cache.t) (t1 : Z) (rest : list Z) :
  RateLimiter.limits st operation = Some (requests, window) ->
  Z.of_nat (length (t1 :: rest)) = requests ->
  Cache.vacant t1 c (RateLimiter.cache_key server operation) ->
  within_window window (t1 :: rest) ->
  let key := RateLimiter.cache_key server operation in
  let t_last := List.last rest t1 in
  let c_full := Cache.set t_last c key (VInt requests) window in
  (forall k : nat, (1 <= k <= length (t1 :: rest))%nat ->
     RateLimiter.check_limits st (take k (t1 :: rest)) c server operation
     = Ok (repeat true k,
           Cache.set (List.last (take (k - 1) rest) t1) c key
             (VInt (Z.of_nat k)) window))
  /\ RateLimiter.check_limits st (t1 :: rest) c server operation
     = Ok (repeat true (length (t1 :: rest)), c_full)
  /\ (forall t, t_last <= t < t_last + window ->
        RateLimiter.check_limit st t c_full server operation = Ok (false, c_full))
  /\ (forall t, t_last + window <= t ->
        RateLimiter.check_limit st t c_full server operation
        = Ok (true, Cache.set t c_full key (VInt 1) window)).
Proof.
  intros Hcfg Hlen Hvac Hwin key t_last c_full.
  cbn [length] in Hlen.
  assert (Hget : Cache.get t1 c key (VInt 0) = VInt 0)
    by (apply cache_get_vacant; exact Hvac).
  repeat split.
  - intros k [Hk1 Hk2].
    destruct k as [|k]; [lia|].
    cbn [take]. replace (S k - 1)%nat with k by lia.
    assert (Hlk : length (take k rest) = k)
      by (rewrite length_take; cbn [length] in Hk2; lia).
    rewrite (check_limits_run st server operation requests window Hcfg
               (take k rest) t1 c 0 Hget).
    + rewrite Hlk. reflexivity.
    + apply (within_window_take window (S k) (t1 :: rest)). exact Hwin.
    + rewrite Hlk. cbn [length] in *. lia.
  - rewrite (check_limits_run st server operation requests window Hcfg
               rest t1 c 0 Hget Hwin) by lia.
    cbn [length] in *. unfold c_full, t_last. now rewrite <- Hlen.
  - intros t Ht.
    apply (check_limit_denies st server operation requests window Hcfg t c_full requests);
      [|lia].
    unfold c_full. apply cache_get_set_live. lia.
  - intros t Ht.
    apply (check_limit_allows st server operation requests window Hcfg t c_full 0).
    + unfold c_full. apply cache_get_set_expired. lia.
    + cbn [length] in Hlen. lia.
Qed.

Lemma check_limit_window_witness :
  RateLimiter.check_limits Sample.tight [100; 130] ∅ Sample.backend "connect"
  = Ok ([true; true],
        Cache.set 130 ∅ "mcp_rate_limit:1:connect" (VInt 2) 60)
  /\ RateLimiter.check_limit Sample.tight 150
       (Cache.set 130 ∅ "mcp_rate_limit:1:connect" (VInt 2) 60)
       Sample.backend "connect"
     = Ok (false, Cache.set 130 ∅ "mcp_rate_limit:1:connect" (VInt 2) 60)
  /\ RateLimiter.check_limit Sample.tight 190
       (Cache.set 130 ∅ "mcp_rate_limit:1:connect" (VInt 2) 60)
       Sample.backend "connect"
     = Ok (true,
           Cache.set 190
             (Cache.set 130 ∅ "mcp_rate_limit:1:connect" (VInt 2) 60)
             "mcp_rate_limit:1:connect" (VInt 1) 60).
Proof.
  destruct (check_limit_window Sample.tight Sample.backend "connect" 2 60 ∅
              100 [130])
    as (_ & Hrun & Hdeny & Hagain).
  - reflexivity.
  - reflexivity.
  - exact I.
  - simpl. lia.
  - split; [exact Hrun|]. split; [apply Hdeny; simpl; lia | apply Hagain; simpl; lia].
Defined.

(** ** The circuit breaker *)

Section CircuitBreaker.

Variable st : Settings.

Let error_threshold := getattr (MCP_ERROR_THRESHOLD st) 10.
Let error_window := getattr (MCP_ERROR_WINDOW st) 300.

Lemma breaker_below clk c server n :
  Cache.get (time_time clk) c (ErrorHandler.error_key server) (VInt 0) = VInt n ->
  n + 1 < error_threshold ->
  ErrorHandler._check_circuit_breaker st clk c server
  = ((Cache.set (time_time clk) c (ErrorHandler.error_key server)
        (VInt (n + 1)) error_window, server), Ok tt).
Proof.
  intros Hget Hlt. unfold ErrorHandler._check_circuit_breaker.
  rewrite Hget. cbn [as_int]. fold error_threshold error_window.
  destruct (Z.geb_spec (n + 1) error_threshold); [lia|reflexivity].
Qed.

Lemma breaker_trips clk c server n :
  Cache.get (time_time clk) c (ErrorHandler.error_key server) (VInt 0) = VInt n ->
  error_threshold <= n + 1 ->
  ErrorHandler._check_circuit_breaker st clk c server
  = ((Cache.set (time_time clk) c (ErrorHandler.error_key server)
        (VInt (n + 1)) error_window,
      with_metadata (with_status server ERROR)
        (Dict.set "circuit_breaker_triggered" (VStr (isoformat clk))
           (metadata server))), Ok tt).
Proof.
  intros Hget Hle. unfold ErrorHandler._check_circuit_breaker.
  rewrite Hget. cbn [as_int]. fold error_threshold error_window.
  destruct (Z.geb_spec (n + 1) error_threshold); [reflexivity|lia].
Qed.

(** Errors recorded while the count stays below the threshold leave the
    record alone. *)
Lemma record_errors_below later : forall clk c server n,
  Cache.get (time_time clk) c (ErrorHandler.error_key server) (VInt 0) = VInt n ->
  within_window error_window (map time_time (clk :: later)) ->
  n + Z.of_nat (S (length later)) < error_threshold ->
  ErrorHandler.record_errors st (clk :: later) c server
  = ((Cache.set (time_time (List.last later clk)) c
        (ErrorHandler.error_key server)
        (VInt (n + Z.of_nat (S (length later)))) error_window, server), Ok tt).
Proof.
  induction later as [|clk' later IH]; intros clk c server n Hget Hwin Hlt.
  - cbn [ErrorHandler.record_errors].
    rewrite (breaker_below _ _ _ n) by (auto; cbn in Hlt; lia).
    reflexivity.
  - change (ErrorHandler.record_errors st (clk :: clk' :: later) c server)
      with (match ErrorHandler._check_circuit_breaker st clk c server with
            | (cs, Raise e) => (cs, Raise e)
            | ((c1, server1), Ok _) =>
                ErrorHandler.record_errors st (clk' :: later) c1 server1
            end).
    rewrite (breaker_below _ _ _ n) by (auto; cbn [length] in Hlt; lia).
    destruct Hwin as [Ht Hwin].
    rewrite (IH clk' _ server (n + 1)).
    + rewrite cache_set_set, (last_cons_default later clk' clk).
      do 4 f_equal. cbn [length]. lia.
    + apply cache_get_set_live. lia.
    + exact Hwin.
    + cbn [length] in *. lia.
Qed.

Lemma record_errors_app clks1 : forall clks2 c server,
  ErrorHandler.record_errors st (clks1 ++ clks2) c server
  = match ErrorHandler.record_errors st clks1 c server with
    | (cs, Raise e) => (cs, Raise e)
    | ((c1, server1), Ok _) => ErrorHandler.record_errors st clks2 c1 server1
    end.
Proof.
  induction clks1 as [|clk clks1 IH]; intros clks2 c server; [reflexivity|].
  cbn [app ErrorHandler.record_errors].
  destruct (ErrorHandler._check_circuit_breaker st clk c server)
    as [[c1 server1] [[]|e]]; [apply IH|reflexivity].
Qed.

End CircuitBreaker.

Lemma within_window_app_last window (l : list Z) : forall a x,
  within_window window ((a :: l) ++ [x]) ->
  within_window window (a :: l)
  /\ List.last l a <= x < List.last l a + window.
Proof.
  induction l as [|b l IH]; intros a x H.
  - cbn in H. cbn. tauto.
  - destruct H as [Hab H]. destruct (IH b x H) as [Hw Hl].
    split; [split; assumption|].
    now rewrite (last_cons_default l b a).
Qed.

Lemma last_map_default {A B} (f : A -> B) (l : list A) : forall a,
  List.last (map f l) (f a) = f (List.last l a).
Proof.
  induction l as [|b l IH]; intros a; [reflexivity|].
  cbn [map]. now rewrite !last_cons_default.
Qed.

(** C4. With a threshold of n >= 1, starting from an absent or expired
    counter, the n-th error recorded for a backend in one window sets its
    status to ERROR and stamps [circuit_breaker_triggered] with the time of
    that call; the n-1 errors before it leave the record as it was. *)
Theorem circuit_breaker_threshold
    (st : Settings) (server : MCPServer) (c : Cache.t)
    (clks : list Clock) (clk_last : Clock) :
  let error_threshold := getattr (MCP_ERROR_THRESHOLD st) 10 in
  let error_window := getattr (MCP_ERROR_WINDOW st) 300 in
  Z.of_nat (length clks) = error_threshold - 1 ->
  Cache.vacant (time_time (hd clk_last clks)) c (ErrorHandler.error_key server) ->
  within_window error_window (map time_time (clks ++ [clk_last])) ->
  (exists c1,
     ErrorHandler.record_errors st clks c server = ((c1, server), Ok tt))
  /\ (exists c2,
        ErrorHandler.record_errors st (clks ++ [clk_last]) c server
        = ((c2, with_metadata (with_status server ERROR)
                  (Dict.set "circuit_breaker_triggered"
                     (VStr (isoformat clk_last)) (metadata server))),
           Ok tt))
  /\ status (snd (fst (ErrorHandler.record_errors st clks c server)))
     = status server
  /\ status (snd (fst (ErrorHandler.record_errors st (clks ++ [clk_last]) c server)))
     = ERROR
  /\ Dict.get "circuit_breaker_triggered"
       (metadata (snd (fst (ErrorHandler.record_errors st (clks ++ [clk_last])
                              c server))))
     = Some (VStr (isoformat clk_last)).
Proof.
  intros error_threshold error_window Hlen Hvac Hwin.
  assert (Hget : Cache.get (time_time (hd clk_last clks)) c
                   (ErrorHandler.error_key server) (VInt 0) = VInt 0)
    by (apply cache_get_vacant; exact Hvac).
  assert (Hboth :
    (exists c1,
       ErrorHandler.record_errors st clks c server = ((c1, server), Ok tt))
    /\ (exists c2,
          ErrorHandler.record_errors st (clks ++ [clk_last]) c server
          = ((c2, with_metadata (with_status server ERROR)
                    (Dict.set "circuit_breaker_triggered"
                       (VStr (isoformat clk_last)) (metadata server))),
             Ok tt))).
  { destruct clks as [|clk later].
    - cbn [length] in Hlen. cbn [hd] in Hget. split.
      + exists c. reflexivity.
      + eexists. cbn [app ErrorHandler.record_errors].
        rewrite (breaker_trips st clk_last c server 0 Hget)
          by (fold error_threshold; lia).
        reflexivity.
    - cbn [hd] in Hget. cbn [length] in Hlen.
      rewrite map_app in Hwin. cbn [map] in Hwin.
      apply (within_window_app_last error_window (map time_time later)
               (time_time clk) (time_time clk_last)) in Hwin.
      destruct Hwin as [Hwin Hlast].
      rewrite last_map_default in Hlast.
      pose proof (record_errors_below st later clk c server 0 Hget Hwin) as Hrun.
      fold error_threshold error_window in Hrun.
      rewrite Hrun by lia. split.
      + eexists. reflexivity.
      + eexists. rewrite record_errors_app, Hrun by lia.
        cbn [ErrorHandler.record_errors].
        rewrite (breaker_trips st clk_last _ server
                   (0 + Z.of_nat (S (length later)))).
        * reflexivity.
        * apply cache_get_set_live. lia.
        * fold error_threshold. lia. }
  destruct Hboth as [[c1 H1] [c2 H2]].
  split; [eauto|]. split; [eauto|].
  rewrite H1, H2. cbn [fst snd with_metadata with_status status metadata].
  repeat split. apply dict_get_set_eq.
Qed.

Lemma circuit_breaker_threshold_witness :
  status (snd (fst (ErrorHandler.record_errors Sample.tight
                      [Sample.clock_at 100 "t100"; Sample.clock_at 200 "t200"]
                      ∅ Sample.backend)))
  = ACTIVE
  /\ status (snd (fst (ErrorHandler.record_errors Sample.tight
                         ([Sample.clock_at 100 "t100"; Sample.clock_at 200 "t200"]
                          ++ [Sample.clock_at 450 "t450"])
                         ∅ Sample.backend)))
     = ERROR
  /\ Dict.get "circuit_breaker_triggered"
       (metadata (snd (fst (ErrorHandler.record_errors Sample.tight
                              ([Sample.clock_at 100 "t100";
                                Sample.clock_at 200 "t200"]
                               ++ [Sample.clock_at 450 "t450"])
                              ∅ Sample.backend))))
     = Some (VStr "t450").
Proof.
  destruct (circuit_breaker_threshold Sample.tight Sample.backend ∅
              [Sample.clock_at 100 "t100"; Sample.clock_at 200 "t200"]
              (Sample.clock_at 450 "t450"))
    as (_ & _ & Hkeep & Htrip & Hstamp).
  - reflexivity.
  - exact I.
  - simpl. lia.
  - exact (conj Hkeep (conj Htrip Hstamp)).
Defined.

(** ** The error handler *)

Lemma is_retryable_intro pattern e :
  In pattern ErrorHandler.retryable_patterns ->
  contains pattern (lower e) = true ->
  ErrorHandler._is_retryable_error (Some e) = true.
Proof.
  intros Hin Hc. unfold ErrorHandler._is_retryable_error.
  destruct (String.eqb e "") eqn:E.
  - apply String.eqb_eq in E. subst e. exfalso.
    cbn in Hin. intuition (subst; discriminate).
  - apply existsb_exists. exists pattern. split; assumption.
Qed.

(** C1. For a failed response whose error text contains, case-insensitively,
    one of the retryable patterns, and a context whose retry count is r >= 0:
    below the configured maximum the handler returns the response, sets
    [retry_count] to r + 1, [should_retry] to True and [retry_delay] to
    [backoff_factor ** r], and touches neither cache nor backend; at (or
    beyond) the maximum it writes nothing into the request, so
    [should_retry] is left as it was. *)
Theorem handle_error_retry
    (st : Settings) (clk : Clock) (c : Cache.t) (server : MCPServer)
    (request : MCPRequest) (response : MCPResponse)
    (e pattern : string) (r : Z) :
  success response = false ->
  error response = Some e ->
  In pattern ErrorHandler.retryable_patterns ->
  contains pattern (lower e) = true ->
  ErrorHandler.current_retry_count request = VInt r ->
  0 <= r ->
  let max_retries := getattr (MCP_MAX_RETRIES st) 3 in
  let backoff_factor := getattr (MCP_BACKOFF_FACTOR st) 2 in
  let out := ErrorHandler.handle_error st clk c server request response in
  (r < max_retries ->
     snd out = Ok response
     /\ ErrorHandler.fx_cache (fst out) = c
     /\ ErrorHandler.fx_server (fst out) = server
     /\ exists ctx,
          context (ErrorHandler.fx_request (fst out)) = Some ctx
          /\ Dict.get "retry_count" ctx = Some (VInt (r + 1))
          /\ Dict.get "should_retry" ctx = Some (VBool true)
          /\ Dict.get "retry_delay" ctx = Some (VInt (backoff_factor ^ r)))
  /\ (max_retries <= r ->
        ErrorHandler.fx_request (fst out) = request
        /\ forall ctx, context request = Some ctx ->
             Dict.get "should_retry" ctx = None ->
             exists ctx',
               context (ErrorHandler.fx_request (fst out)) = Some ctx'
               /\ Dict.get "should_retry" ctx' = None).
Proof.
  intros _ He Hin Hc Hr Hr0 max_retries backoff_factor out.
  pose proof (is_retryable_intro pattern e Hin Hc) as Hretry.
  subst out. unfold ErrorHandler.handle_error.
  rewrite He, Hretry, Hr. cbn [as_int].
  fold max_retries backoff_factor. split.
  - intros Hlt. destruct (Z.ltb_spec r max_retries); [|lia].
    unfold ErrorHandler.py_pow. destruct (Z.leb_spec 0 r); [|lia].
    set (ctx0 := if Dict.nonempty (context request)
                 then Dict.or_empty (context request) else []).
    set (ctx3 := Dict.set "retry_delay" (VInt (backoff_factor ^ r))
                   (Dict.set "should_retry" (VBool true)
                      (Dict.set "retry_count" (VInt (r + 1)) ctx0))).
    assert (Hmarked : ErrorHandler.not_marked
                        (with_context request (Some ctx3)) = false).
    { unfold ErrorHandler.not_marked, Dict.get_or.
      cbn [with_context context Dict.or_empty].
      assert (Hsr : Dict.get "should_retry" ctx3 = Some (VBool true)).
      { unfold ctx3. rewrite dict_get_set_ne by discriminate.
        apply dict_get_set_eq. }
      rewrite Hsr. cbn [truthy negb orb].
      destruct ctx3 as [|p q] eqn:E3; [discriminate Hsr|reflexivity]. }
    rewrite Hmarked. cbn [fst snd ErrorHandler.fx_cache ErrorHandler.fx_server
                            ErrorHandler.fx_request with_context context].
    repeat split. exists ctx3. repeat split.
    + unfold ctx3. rewrite !dict_get_set_ne by discriminate.
      apply dict_get_set_eq.
    + unfold ctx3. rewrite dict_get_set_ne by discriminate.
      apply dict_get_set_eq.
    + unfold ctx3. apply dict_get_set_eq.
  - intros Hge. destruct (Z.ltb_spec r max_retries); [lia|].
    assert (Hreq : ErrorHandler.fx_request
              (fst (if ErrorHandler.not_marked request
                    then
                      match ErrorHandler._check_circuit_breaker st clk c server with
                      | ((c1, server1), Raise e0) =>
                          ({| ErrorHandler.fx_cache := c1;
                              ErrorHandler.fx_server := server1;
                              ErrorHandler.fx_request := request |}, Raise e0)
                      | ((c1, server1), Ok _) =>
                          ({| ErrorHandler.fx_cache := c1;
                              ErrorHandler.fx_server := server1;
                              ErrorHandler.fx_request := request |}, Ok response)
                      end
                    else
                      ({| ErrorHandler.fx_cache := c;
                          ErrorHandler.fx_server := server;
                          ErrorHandler.fx_request := request |}, Ok response)))
            = request).
    { destruct (ErrorHandler.not_marked request); [|reflexivity].
      destruct (ErrorHandler._check_circuit_breaker st clk c server)
        as [[c1 server1] [u|e0]]; reflexivity. }
    split; [exact Hreq|].
    intros ctx Hctx Hnone. exists ctx. rewrite Hreq. split; assumption.
Qed.

Lemma handle_error_retry_witness :
  let out := ErrorHandler.handle_error unset (Sample.clock_at 100 "t100") ∅
               Sample.backend
               (Sample.request_with (Some [("retry_count", VInt 2)]))
               (Sample.failure "Connection Timeout") in
  snd out = Ok (Sample.failure "Connection Timeout")
  /\ ErrorHandler.fx_cache (fst out) = ∅
  /\ ErrorHandler.fx_server (fst out) = Sample.backend
  /\ exists ctx,
       context (ErrorHandler.fx_request (fst out)) = Some ctx
       /\ Dict.get "retry_count" ctx = Some (VInt 3)
       /\ Dict.get "should_retry" ctx = Some (VBool true)
       /\ Dict.get "retry_delay" ctx = Some (VInt 4).
Proof.
  apply (handle_error_retry unset (Sample.clock_at 100 "t100") ∅
           Sample.backend
           (Sample.request_with (Some [("retry_count", VInt 2)]))
           (Sample.failure "Connection Timeout")
           "Connection Timeout" "timeout" 2).
  - reflexivity.
  - reflexivity.
  - simpl. tauto.
  - reflexivity.
  - reflexivity.
  - lia.
  - simpl. lia.
Defined.

(** A failed response that is not marked for retry on this call, with a
    context carrying no truthy [should_retry], is counted once against the
    backend's error window. *)
Lemma handle_error_counts_unmarked
    (st : Settings) (clk : Clock) (c : Cache.t) (server : MCPServer)
    (request : MCPRequest) (response : MCPResponse) (n : Z) :
  ErrorHandler._is_retryable_error (error response) = false ->
  ErrorHandler.not_marked request = true ->
  Cache.get (time_time clk) c (ErrorHandler.error_key server) (VInt 0) = VInt n ->
  ErrorHandler.fx_cache
    (fst (ErrorHandler.handle_error st clk c server request response))
  = Cache.set (time_time clk) c (ErrorHandler.error_key server) (VInt (n + 1))
      (getattr (MCP_ERROR_WINDOW st) 300).
Proof.
  intros Hfatal Hun Hget. unfold ErrorHandler.handle_error.
  rewrite Hfatal, Hun.
  destruct (Z_lt_le_dec (n + 1) (getattr (MCP_ERROR_THRESHOLD st) 10)).
  - now rewrite (breaker_below st clk c server n Hget).
  - now rewrite (breaker_trips st clk c server n Hget).
Qed.

(** A context that carries a truthy [should_retry] keeps the error of a
    call that is not marked for retry out of the error window. *)
Lemma handle_error_skips_when_flagged
    (st : Settings) (clk : Clock) (c : Cache.t) (server : MCPServer)
    (request : MCPRequest) (response : MCPResponse) :
  ErrorHandler._is_retryable_error (error response) = false ->
  ErrorHandler.not_marked request = false ->
  ErrorHandler.handle_error st clk c server request response
  = ({| ErrorHandler.fx_cache := c; ErrorHandler.fx_server := server;
        ErrorHandler.fx_request := request |}, Ok response).
Proof.
  intros Hfatal Hflag. unfold ErrorHandler.handle_error.
  now rewrite Hfatal, Hflag.
Qed.

(** C3, at a failing input. A request whose three retries are used up comes
    back with the context the earlier calls left ([should_retry] still
    True). The handler does not mark it for retry, yet records no error:
    the cache is unchanged, whatever it held. The same holds for a fatal
    error arriving with such a context. With the flag absent the same call
    records one error. That context is the one three calls of the handler
    itself leave on a request that started without any, and a fourth call
    on it still records nothing. *)
Theorem handle_error_stale_flag_skips_breaker (clk : Clock) (c : Cache.t) :
  let request := Sample.request_with (Some Sample.exhausted_context) in
  let resubmitted n :=
    ErrorHandler.resubmissions unset (repeat clk n) c Sample.backend
      (Sample.request_with None) (Sample.failure "Connection timeout") in
  let exhausted :=
    ErrorHandler.handle_error unset clk c Sample.backend request
      (Sample.failure "Connection timeout") in
  let fatal :=
    ErrorHandler.handle_error unset clk c Sample.backend request
      (Sample.failure "Invalid API key") in
  let unflagged :=
    ErrorHandler.handle_error unset clk ∅ Sample.backend
      (Sample.request_with (Some [("retry_count", VInt 3)]))
      (Sample.failure "Connection timeout") in
  (ErrorHandler.fx_request (fst exhausted) = request
   /\ ErrorHandler.fx_cache (fst exhausted) = c
   /\ snd exhausted = Ok (Sample.failure "Connection timeout"))
  /\ (ErrorHandler.fx_request (fst fatal) = request
      /\ ErrorHandler.fx_cache (fst fatal) = c
      /\ snd fatal = Ok (Sample.failure "Invalid API key"))
  /\ ErrorHandler.fx_cache (fst unflagged)
     = Cache.set (time_time clk) ∅ "mcp_circuit_breaker:1" (VInt 1) 300
  /\ ErrorHandler.fx_request (fst (resubmitted 3%nat)) = request
  /\ ErrorHandler.fx_request (fst (resubmitted 4%nat)) = request
  /\ ErrorHandler.fx_cache (fst (resubmitted 4%nat)) = c.
Proof.
  cbv zeta. repeat split.
Qed.

(** ** The response transform *)

(** For a backend type other than claude and github the response gets a
    processing timestamp. *)
Lemma transform_default_stamps clk server response hook_context :
  String.eqb (server_type server) "claude" = false ->
  String.eqb (server_type server) "github" = false ->
  exists response' md,
    ResponseTransformer.transform clk server response hook_context = Ok response'
    /\ resp_metadata response' = Some md
    /\ Dict.get "processed_at" md = Some (VStr (isoformat clk)).
Proof.
  intros Hc Hg. unfold ResponseTransformer.transform. rewrite Hc, Hg.
  unfold ResponseTransformer._apply_default_transformations.
  eexists. eexists. split; [reflexivity|].
  cbn [error with_resp_metadata].
  destruct (error response) as [e|]; [destruct (negb (String.eqb e ""))|];
    cbn [resp_metadata with_error with_resp_metadata];
    (split; [reflexivity|apply dict_get_set_eq]).
Qed.

(** C2, at failing inputs. For a claude backend the transform returns a
    successful listing with metadata that holds no [processed_at], and a
    failed response with its [token=...] text intact; github likewise;
    [post_request] hands the listing back as it is. The default pass
    stamps and redacts the same responses. *)
Theorem transform_claude_skips_default_pass (clk : Clock) :
  let leaked := Sample.failure "auth failed token=abc123 for user" in
  ResponseTransformer.transform clk Sample.claude_backend Sample.tools_listing None
  = Ok Sample.tools_listing
  /\ Dict.get "processed_at" (Dict.or_empty (resp_metadata Sample.tools_listing))
     = None
  /\ ResponseTransformer.transform clk Sample.claude_backend leaked None
     = Ok leaked
  /\ (forall server, server_type server = "github" ->
        ResponseTransformer.transform clk server leaked None = Ok leaked)
  /\ (forall c request,
        snd (MCPPostProcessingHooks.post_request unset clk c
               Sample.claude_backend request Sample.tools_listing None)
        = Ok Sample.tools_listing)
  /\ error (ResponseTransformer._apply_default_transformations clk leaked None)
     = Some "auth failed [REDACTED] for user"
  /\ Dict.get "processed_at"
       (Dict.or_empty
          (resp_metadata
             (ResponseTransformer._apply_default_transformations clk
                Sample.tools_listing None)))
     = Some (VStr (isoformat clk)).
Proof.
  cbv zeta. repeat split.
  intros server Hty. unfold ResponseTransformer.transform. rewrite Hty.
  reflexivity.
Qed.

(** ** Record validation *)

Lemma report_lookup_ne field k problems (errors : gmap string (list string)) :
  field <> k ->
  MCPValidationHooks.report field problems errors !! k = errors !! k.
Proof.
  intros Hne. unfold MCPValidationHooks.report.
  destruct problems; [reflexivity|]. now apply lookup_insert_ne.
Qed.

Lemma report_lookup_eq field problems (errors : gmap string (list string)) :
  problems <> [] ->
  MCPValidationHooks.report field problems errors !! field = Some problems.
Proof.
  intros Hne. unfold MCPValidationHooks.report.
  destruct problems; [congruence|]. apply lookup_insert_eq.
Qed.

Section RecordValidation.

Variable urlparse : string -> result MCPValidationHooks.ParseResult.
Variables config_size authentication_problems : value -> list string.
Variable provider_problems : string -> value -> list string.
Variable st : Settings.

Let validate :=
  MCPValidationHooks.validate_server_configuration urlparse config_size
    authentication_problems provider_problems st.

Lemma validate_name_field server :
  MCPValidationHooks._validate_server_name (name server) <> [] ->
  validate server !! "name"
  = Some (MCPValidationHooks._validate_server_name (name server)).
Proof.
  intros Hne. unfold validate, MCPValidationHooks.validate_server_configuration.
  destruct (negb (String.eqb (server_type server) ""));
    rewrite !report_lookup_ne by discriminate;
    now apply report_lookup_eq.
Qed.

Lemma validate_name_field_clean server :
  MCPValidationHooks._validate_server_name (name server) = [] ->
  validate server !! "name" = None.
Proof.
  intros Hnil. unfold validate, MCPValidationHooks.validate_server_configuration.
  destruct (negb (String.eqb (server_type server) ""));
    rewrite !report_lookup_ne by discriminate;
    rewrite Hnil; reflexivity.
Qed.

Lemma validate_endpoint_field server :
  MCPValidationHooks._validate_endpoint urlparse st (endpoint server) <> [] ->
  validate server !! "endpoint"
  = Some (MCPValidationHooks._validate_endpoint urlparse st (endpoint server)).
Proof.
  intros Hne. unfold validate, MCPValidationHooks.validate_server_configuration.
  destruct (negb (String.eqb (server_type server) ""));
    rewrite !report_lookup_ne by discriminate;
    now apply report_lookup_eq.
Qed.

End RecordValidation.

Lemma validate_server_name_problems name :
  (String.length name < 3)%nat \/ (255 < String.length name)%nat
  \/ MCPValidationHooks.all_chars MCPValidationHooks.name_char name = false ->
  MCPValidationHooks._validate_server_name name <> [].
Proof.
  intros H. unfold MCPValidationHooks._validate_server_name.
  destruct (String.eqb name "") eqn:E; [discriminate|].
  destruct H as [H|[H|H]].
  - apply Nat.ltb_lt in H. rewrite H. discriminate.
  - apply Nat.ltb_lt in H. rewrite H.
    destruct (String.length name <? 3)%nat; discriminate.
  - unfold MCPValidationHooks.re_match_name. rewrite E, H. cbn [negb andb].
    destruct (String.length name <? 3)%nat;
      destruct (255 <? String.length name)%nat; discriminate.
Qed.

(** C6. The name [a<TAB>b] has three characters, one of them a tab, which
    is outside [[A-Za-z0-9 _-]]; validation reports nothing for it and
    nothing under [name], although the problem the check reports for
    another bad name says that only alphanumeric characters, spaces,
    hyphens and underscores are allowed. *)
Theorem server_name_with_tab_passes :
  MCPValidationHooks.all_chars MCPValidationHooks.stated_name_char
    Sample.tabbed_name = false
  /\ MCPValidationHooks._validate_server_name Sample.tabbed_name = []
  /\ (forall urlparse config_size authentication_problems provider_problems st,
        MCPValidationHooks.validate_server_configuration urlparse config_size
          authentication_problems provider_problems st
          (Sample.named Sample.tabbed_name) !! "name" = None)
  /\ MCPValidationHooks._validate_server_name "a@b"
     = ["Server name can only contain alphanumeric characters, spaces, hyphens, and underscores"].
Proof.
  split; [reflexivity|]. split; [reflexivity|].
  split; [|reflexivity].
  intros. now apply validate_name_field_clean.
Qed.

(** The names the check does refuse: every backend name of length below 3
    or above 255, or with a character outside the class the code tests,
    [[a-zA-Z0-9\s\-_]] (alphanumerics, any whitespace, hyphen, underscore),
    draws a non-empty list of problems under [name]. *)
Theorem server_name_rejected
    (urlparse : string -> result MCPValidationHooks.ParseResult)
    (config_size authentication_problems : value -> list string)
    (provider_problems : string -> value -> list string)
    (st : Settings) (server : MCPServer) :
  (String.length (name server) < 3)%nat
  \/ (255 < String.length (name server))%nat
  \/ MCPValidationHooks.all_chars MCPValidationHooks.name_char (name server)
     = false ->
  exists problems,
    MCPValidationHooks.validate_server_configuration urlparse config_size
      authentication_problems provider_problems st server !! "name"
    = Some problems
    /\ problems <> []
    /\ problems = MCPValidationHooks._validate_server_name (name server).
Proof.
  intros H. apply validate_server_name_problems in H.
  exists (MCPValidationHooks._validate_server_name (name server)).
  split; [now apply validate_name_field|]. split; [exact H|reflexivity].
Qed.

Lemma server_name_rejected_witness :
  exists problems,
    MCPValidationHooks.validate_server_configuration Sample.urlparse
      Sample.no_problems Sample.no_problems Sample.no_provider_problems
      unset (Sample.named "server@#$%") !! "name"
    = Some problems
    /\ problems <> []
    /\ problems = MCPValidationHooks._validate_server_name "server@#$%".
Proof.
  apply (server_name_rejected Sample.urlparse Sample.no_problems
           Sample.no_problems Sample.no_provider_problems unset
           (Sample.named "server@#$%")).
  right. right. reflexivity.
Defined.

(** What the block-list check does ensure: for every endpoint whose
    [netloc], the authority as written, ends with an entry of the
    configured block-list, record validation reports problems under
    [endpoint], the blocked-domain problem among them, whatever the
    allow-list holds and whether or not the [netloc] matches it. *)
Theorem blocked_endpoint_rejected
    (urlparse : string -> result MCPValidationHooks.ParseResult)
    (config_size authentication_problems : value -> list string)
    (provider_problems : string -> value -> list string)
    (st : Settings) (server : MCPServer)
    (parsed : MCPValidationHooks.ParseResult) (domain : string) :
  urlparse (endpoint server) = Ok parsed ->
  In domain (getattr (MCP_BLOCKED_DOMAINS st) []) ->
  endswith (MCPValidationHooks.netloc parsed) domain = true ->
  exists problems,
    MCPValidationHooks.validate_server_configuration urlparse config_size
      authentication_problems provider_problems st server !! "endpoint"
    = Some problems
    /\ problems <> []
    /\ (endpoint server <> "" ->
        In ("Endpoint domain is blocked: " +:+ MCPValidationHooks.netloc parsed)
          problems).
Proof.
  intros Hparse Hin Hend.
  assert (Hblocked : endpoint server <> "" ->
    In ("Endpoint domain is blocked: " +:+ MCPValidationHooks.netloc parsed)
       (MCPValidationHooks._validate_endpoint urlparse st (endpoint server))).
  { intros Hne. unfold MCPValidationHooks._validate_endpoint.
    apply String.eqb_neq in Hne. rewrite Hne, Hparse.
    rewrite !in_app_iff. do 4 right.
    assert (Hex : existsb (endswith (MCPValidationHooks.netloc parsed))
                    (getattr (MCP_BLOCKED_DOMAINS st) []) = true)
      by (apply existsb_exists; eauto).
    rewrite Hex.
    destruct (getattr (MCP_BLOCKED_DOMAINS st) []); [destruct Hin|].
    left. reflexivity. }
  exists (MCPValidationHooks._validate_endpoint urlparse st (endpoint server)).
  assert (Hnil : MCPValidationHooks._validate_endpoint urlparse st
                   (endpoint server) <> []).
  { destruct (String.eqb (endpoint server) "") eqn:E.
    - unfold MCPValidationHooks._validate_endpoint. rewrite E. discriminate.
    - apply String.eqb_neq in E. intros Hnil.
      specialize (Hblocked E). rewrite Hnil in Hblocked. destruct Hblocked. }
  split; [now apply validate_endpoint_field|]. split; assumption.
Qed.

Lemma blocked_endpoint_rejected_witness :
  existsb (endswith "evil.anthropic.com")
    (getattr (MCP_ALLOWED_DOMAINS Sample.tight) []) = true
  /\ exists problems,
       MCPValidationHooks.validate_server_configuration Sample.urlparse
         Sample.no_problems Sample.no_problems Sample.no_provider_problems
         Sample.tight (Sample.at_endpoint "https://evil.anthropic.com/v1/mcp")
         !! "endpoint"
       = Some problems
       /\ problems <> []
       /\ In "Endpoint domain is blocked: evil.anthropic.com" problems.
Proof.
  split; [reflexivity|].
  destruct (blocked_endpoint_rejected Sample.urlparse Sample.no_problems
           Sample.no_problems Sample.no_provider_problems Sample.tight
           (Sample.at_endpoint "https://evil.anthropic.com/v1/mcp")
           {| MCPValidationHooks.scheme := "https";
              MCPValidationHooks.netloc := "evil.anthropic.com" |}
           "evil.anthropic.com") as (problems & Hfield & Hnil & Hblocked).
  - reflexivity.
  - simpl. tauto.
  - reflexivity.
  - exists problems. split; [exact Hfield|]. split; [exact Hnil|].
    apply Hblocked. discriminate.
Defined.

Lemma validate_endpoint_field_clean urlparse config_size
    authentication_problems provider_problems st server :
  MCPValidationHooks._validate_endpoint urlparse st (endpoint server) = [] ->
  MCPValidationHooks.validate_server_configuration urlparse config_size
    authentication_problems provider_problems st server !! "endpoint" = None.
Proof.
  intros Hnil. unfold MCPValidationHooks.validate_server_configuration.
  destruct (negb (String.eqb (server_type server) ""));
    rewrite !report_lookup_ne by discriminate;
    rewrite Hnil; cbn [MCPValidationHooks.report];
    now rewrite report_lookup_ne by discriminate.
Qed.

(** C7. The block-list is tested against the URL's [netloc], which keeps
    the port and the capitals of the authority, not against the host. With
    [badsite.com] blocked, the endpoint [https://badsite.com/api] is
    refused, but [https://badsite.com:8443/api] and
    [https://BADSITE.com/api], whose host is the same blocked
    [badsite.com], draw no problem and nothing is reported under
    [endpoint]. The allow-list is tested the same way: under the domain
    lists of the repository's endpoint test, [http://localhost:3000], which
    that test expects to pass for the allowed [localhost], is refused. *)
Theorem blocked_host_with_port_passes :
  MCPValidationHooks._validate_endpoint urlparse_authority blocklist_only
    "https://badsite.com/api"
  = ["Endpoint domain is blocked: badsite.com"]
  /\ MCPValidationHooks._validate_endpoint urlparse_authority blocklist_only
       "https://badsite.com:8443/api" = []
  /\ MCPValidationHooks._validate_endpoint urlparse_authority blocklist_only
       "https://BADSITE.com/api" = []
  /\ (forall config_size authentication_problems provider_problems,
        MCPValidationHooks.validate_server_configuration urlparse_authority
          config_size authentication_problems provider_problems blocklist_only
          (Sample.at_endpoint "https://badsite.com:8443/api") !! "endpoint"
        = None)
  /\ MCPValidationHooks._validate_endpoint urlparse_authority test_domains
       "http://localhost:3000"
     = ["Endpoint domain not in allowed list: localhost:3000"].
Proof.
  split; [reflexivity|]. split; [reflexivity|]. split; [reflexivity|].
  split; [|reflexivity].
  intros. now apply validate_endpoint_field_clean.
Qed.

(** ** The provider registry *)

(** C8, as stated, fails: a subclass of [BaseMCPProvider] that implements
    none of the contract's methods is registered and listed. *)
Lemma abstract_subclass_is_registered :
  MCPServerRegistry.implements_contract Sample.abstract_subclass = false
  /\ snd (MCPServerRegistry.register_provider "partial"
            Sample.abstract_subclass Sample.fresh_registry) = Ok tt
  /\ exists listing,
       snd (MCPServerRegistry.list_providers Sample.nothing_importable
              Sample.nothing_importable unset
              (fst (MCPServerRegistry.register_provider "partial"
                      Sample.abstract_subclass Sample.fresh_registry)))
       = Ok listing
       /\ listing !! "partial"
          = Some [("name", VNone); ("description", VNone);
                  ("version", VStr "1.0.0")].
Proof.
  split; [reflexivity|]. split; [reflexivity|].
  eexists. split; [reflexivity|].
  cbn [fst MCPServerRegistry.register_provider negb
       MCPServerRegistry.inherits_base Sample.abstract_subclass
       MCPServerRegistry._providers Sample.fresh_registry].
  rewrite lookup_fmap, lookup_insert_eq. reflexivity.
Qed.

Section RegistryKeys.

Variables import_builtin import_custom
  : string -> option MCPServerRegistry.ProviderClass.

Lemma load_builtin_keys names : forall reg k,
  is_Some (MCPServerRegistry._providers
             (fst (MCPServerRegistry.load_builtin import_builtin names reg))
           !! k) ->
  is_Some (MCPServerRegistry._providers reg !! k)
  \/ (In k names /\ is_Some (import_builtin k)).
Proof.
  induction names as [|n names IH]; intros reg k Hk;
    cbn [MCPServerRegistry.load_builtin] in Hk; [now left|].
  destruct (import_builtin n) as [cls|] eqn:En.
  - unfold MCPServerRegistry.register_provider in Hk.
    destruct (negb (MCPServerRegistry.inherits_base cls)); [now left|].
    apply IH in Hk. cbn [MCPServerRegistry._providers] in Hk.
    destruct Hk as [Hk|[Hin Himp]]; [|right; split; [now right|exact Himp]].
    destruct (String.eqb_spec k n) as [->|Hne].
    + right. split; [now left|]. rewrite En. eauto.
    + left. rewrite lookup_insert_ne in Hk by congruence. exact Hk.
  - apply IH in Hk. destruct Hk as [Hk|[Hin Himp]]; [now left|].
    right. split; [now right|exact Himp].
Qed.

Lemma load_custom_keys items : forall reg k,
  is_Some (MCPServerRegistry._providers
             (MCPServerRegistry.load_custom import_custom items reg) !! k) ->
  is_Some (MCPServerRegistry._providers reg !! k)
  \/ exists module_path,
       In (k, module_path) items /\ is_Some (import_custom module_path).
Proof.
  induction items as [|[n module_path] items IH]; intros reg k Hk;
    cbn [MCPServerRegistry.load_custom] in Hk; [now left|].
  destruct (import_custom module_path) as [cls|] eqn:En.
  - apply IH in Hk.
    destruct Hk as [Hk|(path & Hin & Himp)];
      [|right; exists path; split; [now right|exact Himp]].
    unfold MCPServerRegistry.register_provider in Hk.
    destruct (negb (MCPServerRegistry.inherits_base cls)); [now left|].
    cbn [fst MCPServerRegistry._providers] in Hk.
    destruct (String.eqb_spec k n) as [->|Hne].
    + right. exists module_path. split; [now left|]. rewrite En. eauto.
    + left. rewrite lookup_insert_ne in Hk by congruence. exact Hk.
  - apply IH in Hk. destruct Hk as [Hk|(path & Hin & Himp)]; [now left|].
    right. exists path. split; [now right|exact Himp].
Qed.

Lemma list_providers_keys st reg reg' listing k :
  MCPServerRegistry.list_providers import_builtin import_custom st reg
  = (reg', Ok listing) ->
  is_Some (listing !! k) ->
  is_Some (MCPServerRegistry._providers reg !! k)
  \/ (MCPServerRegistry._initialized reg = false
      /\ ((In k MCPServerRegistry.builtin_providers
           /\ is_Some (import_builtin k))
          \/ exists module_path,
               In (k, module_path) (getattr (MCP_CUSTOM_PROVIDERS st) [])
               /\ is_Some (import_custom module_path))).
Proof.
  intros Hlist Hk. unfold MCPServerRegistry.list_providers in Hlist.
  destruct (MCPServerRegistry._initialized reg) eqn:Einit.
  - injection Hlist as <- <-. left.
    rewrite lookup_fmap in Hk. now apply fmap_is_Some in Hk.
  - unfold MCPServerRegistry.initialize in Hlist. rewrite Einit in Hlist.
    unfold MCPServerRegistry._load_builtin_providers in Hlist.
    pose proof (load_builtin_keys MCPServerRegistry.builtin_providers reg k)
      as Hbuiltin.
    destruct (MCPServerRegistry.load_builtin import_builtin
                MCPServerRegistry.builtin_providers reg) as [reg0 [u|e]];
      [|discriminate Hlist].
    injection Hlist as <- <-.
    rewrite lookup_fmap in Hk. apply fmap_is_Some in Hk.
    cbn [MCPServerRegistry._providers] in Hk.
    unfold MCPServerRegistry._load_custom_providers in Hk.
    apply load_custom_keys in Hk.
    destruct Hk as [Hk|Hcustom]; [|right; split; [reflexivity|now right]].
    destruct (Hbuiltin Hk) as [Hreg|Hb]; [now left|].
    right. split; [reflexivity|now left].
Qed.

End RegistryKeys.

(** C8, amended. For every class that does not derive from
    [BaseMCPProvider], [register_provider] raises its [ValueError] and
    leaves the registry as it was, so [list_providers] returns what it
    would have returned without the call: the name is listed only if it was
    registered before or, on a registry not yet initialised, if the
    initialisation that [list_providers] runs loads a built-in or custom
    provider under that name. A class that derives from [BaseMCPProvider]
    is registered under the name, whatever it implements, and on an
    initialised registry [list_providers] then lists it. *)
Theorem register_provider_rejects_non_subclass
    (name : string) (provider_class : MCPServerRegistry.ProviderClass)
    (reg : MCPServerRegistry.Registry) :
  let registered :=
    MCPServerRegistry.register_provider name provider_class reg in
  (MCPServerRegistry.inherits_base provider_class = false ->
   registered
   = (reg, Raise (ValueError ("Provider " +:+ name
                              +:+ " must inherit from BaseMCPProvider")))
   /\ forall import_builtin import_custom st,
        MCPServerRegistry.list_providers import_builtin import_custom st
          (fst registered)
        = MCPServerRegistry.list_providers import_builtin import_custom st reg
        /\ forall reg' listing,
             MCPServerRegistry.list_providers import_builtin import_custom st
               (fst registered) = (reg', Ok listing) ->
             is_Some (listing !! name) ->
             is_Some (MCPServerRegistry._providers reg !! name)
             \/ (MCPServerRegistry._initialized reg = false
                 /\ ((In name MCPServerRegistry.builtin_providers
                      /\ is_Some (import_builtin name))
                     \/ exists module_path,
                          In (name, module_path)
                            (getattr (MCP_CUSTOM_PROVIDERS st) [])
                          /\ is_Some (import_custom module_path))))
  /\ (MCPServerRegistry.inherits_base provider_class = true ->
      snd registered = Ok tt
      /\ MCPServerRegistry._providers (fst registered) !! name
         = Some provider_class
      /\ (forall other, other <> name ->
            MCPServerRegistry._providers (fst registered) !! other
            = MCPServerRegistry._providers reg !! other)
      /\ (MCPServerRegistry._initialized reg = true ->
          forall import_builtin import_custom st,
          exists listing,
            MCPServerRegistry.list_providers import_builtin import_custom st
              (fst registered) = (fst registered, Ok listing)
            /\ listing !! name
               = Some (MCPServerRegistry.describe provider_class))).
Proof.
  intros registered. subst registered. split; intros Hbase.
  - assert (Hreg : MCPServerRegistry.register_provider name provider_class reg
                   = (reg, Raise (ValueError ("Provider " +:+ name
                                    +:+ " must inherit from BaseMCPProvider"))))
      by (unfold MCPServerRegistry.register_provider; now rewrite Hbase).
    rewrite Hreg. cbn [fst]. split; [reflexivity|].
    intros import_builtin import_custom st. split; [reflexivity|].
    intros reg' listing Hlist Hk.
    exact (list_providers_keys import_builtin import_custom st reg reg'
             listing name Hlist Hk).
  - unfold MCPServerRegistry.register_provider. rewrite Hbase.
    cbn [negb fst snd MCPServerRegistry._providers].
    split; [reflexivity|]. split; [apply lookup_insert_eq|].
    split; [intros other Hne; apply lookup_insert_ne; congruence|].
    intros Hinit import_builtin import_custom st.
    unfold MCPServerRegistry.list_providers.
    cbn [MCPServerRegistry._initialized]. rewrite Hinit.
    eexists. split; [reflexivity|].
    cbn [MCPServerRegistry._providers].
    now rewrite lookup_fmap, lookup_insert_eq.
Qed.

Lemma register_provider_rejects_non_subclass_witness :
  MCPServerRegistry.implements_contract Sample.unrelated_class = true
  /\ MCPServerRegistry.register_provider "invalid" Sample.unrelated_class
       cold_registry
     = (cold_registry,
        Raise (ValueError "Provider invalid must inherit from BaseMCPProvider"))
  /\ (exists listing,
        MCPServerRegistry.list_providers
          (claude_importable Sample.abstract_subclass)
          Sample.nothing_importable unset
          (fst (MCPServerRegistry.register_provider "invalid"
                  Sample.unrelated_class cold_registry))
        = (claude_loaded Sample.abstract_subclass, Ok listing)
        /\ listing !! "invalid" = None)
  /\ MCPServerRegistry.implements_contract Sample.abstract_subclass = false
  /\ exists listing,
       MCPServerRegistry.list_providers Sample.nothing_importable
         Sample.nothing_importable unset
         (fst (MCPServerRegistry.register_provider "partial"
                 Sample.abstract_subclass Sample.fresh_registry))
       = (fst (MCPServerRegistry.register_provider "partial"
                 Sample.abstract_subclass Sample.fresh_registry), Ok listing)
       /\ listing !! "partial"
          = Some [("name", VNone); ("description", VNone);
                  ("version", VStr "1.0.0")].
Proof.
  destruct (proj1 (register_provider_rejects_non_subclass "invalid"
                     Sample.unrelated_class cold_registry) eq_refl)
    as [Hraise Hlisting].
  destruct (Hlisting (claude_importable Sample.abstract_subclass)
              Sample.nothing_importable unset) as [_ Hkeys].
  destruct (proj2 (register_provider_rejects_non_subclass "partial"
                     Sample.abstract_subclass Sample.fresh_registry) eq_refl)
    as (_ & _ & _ & Hlisted).
  split; [reflexivity|]. split; [exact Hraise|].
  split; [|split; [reflexivity|]].
  - exists (MCPServerRegistry.describe
              <$> MCPServerRegistry._providers
                    (claude_loaded Sample.abstract_subclass)).
    assert (Hlist :
      MCPServerRegistry.list_providers
        (claude_importable Sample.abstract_subclass)
        Sample.nothing_importable unset
        (fst (MCPServerRegistry.register_provider "invalid"
                Sample.unrelated_class cold_registry))
      = (claude_loaded Sample.abstract_subclass,
         Ok (MCPServerRegistry.describe
               <$> MCPServerRegistry._providers
                     (claude_loaded Sample.abstract_subclass))))
      by reflexivity.
    split; [exact Hlist|].
    destruct ((MCPServerRegistry.describe
                 <$> MCPServerRegistry._providers
                       (claude_loaded Sample.abstract_subclass)) !! "invalid")
      as [entry|] eqn:E; [exfalso|reflexivity].
    destruct (Hkeys _ _ Hlist (ex_intro _ entry E))
      as [[cls Hcls]|[_ [[Hin _]|(path & Hin & _)]]].
    + discriminate Hcls.
    + cbn in Hin. intuition discriminate.
    + destruct Hin.
  - exact (Hlisted eq_refl Sample.nothing_importable Sample.nothing_importable
             unset).
Defined.

(** ** The request transform *)

Lemma default_transform_keeps st request hook_context k v :
  Dict.get k (params request) = Some v ->
  Dict.get k (params (RequestTransformer._apply_default_transformations st
                        request hook_context)) = Some v.
Proof.
  intros Hk. unfold RequestTransformer._apply_default_transformations.
  destruct (Dict.mem "timeout" (params request)) eqn:E; [exact Hk|].
  cbn [negb with_params params].
  rewrite dict_get_set_ne; [exact Hk|].
  intros <-. unfold Dict.mem in E. now rewrite Hk in E.
Qed.

Lemma default_transform_adds st request hook_context k :
  Dict.mem k (params (RequestTransformer._apply_default_transformations st
                        request hook_context)) = true ->
  Dict.mem k (params request) = true \/ k = "timeout".
Proof.
  unfold RequestTransformer._apply_default_transformations.
  destruct (Dict.mem "timeout" (params request)); cbn [negb with_params params];
    [tauto|].
  rewrite dict_mem_set. intros H. apply orb_true_iff in H.
  destruct H as [H|H]; [right|left; exact H].
  apply String.eqb_eq in H. now subst.
Qed.

Lemma claude_transform_keeps request hook_context k :
  k <> "user_context" ->
  Dict.get k (params (RequestTransformer._transform_claude_request request
                        hook_context))
  = Dict.get k (params request).
Proof.
  intros Hne. unfold RequestTransformer._transform_claude_request.
  destruct hook_context as [[|p ctx]|]; try reflexivity.
  destruct (Dict.get "user_id" (p :: ctx)); [|reflexivity].
  cbn [with_params params]. apply dict_get_set_ne. congruence.
Qed.

Lemma claude_transform_mem request hook_context k :
  Dict.mem k (params (RequestTransformer._transform_claude_request request
                        hook_context))
  = Dict.mem k (params request)
  \/ (k = "user_context"
      /\ Dict.mem k (params (RequestTransformer._transform_claude_request
                               request hook_context)) = true).
Proof.
  unfold RequestTransformer._transform_claude_request.
  destruct hook_context as [[|p ctx]|]; try (left; reflexivity).
  destruct (Dict.get "user_id" (p :: ctx)); [|left; reflexivity].
  cbn [with_params params]. rewrite dict_mem_set.
  destruct (String.eqb "user_context" k) eqn:E; [right|left; reflexivity].
  apply String.eqb_eq in E. subst k. split; reflexivity.
Qed.

Lemma github_transform_keeps request hook_context k v :
  Dict.get k (params request) = Some v ->
  Dict.get k (params (RequestTransformer._transform_github_request request
                        hook_context)) = Some v.
Proof.
  intros Hk. unfold RequestTransformer._transform_github_request.
  destruct (String.eqb (method request) "search_code"); [|exact Hk].
  cbn [with_params params]. unfold Dict.get_or.
  destruct (string_dec "sort" k) as [<-|Hs].
  - rewrite dict_get_set_eq. f_equal.
    destruct (string_dec "per_page" "sort") as [E|E]; [discriminate E|].
    rewrite dict_get_set_ne by exact E. now rewrite Hk.
  - rewrite dict_get_set_ne by exact Hs.
    destruct (string_dec "per_page" k) as [<-|Hp].
    + rewrite dict_get_set_eq. now rewrite Hk.
    + now rewrite dict_get_set_ne.
Qed.

Lemma github_transform_adds request hook_context k :
  Dict.mem k (params (RequestTransformer._transform_github_request request
                        hook_context)) = true ->
  Dict.mem k (params request) = true \/ k = "per_page" \/ k = "sort".
Proof.
  unfold RequestTransformer._transform_github_request.
  destruct (String.eqb (method request) "search_code"); [|tauto].
  cbn [with_params params]. rewrite !dict_mem_set.
  intros H. apply orb_true_iff in H. destruct H as [H|H].
  - apply String.eqb_eq in H. subst. tauto.
  - apply orb_true_iff in H. destruct H as [H|H]; [|tauto].
    apply String.eqb_eq in H. subst. tauto.
Qed.

Lemma dict_get_mem k v d : Dict.get k d = Some v -> Dict.mem k d = true.
Proof. unfold Dict.mem. now intros ->. Qed.

(** C9. After the default request transform followed by the claude or the
    github transform, every key of the original parameters is still there,
    with its original value unless the key is [user_context]; and every key
    of the result is an original key or one of [timeout], [user_context],
    [per_page], [sort]. *)
Theorem request_transforms_keep_params
    (st : Settings) (request : MCPRequest)
    (default_context provider_context : option pydict)
    (k : string) (v : value) :
  Dict.get k (params request) = Some v ->
  let defaulted :=
    RequestTransformer._apply_default_transformations st request
      default_context in
  forall result,
    result = RequestTransformer._transform_claude_request defaulted
               provider_context
    \/ result = RequestTransformer._transform_github_request defaulted
                  provider_context ->
    Dict.mem k (params result) = true
    /\ (k <> "user_context" -> Dict.get k (params result) = Some v)
    /\ (forall k', Dict.mem k' (params result) = true ->
          Dict.mem k' (params request) = true
          \/ In k' ["timeout"; "user_context"; "per_page"; "sort"]).
Proof.
  intros Hk defaulted result Hres.
  pose proof (default_transform_keeps st request default_context k v Hk) as Hd.
  fold defaulted in Hd.
  assert (Hadd : forall k', Dict.mem k' (params defaulted) = true ->
            Dict.mem k' (params request) = true \/ k' = "timeout")
    by (intros k'; apply default_transform_adds).
  destruct Hres as [-> | ->].
  - split; [|split].
    + destruct (claude_transform_mem defaulted provider_context k) as [E|[_ E]];
        [rewrite E; now apply (dict_get_mem k v)|exact E].
    + intros Hne. now rewrite claude_transform_keeps.
    + intros k' Hm.
      destruct (claude_transform_mem defaulted provider_context k') as [E|[E _]].
      * rewrite E in Hm. destruct (Hadd k' Hm) as [H|H]; [tauto|].
        right. subst. simpl. tauto.
      * right. subst. simpl. tauto.
  - pose proof (github_transform_keeps defaulted provider_context k v Hd) as Hg.
    split; [now apply (dict_get_mem k v)|]. split; [intros _; exact Hg|].
    intros k' Hm. apply github_transform_adds in Hm.
    destruct Hm as [Hm|[->| ->]]; [|right; simpl; tauto|right; simpl; tauto].
    destruct (Hadd k' Hm) as [H|H]; [tauto|]. right. subst. simpl. tauto.
Qed.

Lemma request_transforms_keep_params_witness :
  let result :=
    RequestTransformer._transform_github_request
      (RequestTransformer._apply_default_transformations unset
         Sample.code_search None) None in
  Dict.mem "per_page" (params result) = true
  /\ Dict.get "per_page" (params result) = Some (VInt 5).
Proof.
  destruct (request_transforms_keep_params unset Sample.code_search None None
              "per_page" (VInt 5))
    with (result := RequestTransformer._transform_github_request
                      (RequestTransformer._apply_default_transformations unset
                         Sample.code_search None) None)
    as (Hmem & Hval & _).
  - reflexivity.
  - right. reflexivity.
  - split; [exact Hmem|]. apply Hval. discriminate.
Defined.

(** ** The security check of the pre-request stage *)

Lemma check_dict_cons key v r path :
  SecurityChecker.check_dict (VDict ((key, v) :: r)) path
  = SecurityChecker.key_issues key v
      (if String.eqb path "" then key else path +:+ "." +:+ key)
    ++ SecurityChecker.check_dict v
         (if String.eqb path "" then key else path +:+ "." +:+ key)
    ++ SecurityChecker.check_dict (VDict r) path.
Proof. reflexivity. Qed.

Lemma key_issues_found key v pattern current_path :
  In pattern SecurityChecker.sensitive_param_patterns ->
  contains pattern (lower key) = true ->
  truthy v = true ->
  In ("Potential sensitive data in parameter: " +:+ current_path)
     (SecurityChecker.key_issues key v current_path).
Proof.
  intros Hin Hc Ht. unfold SecurityChecker.key_issues.
  apply in_flat_map. exists pattern. split; [exact Hin|].
  rewrite Hc, Ht. left. reflexivity.
Qed.

(** An entry's own issues, and those found below it, are among the issues of
    the dictionary that holds it. *)
Lemma check_dict_entry key v d : forall path,
  In (key, v) d ->
  exists current_path,
    forall issue,
      In issue (SecurityChecker.key_issues key v current_path)
      \/ In issue (SecurityChecker.check_dict v current_path) ->
      In issue (SecurityChecker.check_dict (VDict d) path).
Proof.
  induction d as [|[key' v'] r IH]; intros path Hin; [destruct Hin|].
  destruct Hin as [Heq|Hin].
  - inversion Heq; subst key' v'.
    exists (if String.eqb path "" then key else path +:+ "." +:+ key).
    intros issue H. rewrite check_dict_cons, !in_app_iff. tauto.
  - destruct (IH path Hin) as [current_path Hcp].
    exists current_path. intros issue H.
    rewrite check_dict_cons, !in_app_iff. right. right. now apply Hcp.
Qed.

Lemma check_dict_exposed d :
  SecurityChecker.exposes_sensitive d ->
  forall path, exists issue, In issue (SecurityChecker.check_dict (VDict d) path).
Proof.
  induction 1 as [d key v pattern Hin Hpat Hc Ht | d key inner Hin _ IH];
    intros path.
  - destruct (check_dict_entry key v d path Hin) as [current_path Hcp].
    eexists. apply Hcp. left.
    now apply (key_issues_found key v pattern).
  - destruct (check_dict_entry key (VDict inner) d path Hin)
      as [current_path Hcp].
    destruct (IH current_path) as [issue Hissue].
    exists issue. apply Hcp. right. exact Hissue.
Qed.

Lemma check_request_exposed py_str st request :
  SecurityChecker.exposes_sensitive (params request) ->
  SecurityChecker.check_request py_str st request <> [].
Proof.
  intros Hex Hnil.
  destruct (check_dict_exposed (params request) Hex "") as [issue Hissue].
  assert (Hin : In issue (SecurityChecker.check_request py_str st request)).
  { unfold SecurityChecker.check_request, SecurityChecker._check_sensitive_data.
    rewrite !in_app_iff. tauto. }
  rewrite Hnil in Hin. destruct Hin.
Qed.

(** C10. For a request whose parameters hold, at any depth of nested
    dictionaries, an entry whose lower-cased key contains one of
    [password], [secret], [token], [key], [credential] and whose value is
    truthy, [pre_request] never returns a request (nothing is transformed or
    tagged, and there is nothing to dispatch); and when the rate limiter
    allows the call it raises the security rejection with a non-empty list
    of issues, the counter of the request window having been raised by
    one. *)
Theorem pre_request_rejects_sensitive
    (py_str : value -> string) (st : Settings) (clk : Clock) (uuid4 : string)
    (c : Cache.t) (server : MCPServer) (request : MCPRequest)
    (hook_context : option pydict) :
  SecurityChecker.exposes_sensitive (params request) ->
  let out :=
    MCPPreProcessingHooks.pre_request py_str st clk uuid4 c server request
      hook_context in
  let issues := SecurityChecker.check_request py_str st request in
  (exists e, snd out = Raise e)
  /\ issues <> []
  /\ forall n,
       Cache.get (time_time clk) c (RateLimiter.cache_key server "request")
         (VInt 0) = VInt n ->
       n < getattr (MCP_REQUEST_RATE_LIMIT st) 100 ->
       out
       = (Cache.set (time_time clk) c (RateLimiter.cache_key server "request")
            (VInt (n + 1)) (getattr (MCP_REQUEST_RATE_WINDOW st) 60),
          Raise (ValueError ("Security check failed: " +:+ join ", " issues))).
Proof.
  intros Hex out issues.
  pose proof (check_request_exposed py_str st request Hex) as Hissues.
  fold issues in Hissues.
  split; [|split; [exact Hissues|]].
  - subst out. unfold MCPPreProcessingHooks.pre_request.
    destruct (RateLimiter.check_limit st (time_time clk) c server "request")
      as [[[|] c1]|e]; cbn [snd]; eauto.
    fold issues. destruct issues; [congruence|]. cbn [snd]. eauto.
  - intros n Hget Hlt. subst out. unfold MCPPreProcessingHooks.pre_request.
    rewrite (check_limit_allows st server "request"
               (getattr (MCP_REQUEST_RATE_LIMIT st) 100)
               (getattr (MCP_REQUEST_RATE_WINDOW st) 60) eq_refl
               (time_time clk) c n Hget Hlt).
    fold issues. destruct issues; [congruence|reflexivity].
Qed.

Lemma pre_request_rejects_sensitive_witness :
  MCPPreProcessingHooks.pre_request Sample.py_str unset
    (Sample.clock_at 100 "t100") "uuid" ∅ Sample.backend Sample.keyword_search
    None
  = (Cache.set 100 ∅ "mcp_rate_limit:1:request" (VInt 1) 60,
     Raise (ValueError
              "Security check failed: Potential sensitive data in parameter: keywords")).
Proof.
  destruct (pre_request_rejects_sensitive Sample.py_str unset
              (Sample.clock_at 100 "t100") "uuid" ∅ Sample.backend
              Sample.keyword_search None)
    as (_ & _ & Hout).
  - apply (SecurityChecker.exposed_here _ "keywords" (VStr "contract law") "key");
      [simpl; tauto | simpl; tauto | reflexivity | reflexivity].
  - apply (Hout 0); [reflexivity | simpl; lia].
Defined.

(** * Further properties of the hook files *)

(** ** Sensitive parameter names *)

(** Induction over a dictionary and the dictionaries nested in its values. *)
Lemma nested_dict_ind (P : pydict -> Prop) :
  P [] ->
  (forall key v r,
     (forall inner, v = VDict inner -> P inner) -> P r -> P ((key, v) :: r)) ->
  forall d, P d.
Proof.
  intros Hnil Hcons d.
  exact
    ((fix go (v : value) : match v with VDict d0 => P d0 | _ => True end :=
        match v with
        | VDict d0 =>
            (fix items (l : pydict) : P l :=
               match l with
               | [] => Hnil
               | (key, x) :: r =>
                   Hcons key x r
                     (fun inner E =>
                        eq_ind x
                          (fun y => match y with VDict d1 => P d1 | _ => True end)
                          (go x) (VDict inner) E)
                     (items r)
               end) d0
        | _ => I
        end) (VDict d)).
Qed.

Lemma exposes_sensitive_tail entry d :
  SecurityChecker.exposes_sensitive d ->
  SecurityChecker.exposes_sensitive (entry :: d).
Proof.
  intros [d0 key v pattern Hin Hp Hc Ht | d0 key inner Hin Hex].
  - apply (SecurityChecker.exposed_here _ key v pattern); auto. now right.
  - apply (SecurityChecker.exposed_below _ key inner); auto. now right.
Qed.

Lemma key_issues_inv key v current_path issue :
  In issue (SecurityChecker.key_issues key v current_path) ->
  exists pattern,
    In pattern SecurityChecker.sensitive_param_patterns
    /\ contains pattern (lower key) = true /\ truthy v = true.
Proof.
  unfold SecurityChecker.key_issues. intros H.
  apply in_flat_map in H. destruct H as (pattern & Hin & H).
  exists pattern. split; [exact Hin|].
  destruct (contains pattern (lower key)); [|destruct H].
  destruct (truthy v); [split; reflexivity|destruct H].
Qed.

Lemma check_dict_sound d :
  forall path issue,
    In issue (SecurityChecker.check_dict (VDict d) path) ->
    SecurityChecker.exposes_sensitive d.
Proof.
  induction d as [|key v r IHv IHr] using nested_dict_ind;
    intros path issue Hin; [destruct Hin|].
  rewrite check_dict_cons, !in_app_iff in Hin.
  destruct Hin as [Hin|[Hin|Hin]].
  - destruct (key_issues_inv _ _ _ _ Hin) as (pattern & Hp & Hc & Ht).
    apply (SecurityChecker.exposed_here _ key v pattern); auto. now left.
  - destruct v as [| | | | |inner]; try destruct Hin.
    apply (SecurityChecker.exposed_below _ key inner); [now left|].
    eapply (IHv inner eq_refl). exact Hin.
  - apply exposes_sensitive_tail. eapply IHr. exact Hin.
Qed.

Lemma check_sensitive_data_clean params :
  ~ SecurityChecker.exposes_sensitive params ->
  SecurityChecker._check_sensitive_data params = [].
Proof.
  intros Hno. unfold SecurityChecker._check_sensitive_data.
  destruct (SecurityChecker.check_dict (VDict params) "") as [|issue l] eqn:E;
    [reflexivity|].
  exfalso. apply Hno. apply (check_dict_sound params "" issue).
  rewrite E. now left.
Qed.

(** X1. [_check_sensitive_data] reports nothing exactly when no entry, at
    any depth of nested dictionaries, has a key containing a sensitive
    pattern together with a truthy value. *)
Theorem check_sensitive_data_exact (params : pydict) :
  SecurityChecker._check_sensitive_data params = []
  <-> ~ SecurityChecker.exposes_sensitive params.
Proof.
  split.
  - unfold SecurityChecker._check_sensitive_data. intros Hnil Hex.
    destruct (check_dict_exposed params Hex "") as [issue Hin].
    rewrite Hnil in Hin. destruct Hin.
  - apply check_sensitive_data_clean.
Qed.

(** X2. A value that is a list is never looked into: an entry whose key
    matches no sensitive pattern draws no issue, whatever the list under it
    holds. *)
Theorem check_sensitive_data_skips_lists (key : string) (items : list value) :
  (forall pattern, In pattern SecurityChecker.sensitive_param_patterns ->
     contains pattern (lower key) = false) ->
  SecurityChecker._check_sensitive_data [(key, VList items)] = [].
Proof.
  intros Hkey. apply check_sensitive_data_clean. intros Hex.
  inversion Hex as [d k v pattern Hin Hp Hc Ht | d k inner Hin Hinner]; subst.
  - destruct Hin as [E|[]]. inversion E; subst.
    rewrite (Hkey pattern Hp) in Hc. discriminate.
  - destruct Hin as [E|[]]. discriminate E.
Qed.

Lemma check_sensitive_data_skips_lists_witness :
  SecurityChecker._check_sensitive_data
    [("accounts", VList [VDict [("password", VStr "hunter2")]])] = [].
Proof.
  apply (check_sensitive_data_skips_lists "accounts"
           [VDict [("password", VStr "hunter2")]]).
  intros pattern Hin. simpl in Hin.
  destruct Hin as [<-|[<-|[<-|[<-|[<-|[]]]]]]; reflexivity.
Defined.

(** ** The request transform and the pre-request stage *)

Lemma dict_set_id k v d : Dict.get k d = Some v -> Dict.set k v d = d.
Proof.
  induction d as [|[k' v'] r IH]; simpl; [discriminate|].
  destruct (String.eqb k k') eqn:E.
  - now intros [= ->].
  - intros H. now rewrite IH.
Qed.

Lemma dict_set_set k v v' d :
  Dict.set k v (Dict.set k v' d) = Dict.set k v d.
Proof.
  induction d as [|[k' v0] r IH]; simpl.
  - now rewrite String.eqb_refl.
  - destruct (String.eqb k k') eqn:E; simpl; rewrite E; [reflexivity|].
    now rewrite IH.
Qed.

Lemma claude_transform_idem request hook_context :
  RequestTransformer._transform_claude_request
    (RequestTransformer._transform_claude_request request hook_context)
    hook_context
  = RequestTransformer._transform_claude_request request hook_context.
Proof.
  unfold RequestTransformer._transform_claude_request.
  destruct hook_context as [[|p ctx]|]; try reflexivity.
  destruct (Dict.get "user_id" (p :: ctx)); [|reflexivity].
  unfold with_params. cbn [params method context]. now rewrite dict_set_set.
Qed.

Lemma github_transform_idem request hook_context :
  RequestTransformer._transform_github_request
    (RequestTransformer._transform_github_request request hook_context)
    hook_context
  = RequestTransformer._transform_github_request request hook_context.
Proof.
  unfold RequestTransformer._transform_github_request.
  destruct (String.eqb (method request) "search_code") eqn:E;
    cbn [with_params method params]; rewrite E; [|reflexivity].
  unfold with_params. cbn [params method context]. f_equal.
  set (p1 := Dict.set "per_page"
               (Dict.get_or "per_page" (VInt 30) (params request))
               (params request)).
  set (p2 := Dict.set "sort" (Dict.get_or "sort" (VStr "best-match") p1) p1).
  assert (Hpp : Dict.get "per_page" p2
                = Some (Dict.get_or "per_page" (VInt 30) (params request))).
  { unfold p2. rewrite dict_get_set_ne by discriminate.
    unfold p1. apply dict_get_set_eq. }
  assert (Hs : Dict.get "sort" p2
               = Some (Dict.get_or "sort" (VStr "best-match") p1))
    by (unfold p2; apply dict_get_set_eq).
  assert (E1 : Dict.set "per_page" (Dict.get_or "per_page" (VInt 30) p2) p2 = p2).
  { apply dict_set_id. unfold Dict.get_or at 1. now rewrite Hpp. }
  rewrite E1. apply dict_set_id. unfold Dict.get_or at 1. now rewrite Hs.
Qed.

Lemma default_transform_idem st request hook_context :
  RequestTransformer._apply_default_transformations st
    (RequestTransformer._apply_default_transformations st request hook_context)
    hook_context
  = RequestTransformer._apply_default_transformations st request hook_context.
Proof.
  unfold RequestTransformer._apply_default_transformations.
  destruct (Dict.mem "timeout" (params request)) eqn:E;
    cbn [negb]; [now rewrite E|].
  cbn [with_params params]. unfold Dict.mem at 1.
  now rewrite dict_get_set_eq.
Qed.

(** X3. The request transform is idempotent: a request that passes through
    it a second time, as a resubmitted one does, comes out as after the
    first. *)
Theorem request_transform_idempotent
    (st : Settings) (server : MCPServer) (request : MCPRequest)
    (hook_context : option pydict) :
  RequestTransformer.transform st server
    (RequestTransformer.transform st server request hook_context) hook_context
  = RequestTransformer.transform st server request hook_context.
Proof.
  unfold RequestTransformer.transform.
  destruct (String.eqb (server_type server) "claude");
    [apply claude_transform_idem|].
  destruct (String.eqb (server_type server) "github");
    [apply github_transform_idem|apply default_transform_idem].
Qed.

(** X4. The default timeout is given to the requests of every backend type
    except claude and github: for those two the transform leaves [timeout]
    as the caller set it, absent if it was absent. *)
Theorem request_transform_timeout
    (st : Settings) (server : MCPServer) (request : MCPRequest)
    (hook_context : option pydict) :
  let transformed :=
    RequestTransformer.transform st server request hook_context in
  if String.eqb (server_type server) "claude"
     || String.eqb (server_type server) "github"
  then Dict.get "timeout" (params transformed)
       = Dict.get "timeout" (params request)
  else Dict.get "timeout" (params transformed)
       = Some (Dict.get_or "timeout"
                 (VInt (getattr (MCP_DEFAULT_REQUEST_TIMEOUT st) 30))
                 (params request)).
Proof.
  cbv zeta. unfold RequestTransformer.transform.
  destruct (String.eqb (server_type server) "claude"); cbn [orb].
  - apply claude_transform_keeps. discriminate.
  - destruct (String.eqb (server_type server) "github").
    + unfold RequestTransformer._transform_github_request.
      destruct (String.eqb (method request) "search_code"); [|reflexivity].
      cbn [with_params params]. now rewrite !dict_get_set_ne by discriminate.
    + unfold RequestTransformer._apply_default_transformations, Dict.mem,
        Dict.get_or.
      destruct (Dict.get "timeout" (params request)) eqn:E; cbn [negb].
      * exact E.
      * cbn [with_params params]. apply dict_get_set_eq.
Qed.

(** X5. When the rate limiter allows the call and the security check finds
    nothing, [pre_request] returns the transformed request with
    [request_id] and [timestamp] set in its context and every other context
    entry, the retry state among them, as it was. *)
Theorem pre_request_tags_context
    (py_str : value -> string) (st : Settings) (clk : Clock) (uuid4 : string)
    (c c1 : Cache.t) (server : MCPServer) (request : MCPRequest)
    (hook_context : option pydict) :
  RateLimiter.check_limit st (time_time clk) c server "request" = Ok (true, c1) ->
  SecurityChecker.check_request py_str st request = [] ->
  exists ctx,
    MCPPreProcessingHooks.pre_request py_str st clk uuid4 c server request
      hook_context
    = (c1, Ok (with_context
                 (RequestTransformer.transform st server request hook_context)
                 (Some ctx)))
    /\ Dict.get "request_id" ctx = Some (VStr uuid4)
    /\ Dict.get "timestamp" ctx = Some (VInt (time_time clk))
    /\ forall k, k <> "request_id" -> k <> "timestamp" ->
         Dict.get k ctx = Dict.get k (Dict.or_empty (context request)).
Proof.
  intros Hlimit Hclean. unfold MCPPreProcessingHooks.pre_request.
  rewrite Hlimit, Hclean.
  assert (Hctx : context (RequestTransformer.transform st server request
                            hook_context) = context request).
  { unfold RequestTransformer.transform,
      RequestTransformer._transform_claude_request,
      RequestTransformer._transform_github_request,
      RequestTransformer._apply_default_transformations.
    destruct (String.eqb (server_type server) "claude").
    - destruct hook_context as [[|p ctx]|]; try reflexivity.
      destruct (Dict.get "user_id" (p :: ctx)); reflexivity.
    - destruct (String.eqb (server_type server) "github").
      + destruct (String.eqb (method request) "search_code"); reflexivity.
      + destruct (negb (Dict.mem "timeout" (params request))); reflexivity. }
  rewrite Hctx. eexists. split; [reflexivity|].
  split; [|split].
  - rewrite dict_get_set_ne by discriminate. apply dict_get_set_eq.
  - apply dict_get_set_eq.
  - intros k Hid Hts. rewrite !dict_get_set_ne by congruence.
    destruct (context request) as [[|p ctx]|]; reflexivity.
Qed.

Lemma pre_request_tags_context_witness :
  exists ctx,
    MCPPreProcessingHooks.pre_request Sample.py_str unset
      (Sample.clock_at 100 "t100") "uuid" ∅ Sample.backend
      (Sample.request_with (Some [("retry_count", VInt 2)])) None
    = (Cache.set 100 ∅ "mcp_rate_limit:1:request" (VInt 1) 60,
       Ok (with_context
             (RequestTransformer.transform unset Sample.backend
                (Sample.request_with (Some [("retry_count", VInt 2)])) None)
             (Some ctx)))
    /\ Dict.get "retry_count" ctx = Some (VInt 2).
Proof.
  destruct (pre_request_tags_context Sample.py_str unset
              (Sample.clock_at 100 "t100") "uuid" ∅
              (Cache.set 100 ∅ "mcp_rate_limit:1:request" (VInt 1) 60)
              Sample.backend
              (Sample.request_with (Some [("retry_count", VInt 2)])) None)
    as (ctx & Hout & _ & _ & Hkeep).
  - reflexivity.
  - reflexivity.
  - exists ctx. split; [exact Hout|].
    rewrite (Hkeep "retry_count") by discriminate. reflexivity.
Defined.

(** ** Isolation and bounds of the rate limiter *)

Lemma string_length_app (a b : string) :
  String.length (a +:+ b) = (String.length a + String.length b)%nat.
Proof. induction a as [|ch a IH]; simpl; [reflexivity|now rewrite IH]. Qed.

(** Two concatenations with tails of one length agree part by part. *)
Lemma string_app_inj_tail (a : string) : forall b x y,
  String.length x = String.length y ->
  a +:+ x = b +:+ y -> a = b /\ x = y.
Proof.
  induction a as [|ch a IH]; intros [|ch' b] x y Hlen H.
  - now split.
  - exfalso. apply (f_equal String.length) in H.
    rewrite !string_length_app in H. cbn [String.length] in H.
    rewrite ?string_length_app in H. lia.
  - exfalso. apply (f_equal String.length) in H.
    rewrite !string_length_app in H. cbn [String.length] in H.
    rewrite ?string_length_app in H. lia.
  - cbn [String.append] in H. injection H as -> H.
    destruct (IH b x y Hlen H) as [-> ->]. now split.
Qed.

Lemma counted_operation st operation limit :
  RateLimiter.limits st operation = Some limit ->
  operation = "connect" \/ operation = "request".
Proof.
  unfold RateLimiter.limits.
  destruct (String.eqb operation "connect") eqn:E1;
    [apply String.eqb_eq in E1; tauto|].
  destruct (String.eqb operation "request") eqn:E2;
    [apply String.eqb_eq in E2; tauto|discriminate].
Qed.

Lemma rate_limit_keys_differ st s1 s2 op1 op2 l1 l2 :
  RateLimiter.limits st op1 = Some l1 ->
  RateLimiter.limits st op2 = Some l2 ->
  id s1 <> id s2 \/ op1 <> op2 ->
  RateLimiter.cache_key s1 op1 <> RateLimiter.cache_key s2 op2.
Proof.
  intros H1 H2 Hne Heq. unfold RateLimiter.cache_key in Heq.
  apply (String.app_inj "mcp_rate_limit:") in Heq.
  apply counted_operation in H1, H2.
  assert (Hlen : String.length (":" +:+ op1) = String.length (":" +:+ op2))
    by (destruct H1 as [-> | ->], H2 as [-> | ->]; reflexivity).
  destruct (string_app_inj_tail _ _ _ _ Hlen Heq) as [Hid Hop].
  injection Hop as Hop. tauto.
Qed.

Lemma cache_get_set_ne now now' c key key' v timeout dflt :
  key <> key' ->
  Cache.get now' (Cache.set now c key v timeout) key' dflt
  = Cache.get now' c key' dflt.
Proof.
  intros Hne. unfold Cache.get, Cache.set. now rewrite lookup_insert_ne.
Qed.

(** X6. A check for one backend and operation class never changes what the
    cache holds for another backend or the other class, nor the answer a
    check for that other pair gets: the counters are independent. *)
Theorem check_limit_isolated
    (st : Settings) (now : Z) (c c' : Cache.t) (s1 s2 : MCPServer)
    (op1 op2 : string) (l1 l2 : Z * Z) (allowed : bool) :
  RateLimiter.limits st op1 = Some l1 ->
  RateLimiter.limits st op2 = Some l2 ->
  id s1 <> id s2 \/ op1 <> op2 ->
  RateLimiter.check_limit st now c s1 op1 = Ok (allowed, c') ->
  c' !! RateLimiter.cache_key s2 op2 = c !! RateLimiter.cache_key s2 op2
  /\ forall now',
       answer (RateLimiter.check_limit st now' c' s2 op2)
       = answer (RateLimiter.check_limit st now' c s2 op2).
Proof.
  intros H1 H2 Hne Hcheck.
  pose proof (rate_limit_keys_differ st s1 s2 op1 op2 l1 l2 H1 H2 Hne) as Hkeys.
  assert (Hlook : c' !! RateLimiter.cache_key s2 op2
                  = c !! RateLimiter.cache_key s2 op2).
  { unfold RateLimiter.check_limit in Hcheck. rewrite H1 in Hcheck.
    destruct l1 as [requests window].
    destruct (as_int (Cache.get now c (RateLimiter.cache_key s1 op1) (VInt 0)))
      as [n|e]; [|discriminate].
    cbn [mbind result_bind] in Hcheck.
    destruct (n >=? requests); injection Hcheck as _ <-; [reflexivity|].
    unfold Cache.set. now rewrite lookup_insert_ne. }
  split; [exact Hlook|].
  intros now'. unfold RateLimiter.check_limit. rewrite H2.
  destruct l2 as [requests window].
  unfold Cache.get. rewrite Hlook.
  destruct (as_int _) as [n|e]; [|reflexivity].
  cbn [mbind result_bind].
  destruct (n >=? requests); reflexivity.
Qed.

Lemma check_limit_isolated_witness :
  Cache.set 100 ∅ "mcp_rate_limit:1:connect" (VInt 1) 60
    !! "mcp_rate_limit:1:request" = None.
Proof.
  destruct (check_limit_isolated unset 100 ∅
              (Cache.set 100 ∅ "mcp_rate_limit:1:connect" (VInt 1) 60)
              Sample.backend Sample.backend "connect" "request"
              (10, 60) (100, 60) true) as [Hlook _].
  - reflexivity.
  - reflexivity.
  - right. discriminate.
  - reflexivity.
  - exact Hlook.
Defined.

Lemma check_limit_bounded st now c server operation requests window :
  RateLimiter.limits st operation = Some (requests, window) ->
  counter_within requests c (RateLimiter.cache_key server operation) ->
  exists allowed c',
    RateLimiter.check_limit st now c server operation = Ok (allowed, c')
    /\ counter_within requests c' (RateLimiter.cache_key server operation).
Proof.
  intros Hcfg Hinv. unfold RateLimiter.check_limit. rewrite Hcfg.
  assert (Hget : exists n,
            Cache.get now c (RateLimiter.cache_key server operation) (VInt 0)
            = VInt n).
  { unfold Cache.get.
    destruct (c !! RateLimiter.cache_key server operation) as [[v e]|] eqn:E;
      [|eauto].
    destruct (Hinv v e E) as (n & -> & _).
    destruct (now <? e); eauto. }
  destruct Hget as [n Hget]. rewrite Hget. cbn [as_int mbind result_bind].
  destruct (Z.geb_spec n requests) as [Hge|Hlt].
  - eauto.
  - eexists. eexists. split; [reflexivity|].
    intros v e. unfold Cache.set. rewrite lookup_insert_eq.
    intros [= <- _]. exists (n + 1). split; [reflexivity|lia].
Qed.

(** X7. Starting from a counter that holds an integer within the configured
    maximum (or from none), any sequence of checks, at whatever instants,
    answers every call without raising and never lets the stored counter
    exceed the maximum. *)
Theorem check_limits_bounded
    (st : Settings) (server : MCPServer) (operation : string)
    (requests window : Z) (times : list Z) :
  RateLimiter.limits st operation = Some (requests, window) ->
  forall c,
    counter_within requests c (RateLimiter.cache_key server operation) ->
    exists answers c',
      RateLimiter.check_limits st times c server operation = Ok (answers, c')
      /\ length answers = length times
      /\ counter_within requests c' (RateLimiter.cache_key server operation).
Proof.
  intros Hcfg. induction times as [|now later IH]; intros c Hinv.
  - exists [], c. repeat split. exact Hinv.
  - destruct (check_limit_bounded st now c server operation requests window
                Hcfg Hinv) as (allowed & c1 & Hstep & Hinv1).
    destruct (IH c1 Hinv1) as (answers & c' & Hrun & Hlen & Hinv').
    exists (allowed :: answers), c'.
    rewrite (check_limits_cons st server operation), Hstep.
    cbn [mbind result_bind]. rewrite Hrun. cbn [mbind result_bind].
    repeat split; [cbn [length]; now rewrite Hlen|exact Hinv'].
Qed.

Lemma check_limits_bounded_witness :
  exists answers c',
    RateLimiter.check_limits Sample.tight [100; 90; 500; 501; 502] ∅
      Sample.backend "connect" = Ok (answers, c')
    /\ length answers = 5%nat
    /\ counter_within 2 c' "mcp_rate_limit:1:connect".
Proof.
  apply (check_limits_bounded Sample.tight Sample.backend "connect" 2 60
           [100; 90; 500; 501; 502]).
  - reflexivity.
  - intros v expires H. rewrite lookup_empty in H. discriminate H.
Defined.

(** ** Retries, the error window and the backend's status *)

Section Retries.

Variables (st : Settings) (c : Cache.t) (server : MCPServer).
Variables (request : MCPRequest) (response : MCPResponse).

Let max_retries := getattr (MCP_MAX_RETRIES st) 3.
Let backoff_factor := getattr (MCP_BACKOFF_FACTOR st) 2.

Hypothesis retryable : ErrorHandler._is_retryable_error (error response) = true.

Lemma retry_first clk :
  Dict.nonempty (context request) = false ->
  0 < max_retries ->
  ErrorHandler.handle_error st clk c server request response
  = ({| ErrorHandler.fx_cache := c; ErrorHandler.fx_server := server;
        ErrorHandler.fx_request :=
          with_context request (Some (retry_context backoff_factor 1)) |},
     Ok response).
Proof.
  intros Hctx Hmax. unfold ErrorHandler.handle_error.
  rewrite retryable. unfold ErrorHandler.current_retry_count.
  rewrite Hctx. cbn [as_int]. fold max_retries backoff_factor.
  destruct (Z.ltb_spec 0 max_retries); [|lia]. reflexivity.
Qed.

Lemma retry_next clk k :
  1 <= k < max_retries ->
  ErrorHandler.handle_error st clk c server
    (with_context request (Some (retry_context backoff_factor k))) response
  = ({| ErrorHandler.fx_cache := c; ErrorHandler.fx_server := server;
        ErrorHandler.fx_request :=
          with_context request (Some (retry_context backoff_factor (k + 1))) |},
     Ok response).
Proof.
  intros Hk. unfold ErrorHandler.handle_error.
  rewrite retryable. cbn [as_int ErrorHandler.current_retry_count with_context
    context Dict.nonempty retry_context Dict.or_empty Dict.get_or Dict.get
    String.eqb Ascii.eqb Bool.eqb].
  cbn [as_int]. fold max_retries backoff_factor.
  destruct (Z.ltb_spec k max_retries); [|lia].
  unfold ErrorHandler.py_pow. destruct (Z.leb_spec 0 k); [|lia].
  unfold retry_context. replace (k + 1 - 1) with k by lia. reflexivity.
Qed.

Lemma resubmissions_from clks : forall k,
  1 <= k ->
  k + Z.of_nat (length clks) <= max_retries ->
  ErrorHandler.resubmissions st clks c server
    (with_context request (Some (retry_context backoff_factor k))) response
  = ({| ErrorHandler.fx_cache := c; ErrorHandler.fx_server := server;
        ErrorHandler.fx_request :=
          with_context request
            (Some (retry_context backoff_factor (k + Z.of_nat (length clks)))) |},
     Ok response).
Proof.
  induction clks as [|clk later IH]; intros k Hk Hmax.
  - cbn [ErrorHandler.resubmissions length]. now rewrite Z.add_0_r.
  - cbn [ErrorHandler.resubmissions]. cbn [length] in Hmax.
    rewrite retry_next by lia.
    cbn [ErrorHandler.fx_cache ErrorHandler.fx_server ErrorHandler.fx_request].
    rewrite IH by lia. cbn [length].
    replace (k + 1 + Z.of_nat (length later))
      with (k + Z.of_nat (S (length later))) by lia.
    reflexivity.
Qed.

End Retries.

(** X8. A retryable failure handled n times in a row, for a request that
    starts without a context and 1 <= n <= max_retries, leaves the context
    at [retry_count] n, [should_retry] True and [retry_delay]
    [backoff_factor ** (n - 1)], and neither the cache nor the backend
    record is touched. *)
Theorem retry_schedule
    (st : Settings) (c : Cache.t) (server : MCPServer) (request : MCPRequest)
    (response : MCPResponse) (clks : list Clock) :
  ErrorHandler._is_retryable_error (error response) = true ->
  Dict.nonempty (context request) = false ->
  (1 <= length clks)%nat ->
  Z.of_nat (length clks) <= getattr (MCP_MAX_RETRIES st) 3 ->
  ErrorHandler.resubmissions st clks c server request response
  = ({| ErrorHandler.fx_cache := c; ErrorHandler.fx_server := server;
        ErrorHandler.fx_request :=
          with_context request
            (Some (retry_context (getattr (MCP_BACKOFF_FACTOR st) 2)
                     (Z.of_nat (length clks)))) |},
     Ok response).
Proof.
  intros Hretry Hctx Hlen Hmax.
  destruct clks as [|clk later]; [cbn in Hlen; lia|].
  cbn [ErrorHandler.resubmissions]. cbn [length] in Hmax.
  rewrite (retry_first st c server request response Hretry clk Hctx) by lia.
  cbn [ErrorHandler.fx_cache ErrorHandler.fx_server ErrorHandler.fx_request].
  rewrite (resubmissions_from st c server request response Hretry later 1)
    by lia.
  cbn [length]. replace (1 + Z.of_nat (length later))
    with (Z.of_nat (S (length later))) by lia.
  reflexivity.
Qed.

Lemma retry_schedule_witness :
  ErrorHandler.resubmissions unset
    (repeat (Sample.clock_at 100 "t100") 3) ∅ Sample.backend
    (Sample.request_with None) (Sample.failure "502 Bad Gateway")
  = ({| ErrorHandler.fx_cache := ∅; ErrorHandler.fx_server := Sample.backend;
        ErrorHandler.fx_request :=
          Sample.request_with
            (Some [("retry_count", VInt 3); ("should_retry", VBool true);
                   ("retry_delay", VInt 4)]) |},
     Ok (Sample.failure "502 Bad Gateway")).
Proof.
  apply (retry_schedule unset ∅ Sample.backend (Sample.request_with None)
           (Sample.failure "502 Bad Gateway")
           (repeat (Sample.clock_at 100 "t100") 3)).
  - reflexivity.
  - reflexivity.
  - simpl. lia.
  - simpl. lia.
Defined.

Lemma check_circuit_breaker_server st clk c server :
  let server' :=
    snd (fst (ErrorHandler._check_circuit_breaker st clk c server)) in
  id server' = id server
  /\ (status server' = status server \/ status server' = ERROR).
Proof.
  cbv zeta. unfold ErrorHandler._check_circuit_breaker.
  destruct (as_int _) as [n|e]; [|cbn; tauto].
  destruct (n + 1 >=? getattr (MCP_ERROR_THRESHOLD st) 10); cbn; tauto.
Qed.

Lemma handle_error_server st clk c server request response :
  let server' :=
    ErrorHandler.fx_server
      (fst (ErrorHandler.handle_error st clk c server request response)) in
  id server' = id server
  /\ (status server' = status server \/ status server' = ERROR).
Proof.
  cbv zeta. unfold ErrorHandler.handle_error.
  pose proof (check_circuit_breaker_server st clk c server) as Hcb.
  cbv zeta in Hcb.
  destruct (ErrorHandler._check_circuit_breaker st clk c server)
    as [[c1 server1] r]. cbn [fst snd] in Hcb.
  destruct (ErrorHandler._is_retryable_error (error response)).
  - destruct (as_int (ErrorHandler.current_retry_count request)) as [rc|e];
      [|cbn; tauto].
    destruct (rc <? getattr (MCP_MAX_RETRIES st) 3).
    + destruct (ErrorHandler.py_pow _ rc); [|cbn; tauto].
      destruct (ErrorHandler.not_marked _); [destruct r|]; cbn; tauto.
    + destruct (ErrorHandler.not_marked _); [destruct r|]; cbn; tauto.
  - destruct (ErrorHandler.not_marked _); [destruct r|]; cbn; tauto.
Qed.

(** X9. However often a failed response is handled, the backend keeps its
    id, and its status is the one it had or ERROR: the handler never moves
    a backend out of ERROR and never sets any other status. *)
Theorem handle_error_status_one_way
    (st : Settings) (clks : list Clock) (c : Cache.t) (server : MCPServer)
    (request : MCPRequest) (response : MCPResponse) :
  let server' :=
    ErrorHandler.fx_server
      (fst (ErrorHandler.resubmissions st clks c server request response)) in
  id server' = id server
  /\ (status server' = status server \/ status server' = ERROR)
  /\ (status server = ERROR -> status server' = ERROR).
Proof.
  cbv zeta.
  assert (H : id (ErrorHandler.fx_server
                    (fst (ErrorHandler.resubmissions st clks c server request
                            response))) = id server
              /\ (status (ErrorHandler.fx_server
                            (fst (ErrorHandler.resubmissions st clks c server
                                    request response))) = status server
                  \/ status (ErrorHandler.fx_server
                               (fst (ErrorHandler.resubmissions st clks c
                                       server request response))) = ERROR)).
  { revert c server request.
    induction clks as [|clk later IH]; intros c server request.
    - cbn. tauto.
    - cbn [ErrorHandler.resubmissions].
      pose proof (handle_error_server st clk c server request response) as H1.
      cbv zeta in H1.
      destruct (ErrorHandler.handle_error st clk c server request response)
        as [fx [r|e]]; cbn [fst] in *; [|exact H1].
      specialize (IH (ErrorHandler.fx_cache fx) (ErrorHandler.fx_server fx)
                    (ErrorHandler.fx_request fx)).
      destruct H1 as [Hid1 Hst1], IH as [Hid Hst].
      split; [congruence|]. destruct Hst as [Hst|Hst]; [|tauto].
      rewrite Hst. exact Hst1. }
  destruct H as [Hid Hst]. split; [exact Hid|]. split; [exact Hst|].
  intros Herr. destruct Hst as [Hst|Hst]; congruence.
Qed.

(** X10. A failed response that is not marked for retry on this call, fatal
    or with its retries used up, whose context carries no truthy
    [should_retry], is returned as it is, leaves the request untouched and
    raises the backend's error counter by exactly one, with a fresh
    time-to-live. *)
Theorem handle_error_counts_once
    (st : Settings) (clk : Clock) (c : Cache.t) (server : MCPServer)
    (request : MCPRequest) (response : MCPResponse) (n : Z) :
  ErrorHandler._is_retryable_error (error response) = false
  \/ (exists r, ErrorHandler.current_retry_count request = VInt r
                /\ getattr (MCP_MAX_RETRIES st) 3 <= r) ->
  ErrorHandler.not_marked request = true ->
  Cache.get (time_time clk) c (ErrorHandler.error_key server) (VInt 0) = VInt n ->
  let out := ErrorHandler.handle_error st clk c server request response in
  snd out = Ok response
  /\ ErrorHandler.fx_request (fst out) = request
  /\ ErrorHandler.fx_cache (fst out)
     = Cache.set (time_time clk) c (ErrorHandler.error_key server)
         (VInt (n + 1)) (getattr (MCP_ERROR_WINDOW st) 300).
Proof.
  intros Hnot Hun Hget out. subst out. unfold ErrorHandler.handle_error.
  assert (Hcb : exists server1,
            ErrorHandler._check_circuit_breaker st clk c server
            = ((Cache.set (time_time clk) c (ErrorHandler.error_key server)
                  (VInt (n + 1)) (getattr (MCP_ERROR_WINDOW st) 300), server1),
               Ok tt)).
  { destruct (Z_lt_le_dec (n + 1) (getattr (MCP_ERROR_THRESHOLD st) 10)).
    - rewrite (breaker_below st clk c server n Hget) by assumption. eauto.
    - rewrite (breaker_trips st clk c server n Hget) by assumption. eauto. }
  destruct Hcb as [server1 Hcb].
  destruct Hnot as [Hfatal|(r & Hr & Hmax)].
  - rewrite Hfatal, Hun, Hcb. repeat split.
  - destruct (ErrorHandler._is_retryable_error (error response)).
    + rewrite Hr. cbn [as_int].
      destruct (Z.ltb_spec r (getattr (MCP_MAX_RETRIES st) 3)); [lia|].
      rewrite Hun, Hcb. repeat split.
    + rewrite Hun, Hcb. repeat split.
Qed.

Lemma handle_error_counts_once_witness :
  ErrorHandler.fx_cache
    (fst (ErrorHandler.handle_error unset (Sample.clock_at 100 "t100") ∅
            Sample.backend
            (Sample.request_with (Some [("retry_count", VInt 3)]))
            (Sample.failure "Connection timeout")))
  = Cache.set 100 ∅ "mcp_circuit_breaker:1" (VInt 1) 300.
Proof.
  apply (handle_error_counts_once unset (Sample.clock_at 100 "t100") ∅
           Sample.backend
           (Sample.request_with (Some [("retry_count", VInt 3)]))
           (Sample.failure "Connection timeout") 0).
  - right. exists 3. split; [reflexivity|simpl; lia].
  - reflexivity.
  - reflexivity.
Defined.

Lemma cache_vacant_after_set now now' c key v timeout :
  now + timeout <= now' ->
  Cache.vacant now' (Cache.set now c key v timeout) key.
Proof.
  intros H. unfold Cache.vacant, Cache.set. now rewrite lookup_insert_eq.
Qed.

Lemma record_errors_spaced st server later : forall clk c,
  1 < getattr (MCP_ERROR_THRESHOLD st) 10 ->
  Cache.vacant (time_time clk) c (ErrorHandler.error_key server) ->
  spaced (getattr (MCP_ERROR_WINDOW st) 300) (map time_time (clk :: later)) ->
  exists c',
    ErrorHandler.record_errors st (clk :: later) c server
    = ((c', server), Ok tt).
Proof.
  induction later as [|clk' later IH]; intros clk c Hth Hvac Hsp.
  - cbn [ErrorHandler.record_errors].
    rewrite (breaker_below st clk c server 0)
      by (try apply cache_get_vacant; auto; lia).
    eauto.
  - change (ErrorHandler.record_errors st (clk :: clk' :: later) c server)
      with (match ErrorHandler._check_circuit_breaker st clk c server with
            | (cs, Raise e) => (cs, Raise e)
            | ((c1, server1), Ok _) =>
                ErrorHandler.record_errors st (clk' :: later) c1 server1
            end).
    rewrite (breaker_below st clk c server 0)
      by (try apply cache_get_vacant; auto; lia).
    cbn [map] in Hsp. destruct Hsp as [Hgap Hsp].
    apply IH; [exact Hth| |exact Hsp].
    apply cache_vacant_after_set. exact Hgap.
Qed.

(** X11. With a threshold above one, errors that each come at least one
    window after the one before never trip the breaker, however many there
    are: starting from an absent or expired counter, the backend record is
    left as it was. *)
Theorem spaced_errors_never_trip
    (st : Settings) (server : MCPServer) (c : Cache.t) (clk : Clock)
    (later : list Clock) :
  1 < getattr (MCP_ERROR_THRESHOLD st) 10 ->
  Cache.vacant (time_time clk) c (ErrorHandler.error_key server) ->
  spaced (getattr (MCP_ERROR_WINDOW st) 300) (map time_time (clk :: later)) ->
  exists c',
    ErrorHandler.record_errors st (clk :: later) c server
    = ((c', server), Ok tt).
Proof.
  intros Hth Hvac Hsp.
  apply (record_errors_spaced st server later clk c Hth); assumption.
Qed.

Lemma spaced_errors_never_trip_witness :
  exists c',
    ErrorHandler.record_errors Sample.tight
      [Sample.clock_at 0 "a"; Sample.clock_at 300 "b"; Sample.clock_at 700 "c";
       Sample.clock_at 1000 "d"; Sample.clock_at 1300 "e"] ∅ Sample.backend
    = ((c', Sample.backend), Ok tt).
Proof.
  apply (spaced_errors_never_trip Sample.tight Sample.backend ∅
           (Sample.clock_at 0 "a")
           [Sample.clock_at 300 "b"; Sample.clock_at 700 "c";
            Sample.clock_at 1000 "d"; Sample.clock_at 1300 "e"]).
  - simpl. lia.
  - exact I.
  - simpl. lia.
Defined.

(** ** The connect hooks and the metrics *)

Lemma metrics_keys_differ server request :
  MetricsCollector.count_key server <> MetricsCollector.method_key server request
  /\ MetricsCollector.count_key server <> MetricsCollector.timing_key server
  /\ MetricsCollector.count_key server <> MetricsCollector.error_key server
  /\ MetricsCollector.method_key server request <> MetricsCollector.timing_key server
  /\ MetricsCollector.method_key server request <> MetricsCollector.error_key server
  /\ MetricsCollector.timing_key server <> MetricsCollector.error_key server.
Proof.
  unfold MetricsCollector.count_key, MetricsCollector.method_key,
    MetricsCollector.timing_key, MetricsCollector.error_key,
    MetricsCollector.metrics_cache_prefix.
  repeat split; intros H; cbn in H; discriminate H.
Qed.

Lemma connection_key_not_breaker server server' :
  MetricsCollector.connection_key server <> ErrorHandler.error_key server'.
Proof.
  unfold MetricsCollector.connection_key, ErrorHandler.error_key,
    MetricsCollector.metrics_cache_prefix.
  intros H. cbn in H. discriminate H.
Qed.

(** X12. Reconnecting does not reset the breaker. A successful
    [post_connect] sets the status to ACTIVE and stamps
    [last_successful_connection], but leaves the error counter in the cache:
    if that counter is within one of the threshold, the next error recorded
    while it is live sets the status to ERROR again. *)
Theorem reconnect_keeps_error_count
    (st : Settings) (tn : Tunables) (clk clk' : Clock) (c c1 : Cache.t)
    (server server1 : MCPServer) (n : Z) :
  Lifecycle.post_connect tn clk c server true None None
  = ((c1, server1), Ok tt) ->
  Cache.get (time_time clk') c (ErrorHandler.error_key server) (VInt 0) = VInt n ->
  getattr (MCP_ERROR_THRESHOLD st) 10 <= n + 1 ->
  status server1 = ACTIVE
  /\ Dict.get "last_successful_connection" (metadata server1)
     = Some (VStr (isoformat clk))
  /\ c1 !! ErrorHandler.error_key server = c !! ErrorHandler.error_key server
  /\ status (snd (fst (ErrorHandler._check_circuit_breaker st clk' c1 server1)))
     = ERROR.
Proof.
  intros Hpost Hget Hth. unfold Lifecycle.post_connect in Hpost.
  cbv zeta in Hpost.
  destruct (MetricsCollector.record_connection _ _ _ _ _) as [c1' r] eqn:Hrec.
  inversion Hpost; subst c1' server1 r; clear Hpost.
  rename c1 into c1'.
  assert (Hc1 : c1' !! ErrorHandler.error_key server
                = c !! ErrorHandler.error_key server).
  { unfold MetricsCollector.record_connection in Hrec.
    destruct (MetricsCollector.incr_field _ _) as [m|e];
      inversion Hrec; subst.
    unfold Cache.set. apply lookup_insert_ne.
    apply connection_key_not_breaker. }
  split; [reflexivity|]. split; [apply dict_get_set_eq|]. split; [exact Hc1|].
  set (server1 := with_metadata (with_status server ACTIVE) _).
  assert (Hget1 : Cache.get (time_time clk') c1'
                    (ErrorHandler.error_key server1) (VInt 0) = VInt n).
  { change (ErrorHandler.error_key server1) with (ErrorHandler.error_key server).
    unfold Cache.get in *. now rewrite Hc1. }
  now rewrite (breaker_trips st clk' c1' server1 n Hget1 Hth).
Qed.

Lemma reconnect_keeps_error_count_witness :
  status
    (snd (fst (ErrorHandler._check_circuit_breaker Sample.tight
                 (Sample.clock_at 150 "t150")
                 (fst (fst (Lifecycle.post_connect untuned
                              (Sample.clock_at 120 "t120")
                              (Cache.set 100 ∅ "mcp_circuit_breaker:1" (VInt 3) 300)
                              (with_status Sample.backend ERROR) true None None)))
                 (snd (fst (Lifecycle.post_connect untuned
                              (Sample.clock_at 120 "t120")
                              (Cache.set 100 ∅ "mcp_circuit_breaker:1" (VInt 3) 300)
                              (with_status Sample.backend ERROR) true None
                              None))))))
  = ERROR.
Proof.
  apply (reconnect_keeps_error_count Sample.tight untuned
           (Sample.clock_at 120 "t120") (Sample.clock_at 150 "t150")
           (Cache.set 100 ∅ "mcp_circuit_breaker:1" (VInt 3) 300)
           _ (with_status Sample.backend ERROR) _ 3).
  - reflexivity.
  - reflexivity.
  - simpl. lia.
Defined.

Lemma record_timing_writes now c key window duration timings :
  Cache.get now c key (VList []) = VList timings ->
  exists kept,
    MetricsCollector.record_timing now c key window duration
    = (Cache.set now c key (VList kept) window, Ok tt).
Proof.
  intros Hget. unfold MetricsCollector.record_timing. rewrite Hget. eauto.
Qed.

(** X13. The response-time samples are capped: whatever list is stored,
    after a sample is recorded the stored list is the last 100 entries of
    the old list followed by the new sample, so it ends with the new sample
    and never holds more than 100. *)
Theorem record_timing_keeps_last_100
    (now : Z) (c : Cache.t) (key : string) (window duration : Z)
    (timings : list value) :
  Cache.get now c key (VList []) = VList timings ->
  exists kept,
    MetricsCollector.record_timing now c key window duration
    = (Cache.set now c key (VList kept) window, Ok tt)
    /\ length kept = Nat.min (S (length timings)) 100
    /\ kept `suffix_of` (timings ++ [VInt duration])
    /\ last kept = Some (VInt duration).
Proof.
  intros Hget. unfold MetricsCollector.record_timing. rewrite Hget.
  eexists. split; [reflexivity|].
  rewrite length_app. cbn [length].
  destruct (Nat.ltb_spec 100 (length timings + 1)) as [Hlt|Hle].
  - split; [rewrite length_skipn, length_app; cbn [length]; lia|].
    split; [apply suffix_drop|].
    rewrite skipn_app.
    replace (length timings + 1 - 100 - length timings)%nat with 0%nat by lia.
    cbn [skipn]. apply last_snoc.
  - split; [rewrite length_app; cbn [length]; lia|].
    split; [reflexivity|apply last_snoc].
Qed.

Lemma record_timing_keeps_last_100_witness :
  exists kept,
    MetricsCollector.record_timing 100 ∅ "mcp_metrics:timing:1" 3600 5
    = (Cache.set 100 ∅ "mcp_metrics:timing:1" (VList kept) 3600, Ok tt)
    /\ length kept = Nat.min 1 100
    /\ kept `suffix_of` ([] ++ [VInt 5])
    /\ last kept = Some (VInt 5).
Proof.
  apply (record_timing_keeps_last_100 100 ∅ "mcp_metrics:timing:1" 3600 5 []).
  reflexivity.
Defined.

Lemma bump_reads now c key window n :
  Cache.get now c key (VInt 0) = VInt n ->
  MetricsCollector.bump now c key window
  = (Cache.set now c key (VInt (n + 1)) window, Ok tt).
Proof. intros H. unfold MetricsCollector.bump. now rewrite H. Qed.

(** X14. [record_request] adds one to the backend's request counter and to
    the counter of the request's method, and adds one to the error counter
    exactly when the response failed; the counters are read back as such
    while the metrics window lasts. *)
Theorem record_request_counts
    (tn : Tunables) (now : Z) (c : Cache.t) (server : MCPServer)
    (request : MCPRequest) (response : MCPResponse) (duration : option Z)
    (n m e : Z) :
  0 < MetricsCollector.metrics_window tn ->
  Cache.get now c (MetricsCollector.count_key server) (VInt 0) = VInt n ->
  Cache.get now c (MetricsCollector.method_key server request) (VInt 0)
  = VInt m ->
  Cache.get now c (MetricsCollector.error_key server) (VInt 0) = VInt e ->
  (exists timings,
     Cache.get now c (MetricsCollector.timing_key server) (VList [])
     = VList timings) ->
  exists c',
    MetricsCollector.record_request tn now c server request response duration
    = (c', Ok tt)
    /\ Cache.get now c' (MetricsCollector.count_key server) (VInt 0)
       = VInt (n + 1)
    /\ Cache.get now c' (MetricsCollector.method_key server request) (VInt 0)
       = VInt (m + 1)
    /\ Cache.get now c' (MetricsCollector.error_key server) (VInt 0)
       = VInt (if success response then e else e + 1).
Proof.
  intros Hw Hn Hm He [timings Ht].
  destruct (metrics_keys_differ server request)
    as (Hcm & Hct & Hce & Hmt & Hme & Hte).
  unfold MetricsCollector.record_request.
  set (window := MetricsCollector.metrics_window tn) in *.
  rewrite (bump_reads now c _ window n Hn).
  set (c1 := Cache.set now c (MetricsCollector.count_key server)
               (VInt (n + 1)) window).
  rewrite (bump_reads now c1 _ window m)
    by (unfold c1; now rewrite cache_get_set_ne).
  set (c2 := Cache.set now c1 (MetricsCollector.method_key server request)
               (VInt (m + 1)) window).
  assert (Hstep3 : exists c3,
    match duration with
    | Some d =>
        if negb (d =? 0)
        then MetricsCollector.record_timing now c2
               (MetricsCollector.timing_key server) window d
        else (c2, Ok tt)
    | None => (c2, Ok tt)
    end = (c3, Ok tt)
    /\ forall key dflt, key <> MetricsCollector.timing_key server ->
         Cache.get now c3 key dflt = Cache.get now c2 key dflt).
  { destruct duration as [d|]; [|eauto].
    destruct (negb (d =? 0)); [|eauto].
    destruct (record_timing_writes now c2
                (MetricsCollector.timing_key server) window d timings)
      as (kept & Hrt).
    - unfold c2, c1. now rewrite !cache_get_set_ne.
    - rewrite Hrt. eexists. split; [reflexivity|].
      intros key dflt Hk. now apply cache_get_set_ne. }
  destruct Hstep3 as (c3 & -> & Hc3).
  assert (Hlive : now < now + window) by lia.
  assert (H3n : Cache.get now c3 (MetricsCollector.count_key server) (VInt 0)
                = VInt (n + 1)).
  { rewrite Hc3 by exact Hct. unfold c2.
    rewrite cache_get_set_ne by congruence.
    unfold c1. now apply cache_get_set_live. }
  assert (H3m : Cache.get now c3 (MetricsCollector.method_key server request)
                  (VInt 0) = VInt (m + 1)).
  { rewrite Hc3 by exact Hmt. unfold c2. now apply cache_get_set_live. }
  assert (H3e : Cache.get now c3 (MetricsCollector.error_key server) (VInt 0)
                = VInt e).
  { rewrite Hc3 by congruence. unfold c2, c1.
    now rewrite !cache_get_set_ne by congruence. }
  destruct (success response); cbn [negb].
  - exists c3. repeat split; assumption.
  - rewrite (bump_reads now c3 _ window e H3e). eexists.
    split; [reflexivity|].
    rewrite !cache_get_set_ne by congruence.
    repeat split; try assumption. now apply cache_get_set_live.
Qed.

Lemma record_request_counts_witness :
  exists c',
    MetricsCollector.record_request untuned 100 ∅ Sample.backend
      (Sample.request_with None) (Sample.failure "boom") (Some 5)
    = (c', Ok tt)
    /\ Cache.get 100 c' "mcp_metrics:request_count:1" (VInt 0) = VInt 1
    /\ Cache.get 100 c' "mcp_metrics:method:1:test" (VInt 0) = VInt 1
    /\ Cache.get 100 c' "mcp_metrics:errors:1" (VInt 0) = VInt 1.
Proof.
  apply (record_request_counts untuned 100 ∅ Sample.backend
           (Sample.request_with None) (Sample.failure "boom") (Some 5) 0 0 0).
  - reflexivity.
  - reflexivity.
  - reflexivity.
  - reflexivity.
  - exists []. reflexivity.
Defined.

(** X15. [post_request] never returns a response for a request whose
    context is empty or holds no truthy [timestamp]: the closing log line
    formats the missing duration and raises. When the earlier stages pass,
    the error is a TypeError and the metrics have already been written. *)
Theorem post_request_needs_timestamp
    (st : Settings) (tn : Tunables) (clk : Clock) (c : Cache.t)
    (server : MCPServer) (request : MCPRequest) (response : MCPResponse)
    (hook_context : option pydict) :
  Dict.nonempty (context request) = false
  \/ truthy (Dict.get_or "timestamp" VNone (Dict.or_empty (context request)))
     = false ->
  let out :=
    Lifecycle.post_request st tn clk c server request response hook_context in
  (exists e, snd out = Raise e)
  /\ forall fx transformed c1,
       MCPPostProcessingHooks.post_request st clk c server request response
         hook_context = (fx, Ok transformed) ->
       MetricsCollector.record_request tn (time_time clk)
         (ErrorHandler.fx_cache fx) (ErrorHandler.fx_server fx)
         (ErrorHandler.fx_request fx) transformed None = (c1, Ok tt) ->
       out = ({| ErrorHandler.fx_cache := c1;
                 ErrorHandler.fx_server := ErrorHandler.fx_server fx;
                 ErrorHandler.fx_request := ErrorHandler.fx_request fx |},
              Raise TypeError).
Proof.
  intros Hts out.
  assert (Hd : Lifecycle.duration_of clk request = Ok None).
  { unfold Lifecycle.duration_of.
    destruct Hts as [H|H]; [now rewrite H|].
    destruct (Dict.nonempty (context request)); [now rewrite H|reflexivity]. }
  subst out. unfold Lifecycle.post_request. rewrite Hd. split.
  - destruct (MCPPostProcessingHooks.post_request _ _ _ _ _ _ _)
      as [fx [r|e]]; [|cbn; eauto].
    destruct (MetricsCollector.record_request _ _ _ _ _ _ _) as [c1 [u|e]];
      cbn; eauto.
  - intros fx transformed c1 Hpartial Hrec. now rewrite Hpartial, Hrec.
Qed.

Lemma post_request_needs_timestamp_witness :
  exists e,
    snd (Lifecycle.post_request unset untuned (Sample.clock_at 100 "t100") ∅
           Sample.backend (Sample.request_with None) Sample.tools_listing None)
    = Raise e.
Proof.
  apply (post_request_needs_timestamp unset untuned
           (Sample.clock_at 100 "t100") ∅ Sample.backend
           (Sample.request_with None) Sample.tools_listing None).
  left. reflexivity.
Defined.

Lemma tally_dict_eq (x x' y y' : Z) :
  x = x' -> y = y' ->
  VDict [("success", VInt x); ("failure", VInt y)]
  = VDict [("success", VInt x'); ("failure", VInt y')].
Proof. now intros -> ->. Qed.

Lemma record_connection_tallied tn now c server success a b :
  Cache.get now c (MetricsCollector.connection_key server)
    (VDict [("success", VInt 0); ("failure", VInt 0)])
  = VDict [("success", VInt a); ("failure", VInt b)] ->
  MetricsCollector.record_connection tn now c server success
  = (Cache.set now c (MetricsCollector.connection_key server)
       (VDict [("success", VInt (if success then a + 1 else a));
               ("failure", VInt (if success then b else b + 1))])
       (MetricsCollector.metrics_window tn), Ok tt).
Proof.
  intros H. unfold MetricsCollector.record_connection. rewrite H.
  destruct success; reflexivity.
Qed.

Lemma record_connections_from tn server later : forall now success c a b,
  Cache.get now c (MetricsCollector.connection_key server)
    (VDict [("success", VInt 0); ("failure", VInt 0)])
  = VDict [("success", VInt a); ("failure", VInt b)] ->
  within_window (MetricsCollector.metrics_window tn)
    (map fst ((now, success) :: later)) ->
  record_connections tn ((now, success) :: later) c server
  = (Cache.set (fst (List.last later (now, success))) c
       (MetricsCollector.connection_key server)
       (VDict [("success", VInt (a + tally true ((now, success) :: later)));
               ("failure", VInt (b + tally false ((now, success) :: later)))])
       (MetricsCollector.metrics_window tn), Ok tt).
Proof.
  induction later as [|[now' success'] later IH]; intros now success c a b Hget Hwin.
  - cbn [record_connections].
    rewrite (record_connection_tallied tn now c server success a b Hget).
    unfold tally.
    destruct success; cbn; do 2 f_equal; apply tally_dict_eq; lia.
  - change (record_connections tn ((now, success) :: (now', success') :: later)
              c server)
      with (match MetricsCollector.record_connection tn now c server success with
            | (c1, Raise e) => (c1, Raise e)
            | (c1, Ok _) =>
                record_connections tn ((now', success') :: later) c1 server
            end).
    rewrite (record_connection_tallied tn now c server success a b Hget).
    cbn [map fst] in Hwin. destruct Hwin as [Ht Hwin].
    rewrite (IH now' success' _ (if success then a + 1 else a)
               (if success then b else b + 1)); [| |exact Hwin].
    + rewrite cache_set_set.
      rewrite (last_cons_default later (now', success') (now, success)).
      unfold tally. cbn [List.filter snd].
      destruct success, success'; cbn [Bool.eqb length];
        do 2 f_equal; apply tally_dict_eq; lia.
    + apply cache_get_set_live. lia.
Qed.

(** X16. Connection outcomes accumulate: starting from an absent or
    expired entry, after a run of recorded outcomes, each made while the
    entry written by the one before is live, the stored counters are the
    number of successes and the number of failures of the run. *)
Theorem record_connections_tally
    (tn : Tunables) (server : MCPServer) (c : Cache.t)
    (now : Z) (success : bool) (later : list (Z * bool)) :
  Cache.vacant now c (MetricsCollector.connection_key server) ->
  within_window (MetricsCollector.metrics_window tn)
    (map fst ((now, success) :: later)) ->
  record_connections tn ((now, success) :: later) c server
  = (Cache.set (fst (List.last later (now, success))) c
       (MetricsCollector.connection_key server)
       (VDict [("success", VInt (tally true ((now, success) :: later)));
               ("failure", VInt (tally false ((now, success) :: later)))])
       (MetricsCollector.metrics_window tn), Ok tt).
Proof.
  intros Hvac Hwin.
  apply (record_connections_from tn server later now success c 0 0);
    [|exact Hwin].
  now apply cache_get_vacant.
Qed.

Lemma record_connections_tally_witness :
  record_connections untuned [(100, true); (200, false); (300, true)] ∅
    Sample.backend
  = (Cache.set 300 ∅ "mcp_metrics:connection:1"
       (VDict [("success", VInt 2); ("failure", VInt 1)]) 3600, Ok tt).
Proof.
  apply (record_connections_tally untuned Sample.backend ∅ 100 true
           [(200, false); (300, true)]).
  - exact I.
  - unfold MetricsCollector.metrics_window. simpl. lia.
Defined.

(** ** The provider registry *)

Section Registry.

Variables import_builtin import_custom : string -> option MCPServerRegistry.ProviderClass.
Variable st : Settings.

Let get_provider := MCPServerRegistry.get_provider import_builtin import_custom st.
Let initialize := MCPServerRegistry.initialize import_builtin import_custom st.

Lemma load_builtin_bad names : forall reg,
  (exists name cls,
     In name names /\ import_builtin name = Some cls
     /\ MCPServerRegistry.inherits_base cls = false) ->
  exists reg' msg,
    MCPServerRegistry.load_builtin import_builtin names reg
    = (reg', Raise (ValueError msg))
    /\ MCPServerRegistry._initialized reg' = MCPServerRegistry._initialized reg.
Proof.
  induction names as [|n names IH]; intros reg (name & cls & Hin & Himp & Hbase);
    [destruct Hin|].
  cbn [MCPServerRegistry.load_builtin].
  destruct (import_builtin n) as [cls'|] eqn:En.
  - unfold MCPServerRegistry.register_provider.
    destruct (MCPServerRegistry.inherits_base cls') eqn:Eb; cbn [negb].
    + destruct Hin as [->|Hin]; [congruence|].
      destruct (IH {| MCPServerRegistry._providers :=
                        <[n:=cls']> (MCPServerRegistry._providers reg);
                      MCPServerRegistry._initialized :=
                        MCPServerRegistry._initialized reg |})
        as (reg' & msg & Hload & Hinit); [eauto|].
      exists reg', msg. split; [exact Hload|exact Hinit].
    + eauto.
  - destruct Hin as [->|Hin]; [congruence|].
    apply IH. eauto.
Qed.

Lemma load_builtin_lookup names : forall reg,
  (forall name cls, In name names -> import_builtin name = Some cls ->
     MCPServerRegistry.inherits_base cls = true) ->
  exists reg',
    MCPServerRegistry.load_builtin import_builtin names reg = (reg', Ok tt)
    /\ MCPServerRegistry._initialized reg' = MCPServerRegistry._initialized reg
    /\ forall name,
         MCPServerRegistry._providers reg' !! name
         = match (if str_in name names then import_builtin name else None) with
           | Some cls => Some cls
           | None => MCPServerRegistry._providers reg !! name
           end.
Proof.
  induction names as [|n names IH]; intros reg Hall.
  - exists reg. repeat split.
  - cbn [MCPServerRegistry.load_builtin].
    assert (Hall' : forall name cls, In name names ->
              import_builtin name = Some cls ->
              MCPServerRegistry.inherits_base cls = true)
      by (intros name cls Hin; apply Hall; now right).
    destruct (import_builtin n) as [cls|] eqn:En.
    + unfold MCPServerRegistry.register_provider.
      rewrite (Hall n cls (or_introl eq_refl) En). cbn [negb].
      destruct (IH {| MCPServerRegistry._providers :=
                        <[n:=cls]> (MCPServerRegistry._providers reg);
                      MCPServerRegistry._initialized :=
                        MCPServerRegistry._initialized reg |} Hall')
        as (reg' & Hload & Hinit & Hlook).
      exists reg'. split; [exact Hload|]. split; [exact Hinit|].
      intros name. rewrite Hlook. cbn [MCPServerRegistry._providers].
      unfold str_in. cbn [existsb].
      destruct (String.eqb_spec name n) as [->|Hne]; cbn [orb].
      * rewrite En. destruct (existsb (String.eqb n) names);
          [reflexivity|apply lookup_insert_eq].
      * destruct (if existsb (String.eqb name) names
                  then import_builtin name else None); [reflexivity|].
        apply lookup_insert_ne. congruence.
    + destruct (IH reg Hall') as (reg' & Hload & Hinit & Hlook).
      exists reg'. split; [exact Hload|]. split; [exact Hinit|].
      intros name. rewrite Hlook. unfold str_in. cbn [existsb].
      destruct (String.eqb_spec name n) as [->|Hne]; cbn [orb]; [|reflexivity].
      rewrite En. now destruct (existsb (String.eqb n) names).
Qed.

End Registry.

(** X17. On an initialised registry a class that derives from
    [BaseMCPProvider] is found again under the name it was registered
    with, replacing whatever was there, and every other name is found as
    before. *)
Theorem register_then_get_provider
    (import_builtin import_custom : string -> option MCPServerRegistry.ProviderClass)
    (st : Settings) (name : string)
    (provider_class : MCPServerRegistry.ProviderClass)
    (reg : MCPServerRegistry.Registry) :
  MCPServerRegistry.inherits_base provider_class = true ->
  MCPServerRegistry._initialized reg = true ->
  let registered :=
    MCPServerRegistry.register_provider name provider_class reg in
  snd registered = Ok tt
  /\ MCPServerRegistry.get_provider import_builtin import_custom st name
       (fst registered)
     = (fst registered, Ok (Some provider_class))
  /\ forall other, other <> name ->
       MCPServerRegistry.get_provider import_builtin import_custom st other
         (fst registered)
       = (fst registered, Ok (MCPServerRegistry._providers reg !! other)).
Proof.
  intros Hbase Hinit. cbv zeta.
  unfold MCPServerRegistry.register_provider. rewrite Hbase. cbn [negb fst snd].
  unfold MCPServerRegistry.get_provider.
  cbn [MCPServerRegistry._initialized MCPServerRegistry._providers].
  rewrite Hinit.
  cbn [MCPServerRegistry._initialized MCPServerRegistry._providers].
  split; [reflexivity|]. split.
  - now rewrite lookup_insert_eq.
  - intros other Hne. rewrite lookup_insert_ne by congruence. reflexivity.
Qed.

Lemma register_then_get_provider_witness :
  MCPServerRegistry.get_provider Sample.nothing_importable
    Sample.nothing_importable unset "partial"
    (fst (MCPServerRegistry.register_provider "partial"
            Sample.abstract_subclass Sample.fresh_registry))
  = (fst (MCPServerRegistry.register_provider "partial"
            Sample.abstract_subclass Sample.fresh_registry),
     Ok (Some Sample.abstract_subclass)).
Proof.
  apply (register_then_get_provider Sample.nothing_importable
           Sample.nothing_importable unset "partial" Sample.abstract_subclass
           Sample.fresh_registry); reflexivity.
Defined.

(** X18. Initialisation happens once: after [initialize] has returned,
    calling it again changes nothing, and [get_provider] answers from the
    registry as it stands, whatever has become importable in between. *)
Theorem initialize_once
    (import_builtin import_custom import_builtin' import_custom'
       : string -> option MCPServerRegistry.ProviderClass)
    (st st' : Settings) (reg reg1 : MCPServerRegistry.Registry) :
  MCPServerRegistry.initialize import_builtin import_custom st reg
  = (reg1, Ok tt) ->
  MCPServerRegistry._initialized reg1 = true
  /\ MCPServerRegistry.initialize import_builtin' import_custom' st' reg1
     = (reg1, Ok tt)
  /\ forall name,
       MCPServerRegistry.get_provider import_builtin' import_custom' st' name
         reg1
       = (reg1, Ok (MCPServerRegistry._providers reg1 !! name)).
Proof.
  intros Hinit.
  assert (H1 : MCPServerRegistry._initialized reg1 = true).
  { unfold MCPServerRegistry.initialize in Hinit.
    destruct (MCPServerRegistry._initialized reg) eqn:E.
    - injection Hinit as <-. exact E.
    - destruct (MCPServerRegistry._load_builtin_providers import_builtin reg)
        as [reg0 [u|e]]; [|discriminate].
      injection Hinit as <-. reflexivity. }
  split; [exact H1|].
  unfold MCPServerRegistry.initialize, MCPServerRegistry.get_provider.
  rewrite H1. split; [reflexivity|]. intros name. reflexivity.
Qed.

Lemma initialize_once_witness :
  MCPServerRegistry.initialize (claude_importable Sample.abstract_subclass)
    Sample.nothing_importable unset cold_registry
  = (claude_loaded Sample.abstract_subclass, Ok tt)
  /\ MCPServerRegistry._initialized (claude_loaded Sample.abstract_subclass)
     = true
  /\ MCPServerRegistry.initialize (claude_importable Sample.unrelated_class)
       Sample.nothing_importable Sample.tight
       (claude_loaded Sample.abstract_subclass)
     = (claude_loaded Sample.abstract_subclass, Ok tt)
  /\ forall name,
       MCPServerRegistry.get_provider
         (claude_importable Sample.unrelated_class)
         Sample.nothing_importable Sample.tight name
         (claude_loaded Sample.abstract_subclass)
       = (claude_loaded Sample.abstract_subclass,
          Ok (MCPServerRegistry._providers
                (claude_loaded Sample.abstract_subclass) !! name)).
Proof.
  assert (Hinit :
    MCPServerRegistry.initialize (claude_importable Sample.abstract_subclass)
      Sample.nothing_importable unset cold_registry
    = (claude_loaded Sample.abstract_subclass, Ok tt)) by reflexivity.
  split; [exact Hinit|].
  exact (initialize_once (claude_importable Sample.abstract_subclass)
           Sample.nothing_importable
           (claude_importable Sample.unrelated_class)
           Sample.nothing_importable unset Sample.tight
           cold_registry (claude_loaded Sample.abstract_subclass) Hinit).
Defined.

(** X19. A built-in module whose class does not derive from
    [BaseMCPProvider] makes [initialize] raise the registration's
    ValueError and leaves the registry uninitialised, so [get_provider]
    raises as well; the same class offered as a custom provider is skipped
    and the registry is left as it was. *)
Theorem initialize_aborts_on_bad_builtin
    (import_builtin import_custom : string -> option MCPServerRegistry.ProviderClass)
    (st : Settings) (reg : MCPServerRegistry.Registry)
    (name : string) (cls : MCPServerRegistry.ProviderClass) :
  MCPServerRegistry._initialized reg = false ->
  In name MCPServerRegistry.builtin_providers ->
  import_builtin name = Some cls ->
  MCPServerRegistry.inherits_base cls = false ->
  (exists reg' msg,
     MCPServerRegistry.initialize import_builtin import_custom st reg
     = (reg', Raise (ValueError msg))
     /\ MCPServerRegistry._initialized reg' = false
     /\ forall wanted,
          MCPServerRegistry.get_provider import_builtin import_custom st wanted
            reg
          = (reg', Raise (ValueError msg)))
  /\ forall module_path,
       import_custom module_path = Some cls ->
       MCPServerRegistry.load_custom import_custom [(name, module_path)] reg
       = reg.
Proof.
  intros Hinit Hin Himp Hbase. split.
  - destruct (load_builtin_bad import_builtin
                MCPServerRegistry.builtin_providers reg)
      as (reg' & msg & Hload & Hinit'); [eauto|].
    exists reg', msg.
    unfold MCPServerRegistry.get_provider, MCPServerRegistry.initialize,
      MCPServerRegistry._load_builtin_providers.
    rewrite Hinit, Hload. repeat split. congruence.
  - intros module_path Hcustom. cbn [MCPServerRegistry.load_custom].
    rewrite Hcustom. unfold MCPServerRegistry.register_provider.
    now rewrite Hbase.
Qed.

Lemma initialize_aborts_on_bad_builtin_witness :
  exists reg' msg,
    MCPServerRegistry.initialize
      (fun name => if String.eqb name "github"
                   then Some Sample.unrelated_class else None)
      Sample.nothing_importable unset
      {| MCPServerRegistry._providers := ∅;
         MCPServerRegistry._initialized := false |}
    = (reg', Raise (ValueError msg))
    /\ MCPServerRegistry._initialized reg' = false.
Proof.
  destruct (initialize_aborts_on_bad_builtin
              (fun name => if String.eqb name "github"
                           then Some Sample.unrelated_class else None)
              Sample.nothing_importable unset
              {| MCPServerRegistry._providers := ∅;
                 MCPServerRegistry._initialized := false |}
              "github" Sample.unrelated_class)
    as [(reg' & msg & Hinit & Hflag & _) _].
  - reflexivity.
  - simpl. tauto.
  - reflexivity.
  - reflexivity.
  - exists reg', msg. split; assumption.
Defined.

(** X20. With no custom providers configured and every importable built-in
    class deriving from [BaseMCPProvider], the first [get_provider] on an
    uninitialised registry finds, under a built-in name that can be
    imported, the built-in class, even where another class had been
    registered under that name; any other name is found as registered
    before. Afterwards [validate_provider] agrees with what was found;
    before, as it does not initialise, it denies a name nobody registered
    by hand. *)
Theorem first_get_provider_loads_builtins
    (import_builtin import_custom : string -> option MCPServerRegistry.ProviderClass)
    (st : Settings) (reg : MCPServerRegistry.Registry) (name : string) :
  MCPServerRegistry._initialized reg = false ->
  getattr (MCP_CUSTOM_PROVIDERS st) [] = [] ->
  (forall builtin cls,
     In builtin MCPServerRegistry.builtin_providers ->
     import_builtin builtin = Some cls ->
     MCPServerRegistry.inherits_base cls = true) ->
  let loaded :=
    if str_in name MCPServerRegistry.builtin_providers
    then import_builtin name else None in
  let found :=
    match loaded with
    | Some cls => Some cls
    | None => MCPServerRegistry._providers reg !! name
    end in
  exists reg',
    MCPServerRegistry.get_provider import_builtin import_custom st name reg
    = (reg', Ok found)
    /\ MCPServerRegistry._initialized reg' = true
    /\ RegistryLookup.validate_provider name reg'
       = match found with Some _ => true | None => false end
    /\ (MCPServerRegistry._providers reg !! name = None ->
        RegistryLookup.validate_provider name reg = false).
Proof.
  intros Hinit Hcustom Hall loaded found.
  destruct (load_builtin_lookup import_builtin
              MCPServerRegistry.builtin_providers reg Hall)
    as (reg1 & Hload & _ & Hlook).
  unfold MCPServerRegistry.get_provider, MCPServerRegistry.initialize,
    MCPServerRegistry._load_builtin_providers,
    MCPServerRegistry._load_custom_providers.
  rewrite Hinit, Hload, Hcustom.
  cbn [MCPServerRegistry.load_custom MCPServerRegistry._providers].
  eexists. split; [|split; [|split]].
  - rewrite Hlook. reflexivity.
  - reflexivity.
  - unfold RegistryLookup.validate_provider.
    cbn [MCPServerRegistry._providers]. now rewrite Hlook.
  - intros Hnone. unfold RegistryLookup.validate_provider. now rewrite Hnone.
Qed.

Lemma first_get_provider_loads_builtins_witness :
  exists reg',
    MCPServerRegistry.get_provider
      (fun name => if String.eqb name "claude"
                   then Some Sample.abstract_subclass else None)
      Sample.nothing_importable unset "claude"
      {| MCPServerRegistry._providers := ∅;
         MCPServerRegistry._initialized := false |}
    = (reg', Ok (Some Sample.abstract_subclass))
    /\ MCPServerRegistry._initialized reg' = true
    /\ RegistryLookup.validate_provider "claude" reg' = true
    /\ RegistryLookup.validate_provider "claude"
         {| MCPServerRegistry._providers := ∅;
            MCPServerRegistry._initialized := false |} = false.
Proof.
  destruct (first_get_provider_loads_builtins
              (fun name => if String.eqb name "claude"
                           then Some Sample.abstract_subclass else None)
              Sample.nothing_importable unset
              {| MCPServerRegistry._providers := ∅;
                 MCPServerRegistry._initialized := false |} "claude")
    as (reg' & Hget & Hinit & Hafter & Hbefore).
  - reflexivity.
  - reflexivity.
  - intros builtin cls _. destruct (String.eqb builtin "claude");
      [intros [= <-]; reflexivity|discriminate].
  - exists reg'. split; [exact Hget|]. split; [exact Hinit|].
    split; [exact Hafter|]. apply Hbefore. reflexivity.
Defined.

(** ** What record validation accepts *)

(** X21. A backend name draws no problem exactly when it has between 3
    and 255 characters, all of them in the class [[a-zA-Z0-9\s\-_]]. *)
Theorem validate_server_name_accepts (name : string) :
  MCPValidationHooks._validate_server_name name = []
  <-> (3 <= String.length name <= 255)%nat
      /\ MCPValidationHooks.all_chars MCPValidationHooks.name_char name = true.
Proof.
  split.
  - intros Hnil.
    destruct (Nat.ltb_spec (String.length name) 3) as [H3|H3].
    { exfalso. apply (validate_server_name_problems name); tauto. }
    destruct (Nat.ltb_spec 255 (String.length name)) as [H255|H255].
    { exfalso. apply (validate_server_name_problems name); tauto. }
    destruct (MCPValidationHooks.all_chars MCPValidationHooks.name_char name)
      eqn:E.
    + split; [lia|reflexivity].
    + exfalso. apply (validate_server_name_problems name); tauto.
  - intros [[H3 H255] Hall]. unfold MCPValidationHooks._validate_server_name.
    destruct (String.eqb_spec name "") as [->|Hne]; [cbn in H3; lia|].
    destruct (Nat.ltb_spec (String.length name) 3); [lia|].
    destruct (Nat.ltb_spec 255 (String.length name)); [lia|].
    unfold MCPValidationHooks.re_match_name. rewrite Hall.
    apply String.eqb_neq in Hne. now rewrite Hne.
Qed.

Section EndpointAcceptance.

Variable urlparse : string -> result MCPValidationHooks.ParseResult.
Variable st : Settings.

Let allowed_domains := getattr (MCP_ALLOWED_DOMAINS st) [].
Let blocked_domains := getattr (MCP_BLOCKED_DOMAINS st) [].

(** X22. An endpoint draws no problem exactly when it is not empty, parses,
    has one of the four schemes and a non-empty host, the host ends with an
    entry of the allow-list if that list is not empty, and ends with no
    entry of the block-list. *)
Theorem validate_endpoint_accepts (endpoint : string) :
  MCPValidationHooks._validate_endpoint urlparse st endpoint = []
  <-> endpoint <> ""
      /\ exists parsed,
           urlparse endpoint = Ok parsed
           /\ str_in (MCPValidationHooks.scheme parsed)
                ["http"; "https"; "ws"; "wss"] = true
           /\ MCPValidationHooks.netloc parsed <> ""
           /\ (allowed_domains = []
               \/ existsb (endswith (MCPValidationHooks.netloc parsed))
                    allowed_domains = true)
           /\ existsb (endswith (MCPValidationHooks.netloc parsed))
                blocked_domains = false.
Proof.
  unfold MCPValidationHooks._validate_endpoint.
  fold allowed_domains blocked_domains.
  destruct (String.eqb_spec endpoint "") as [->|Hne].
  { split; [discriminate|]. intros [H _]. congruence. }
  destruct (urlparse endpoint) as [parsed|e].
  2:{ split; [discriminate|]. intros (_ & parsed & H & _). discriminate H. }
  split.
  - intros Hnil.
    apply app_eq_nil in Hnil. destruct Hnil as [Hs Hnil].
    apply app_eq_nil in Hnil. destruct Hnil as [Hin Hnil].
    apply app_eq_nil in Hnil. destruct Hnil as [Hn Hnil].
    apply app_eq_nil in Hnil. destruct Hnil as [Ha Hb].
    split; [exact Hne|]. exists parsed. split; [reflexivity|].
    split; [|split; [|split]].
    + destruct (str_in (MCPValidationHooks.scheme parsed) _);
        [reflexivity|discriminate Hin].
    + destruct (String.eqb_spec (MCPValidationHooks.netloc parsed) "");
        [discriminate Hn|assumption].
    + destruct allowed_domains as [|a l]; [now left|right].
      destruct (existsb _ (a :: l)); [reflexivity|discriminate Ha].
    + destruct blocked_domains as [|b l]; [reflexivity|].
      destruct (existsb _ (b :: l)); [discriminate Hb|reflexivity].
  - intros (_ & parsed' & [= <-] & Hscheme & Hnet & Hallow & Hblock).
    rewrite Hscheme, Hblock. apply String.eqb_neq in Hnet. rewrite Hnet.
    assert (Hs : String.eqb (MCPValidationHooks.scheme parsed) "" = false).
    { destruct (String.eqb_spec (MCPValidationHooks.scheme parsed) "")
        as [E|]; [|reflexivity].
      rewrite E in Hscheme. discriminate Hscheme. }
    rewrite Hs. cbn [negb app].
    destruct Hallow as [-> | ->].
    + now destruct blocked_domains.
    + now destruct allowed_domains, blocked_domains.
Qed.

End EndpointAcceptance.

Lemma report_empty field problems (errors : gmap string (list string)) :
  MCPValidationHooks.report field problems errors = ∅
  <-> problems = [] /\ errors = ∅.
Proof.
  unfold MCPValidationHooks.report. destruct problems as [|p l].
  - split; [now intros ->|now intros [_ ->]].
  - split; [|intros [H _]; discriminate H].
    intros H. exfalso. apply (insert_non_empty _ _ _ H).
Qed.

(** X23. The mapping [validate_server_configuration] returns is empty
    exactly when each of its checks reports nothing: name, endpoint,
    configuration size, authentication, and, for a record with a type, the
    provider's configuration. *)
Theorem validate_server_configuration_valid
    (urlparse : string -> result MCPValidationHooks.ParseResult)
    (config_size authentication_problems : value -> list string)
    (provider_problems : string -> value -> list string)
    (st : Settings) (server : MCPServer) :
  MCPValidationHooks.validate_server_configuration urlparse config_size
    authentication_problems provider_problems st server = ∅
  <-> MCPValidationHooks._validate_server_name (name server) = []
      /\ MCPValidationHooks._validate_endpoint urlparse st (endpoint server) = []
      /\ config_size (configuration server) = []
      /\ authentication_problems (authentication server) = []
      /\ (server_type server <> "" ->
          provider_problems (server_type server) (configuration server) = []).
Proof.
  unfold MCPValidationHooks.validate_server_configuration.
  destruct (String.eqb_spec (server_type server) "") as [E|E]; cbn [negb];
    rewrite !report_empty; intuition congruence.
Qed.

Lemma py_eq_str_true v s :
  ValidationDetail.py_eq_str v s = true <-> v = VStr s.
Proof.
  destruct v; cbn; try (split; [discriminate|intros [=]]).
  rewrite String.eqb_eq. split; [now intros ->|now intros [= ->]].
Qed.

Lemma py_eq_str_false v s :
  ValidationDetail.py_eq_str v s = false <-> v <> VStr s.
Proof.
  rewrite <- py_eq_str_true.
  destruct (ValidationDetail.py_eq_str v s); intuition congruence.
Qed.

(** X24. For a non-empty authentication dictionary the check returns a list
    of problems, and that list is empty exactly when: a bearer type comes
    with a truthy token; an api_key type with a truthy key and header name;
    an oauth type with truthy client id, client secret and token URL; and
    any other type is falsy, [none] or [custom]. *)
Theorem validate_authentication_accepts
    (py_str : value -> string) (entry : string * value) (rest : pydict) :
  let d := entry :: rest in
  let auth_type := Dict.get_or "type" VNone d in
  let present field := truthy (Dict.get_or field VNone d) = true in
  exists problems,
    ValidationDetail._validate_authentication py_str (VDict d) = Ok problems
    /\ (problems = []
        <-> (auth_type = VStr "bearer" -> present "token")
            /\ (auth_type = VStr "api_key" ->
                present "key" /\ present "header_name")
            /\ (auth_type = VStr "oauth" ->
                present "client_id" /\ present "client_secret"
                /\ present "token_url")
            /\ (auth_type <> VStr "bearer" -> auth_type <> VStr "api_key" ->
                auth_type <> VStr "oauth" ->
                truthy auth_type = false \/ auth_type = VStr "none"
                \/ auth_type = VStr "custom")).
Proof.
  intros d auth_type present. unfold ValidationDetail._validate_authentication.
  cbn [truthy negb]. fold d. fold auth_type.
  destruct (ValidationDetail.py_eq_str auth_type "bearer") eqn:Eb.
  { apply py_eq_str_true in Eb. eexists. split; [reflexivity|].
    unfold present. rewrite Eb.
    destruct (truthy (Dict.get_or "token" VNone d)); cbn [negb];
      split; try discriminate; try (intros _; repeat split; congruence).
    intros [H _]. specialize (H eq_refl). discriminate H. }
  destruct (ValidationDetail.py_eq_str auth_type "api_key") eqn:Ek.
  { apply py_eq_str_true in Ek. eexists. split; [reflexivity|].
    unfold present. rewrite Ek.
    destruct (truthy (Dict.get_or "key" VNone d));
      destruct (truthy (Dict.get_or "header_name" VNone d)); cbn [negb app];
      split; try discriminate; try (intros _; repeat split; congruence);
      intros (_ & H & _); destruct (H eq_refl); discriminate. }
  destruct (ValidationDetail.py_eq_str auth_type "oauth") eqn:Eo.
  { apply py_eq_str_true in Eo. eexists. split; [reflexivity|].
    unfold present. rewrite Eo. cbn [flat_map app].
    destruct (truthy (Dict.get_or "client_id" VNone d));
      destruct (truthy (Dict.get_or "client_secret" VNone d));
      destruct (truthy (Dict.get_or "token_url" VNone d)); cbn [negb app];
      split; try discriminate; try (intros _; repeat split; congruence);
      intros (_ & _ & H & _); destruct (H eq_refl) as (? & ? & ?);
      discriminate. }
  apply py_eq_str_false in Eb, Ek, Eo. cbn [existsb orb].
  destruct (truthy auth_type) eqn:Et; cbn [andb].
  - destruct (ValidationDetail.py_eq_str auth_type "none") eqn:En.
    { apply py_eq_str_true in En. eexists. split; [reflexivity|].
      split; [|reflexivity]. intros _. repeat split; try congruence. tauto. }
    destruct (ValidationDetail.py_eq_str auth_type "custom") eqn:Ec.
    { apply py_eq_str_true in Ec. eexists. split; [reflexivity|].
      split; [|reflexivity]. intros _. repeat split; try congruence. tauto. }
    apply py_eq_str_false in En, Ec. cbn [orb negb].
    eexists. split; [reflexivity|]. split; [discriminate|].
    intros (_ & _ & _ & H). destruct (H Eb Ek Eo) as [H'|[H'|H']]; congruence.
  - eexists. split; [reflexivity|]. split; [|reflexivity].
    intros _. repeat split; try congruence. tauto.
Qed.

(** X25. For request data that is a dictionary, [validate_request] returns
    a mapping in which [method] is reported exactly when the method is
    missing or falsy, [size] exactly when the serialised text is longer
    than the ceiling, [format] exactly when serialising fails, and nothing
    else is ever reported: the mapping is empty exactly when the method is
    truthy and the text fits. *)
Theorem validate_request_reports
    (str_of_int : Z -> string) (json_dumps : value -> ValidationDetail.dumped)
    (tn : Tunables) (server : MCPServer) (d : pydict) :
  let ceiling := getattr (MCP_MAX_REQUEST_SIZE tn) (10 * 1024 * 1024) in
  let fits :=
    exists text, json_dumps (VDict d) = ValidationDetail.Dumped text
                 /\ Z.of_nat (String.length text) <= ceiling in
  exists errors,
    ValidationDetail.validate_request str_of_int json_dumps tn server (VDict d)
    = Ok errors
    /\ (is_Some (errors !! "method")
        <-> truthy (Dict.get_or "method" VNone d) = false)
    /\ (is_Some (errors !! "size")
        <-> exists text, json_dumps (VDict d) = ValidationDetail.Dumped text
                         /\ ceiling < Z.of_nat (String.length text))
    /\ (is_Some (errors !! "format")
        <-> exists message,
              json_dumps (VDict d) = ValidationDetail.DumpFailed message)
    /\ (forall field, field <> "method" -> field <> "size" ->
          field <> "format" -> errors !! field = None)
    /\ (errors = ∅ <-> truthy (Dict.get_or "method" VNone d) = true /\ fits).
Proof.
  intros ceiling fits. subst fits. unfold ValidationDetail.validate_request.
  fold ceiling.
  set (base := if negb (truthy (Dict.get_or "method" VNone d))
               then ({[ "method" := ["Request method is required"] ]}
                      : gmap string (list string))
               else ∅).
  assert (Hbase_m : is_Some (base !! "method")
                    <-> truthy (Dict.get_or "method" VNone d) = false).
  { unfold base. destruct (truthy (Dict.get_or "method" VNone d)); cbn [negb].
    - rewrite lookup_empty. split; [intros [x H]; discriminate H|discriminate].
    - rewrite lookup_singleton_eq. split; [reflexivity|eauto]. }
  assert (Hbase_o : forall field, field <> "method" -> base !! field = None).
  { intros field Hf. unfold base.
    destruct (negb (truthy (Dict.get_or "method" VNone d)));
      [now apply lookup_singleton_ne|apply lookup_empty]. }
  assert (Hbase_e : base = ∅ <-> truthy (Dict.get_or "method" VNone d) = true).
  { unfold base. destruct (truthy (Dict.get_or "method" VNone d)); cbn [negb].
    - split; reflexivity.
    - split; [|discriminate]. intros H.
      apply (f_equal (fun m : gmap string (list string) => m !! "method")) in H.
      rewrite lookup_singleton_eq, lookup_empty in H. discriminate H. }
  assert (Hnone : forall m : option (list string), m = None -> ~ is_Some m)
    by (intros m -> [x H]; discriminate H).
  destruct (json_dumps (VDict d)) as [text|message].
  - destruct (Z.ltb_spec ceiling (Z.of_nat (String.length text))) as [Hbig|Hfit].
    + eexists. split; [reflexivity|].
      split; [rewrite lookup_insert_ne by discriminate; exact Hbase_m|].
      split.
      { rewrite lookup_insert_eq. split; eauto. }
      split.
      { rewrite lookup_insert_ne, Hbase_o by discriminate.
        split; [intros [x H]; discriminate H|].
        intros [message H]. discriminate H. }
      split.
      { intros field Hm Hs Hf. rewrite lookup_insert_ne by congruence.
        now apply Hbase_o. }
      split.
      * intros H. exfalso. apply (insert_non_empty _ _ _ H).
      * intros [_ (text' & [= <-] & Hle)]. lia.
    + eexists. split; [reflexivity|].
      split; [exact Hbase_m|].
      split.
      { rewrite Hbase_o by discriminate.
        split; [intros [x H]; discriminate H|].
        intros (text' & [= <-] & Hlt). lia. }
      split.
      { rewrite Hbase_o by discriminate.
        split; [intros [x H]; discriminate H|].
        intros [message H]. discriminate H. }
      split.
      { intros field Hm _ _. now apply Hbase_o. }
      rewrite Hbase_e. split; [eauto|tauto].
  - eexists. split; [reflexivity|].
    split; [rewrite lookup_insert_ne by discriminate; exact Hbase_m|].
    split.
    { rewrite lookup_insert_ne, Hbase_o by discriminate.
      split; [intros [x H]; discriminate H|].
      intros (text & H & _). discriminate H. }
    split.
    { rewrite lookup_insert_eq. split; eauto. }
    split.
    { intros field Hm Hs Hf. rewrite lookup_insert_ne by congruence.
      now apply Hbase_o. }
    split.
    + intros H. exfalso. apply (insert_non_empty _ _ _ H).
    + intros [_ (text & H & _)]. discriminate H.
Qed.

(** ** What the sanitiser leaves behind *)

Lemma drop_length n : forall s,
  (String.length (ResponseTransformer.drop n s) <= String.length s)%nat.
Proof.
  induction n as [|n IH]; intros [|c r]; cbn; try lia.
  specialize (IH r). lia.
Qed.

Lemma skip_nonspace_length s :
  (String.length (ResponseTransformer.skip_nonspace s) <= String.length s)%nat.
Proof.
  induction s as [|c r IH]; cbn; [lia|].
  destruct (is_space c); cbn; lia.
Qed.

(** Where a match starts, what is scanned next is shorter than the tail. *)
Lemma match_rest_length lit c r :
  Redaction.matches_at lit (String c r) = true ->
  (String.length
     (ResponseTransformer.skip_nonspace
        (ResponseTransformer.drop (String.length lit) (String c r)))
   <= String.length r)%nat.
Proof.
  unfold Redaction.matches_at. intros H. apply andb_prop in H.
  destruct H as [_ H].
  pose proof (drop_length (String.length lit) (String c r)) as Hd.
  destruct (ResponseTransformer.drop (String.length lit) (String c r))
    as [|c' r']; [discriminate H|].
  cbn in H. cbn [ResponseTransformer.skip_nonspace].
  destruct (is_space c'); [discriminate H|].
  pose proof (skip_nonspace_length r'). cbn in Hd. lia.
Qed.

Lemma re_sub_from_enough lit f1 : forall f2 s,
  (String.length s <= f1)%nat -> (String.length s <= f2)%nat ->
  ResponseTransformer.re_sub_from f1 lit s
  = ResponseTransformer.re_sub_from f2 lit s.
Proof.
  induction f1 as [|f1 IH]; intros f2 s H1 H2.
  - destruct s; [|cbn in H1; lia]. now destruct f2.
  - destruct s as [|c r]; [now destruct f2|].
    destruct f2 as [|f2]; [cbn in H2; lia|].
    cbn [ResponseTransformer.re_sub_from].
    change (String.prefix lit (lower (String c r))
            && ResponseTransformer.starts_nonspace
                 (ResponseTransformer.drop (String.length lit) (String c r)))
      with (Redaction.matches_at lit (String c r)).
    cbn in H1, H2.
    destruct (Redaction.matches_at lit (String c r)) eqn:E.
    + f_equal. pose proof (match_rest_length lit c r E).
      apply IH; lia.
    + f_equal. apply IH; lia.
Qed.

Lemma re_sub_nil lit : ResponseTransformer.re_sub lit "" = "".
Proof. reflexivity. Qed.

Lemma re_sub_match lit c r :
  Redaction.matches_at lit (String c r) = true ->
  ResponseTransformer.re_sub lit (String c r)
  = "[REDACTED]"
    +:+ ResponseTransformer.re_sub lit
          (ResponseTransformer.skip_nonspace
             (ResponseTransformer.drop (String.length lit) (String c r))).
Proof.
  intros E. unfold ResponseTransformer.re_sub.
  cbn [String.length ResponseTransformer.re_sub_from].
  change (String.prefix lit (lower (String c r))
          && ResponseTransformer.starts_nonspace
               (ResponseTransformer.drop (String.length lit) (String c r)))
    with (Redaction.matches_at lit (String c r)).
  rewrite E. f_equal. pose proof (match_rest_length lit c r E).
  apply re_sub_from_enough; lia.
Qed.

Lemma re_sub_step lit c r :
  Redaction.matches_at lit (String c r) = false ->
  ResponseTransformer.re_sub lit (String c r)
  = String c (ResponseTransformer.re_sub lit r).
Proof.
  intros E. unfold ResponseTransformer.re_sub.
  cbn [String.length ResponseTransformer.re_sub_from].
  change (String.prefix lit (lower (String c r))
          && ResponseTransformer.starts_nonspace
               (ResponseTransformer.drop (String.length lit) (String c r)))
    with (Redaction.matches_at lit (String c r)).
  now rewrite E.
Qed.

Lemma string_app_cons c a b : String c a +:+ b = String c (a +:+ b).
Proof. reflexivity. Qed.

Lemma lower_app a b : lower (a +:+ b) = lower a +:+ lower b.
Proof.
  induction a as [|c a IH]; [reflexivity|].
  rewrite string_app_cons. cbn [lower]. rewrite string_app_cons.
  f_equal. exact IH.
Qed.

Lemma drop_zero s : ResponseTransformer.drop 0 s = s.
Proof. now destruct s. Qed.

(** A bracket-free [probe] read at the head of the output was read from
    the input, and the output after it is the output of the input after
    it. *)
Lemma probe_through_output lit probe : forall s,
  bracket_free probe = true ->
  String.prefix probe (lower (ResponseTransformer.re_sub lit s)) = true ->
  String.prefix probe (lower s) = true
  /\ ResponseTransformer.drop (String.length probe)
       (ResponseTransformer.re_sub lit s)
     = ResponseTransformer.re_sub lit
         (ResponseTransformer.drop (String.length probe) s).
Proof.
  induction probe as [|a probe IH]; intros s Hfree Hpre.
  - cbn [String.length]. rewrite !drop_zero. split; [now destruct (lower s)|reflexivity].
  - unfold bracket_free in Hfree. cbn [MCPValidationHooks.all_chars] in Hfree.
    apply andb_prop in Hfree. destruct Hfree as [Ha Hfree].
    destruct s as [|c r]; [discriminate Hpre|].
    destruct (Redaction.matches_at lit (String c r)) eqn:E.
    + rewrite (re_sub_match lit c r E), lower_app in Hpre.
      change (lower "[REDACTED]") with "[redacted]" in Hpre.
      rewrite string_app_cons in Hpre. cbn [String.prefix] in Hpre.
      destruct (ascii_dec a "["); [|discriminate Hpre].
      subst a. discriminate Ha.
    + rewrite (re_sub_step lit c r E) in *. cbn [lower String.prefix] in *.
      destruct (ascii_dec a (lower_char c)); [|discriminate Hpre].
      destruct (IH r Hfree Hpre) as [Hp Hd].
      split; [exact Hp|]. cbn [String.length ResponseTransformer.drop].
      exact Hd.
Qed.

Lemma space_is_lower ch : is_space ch = true -> lower_char ch = ch.
Proof.
  destruct ch as [[] [] [] [] [] [] [] []]; intros H;
    solve [reflexivity | discriminate H].
Qed.

Lemma no_match_at_space lit sp r :
  ResponseTransformer.starts_nonspace lit = true ->
  is_space sp = true ->
  Redaction.matches_at lit (String sp r) = false.
Proof.
  intros Hlit Hsp. destruct lit as [|a l]; [discriminate Hlit|].
  unfold Redaction.matches_at. cbn [lower String.prefix].
  rewrite (space_is_lower sp Hsp).
  destruct (ascii_dec a sp) as [->|]; [|reflexivity].
  cbn in Hlit. rewrite Hsp in Hlit. discriminate Hlit.
Qed.

Lemma starts_nonspace_output lit s :
  ResponseTransformer.starts_nonspace lit = true ->
  ResponseTransformer.starts_nonspace s = false ->
  ResponseTransformer.starts_nonspace (ResponseTransformer.re_sub lit s) = false.
Proof.
  intros Hlit Hs. destruct s as [|c r]; [reflexivity|].
  cbn in Hs. apply negb_false_iff in Hs.
  rewrite (re_sub_step lit c r (no_match_at_space lit c r Hlit Hs)).
  cbn. now rewrite Hs.
Qed.

Lemma matches_at_nil probe : Redaction.matches_at probe "" = false.
Proof.
  unfold Redaction.matches_at.
  replace (ResponseTransformer.drop (String.length probe) "") with ""
    by (now destruct (String.length probe)).
  apply andb_false_r.
Qed.

Lemma covered_by_tail probe lit c r :
  covered_by probe lit (String c r) = true -> covered_by probe lit r = true.
Proof. cbn [covered_by]. intros H. now apply andb_prop in H. Qed.

Lemma covered_by_drop probe lit n : forall s,
  covered_by probe lit s = true ->
  covered_by probe lit (ResponseTransformer.drop n s) = true.
Proof.
  induction n as [|n IH]; intros s H; [now rewrite drop_zero|].
  destruct s as [|c r]; [exact H|].
  cbn [ResponseTransformer.drop]. apply IH. eapply covered_by_tail. exact H.
Qed.

Lemma covered_by_skip probe lit s :
  covered_by probe lit s = true ->
  covered_by probe lit (ResponseTransformer.skip_nonspace s) = true.
Proof.
  induction s as [|c r IH]; intros H; [exact H|].
  cbn [ResponseTransformer.skip_nonspace].
  destruct (is_space c); [exact H|].
  apply IH. eapply covered_by_tail. exact H.
Qed.

Lemma covered_by_self probe s : covered_by probe probe s = true.
Proof.
  induction s as [|c r IH]; cbn [covered_by];
    destruct (Redaction.matches_at probe _); cbn; auto.
Qed.

Lemma covered_by_clean probe lit s :
  Redaction.has_match probe s = false -> covered_by probe lit s = true.
Proof.
  induction s as [|c r IH]; cbn [Redaction.has_match covered_by]; intros H;
    apply orb_false_elim in H; destruct H as [-> H]; cbn [implb andb];
    [reflexivity|now apply IH].
Qed.

Section OnePass.

Variables probe lit : string.
Hypothesis probe_free : bracket_free probe = true.
Hypothesis lit_head : ResponseTransformer.starts_nonspace lit = true.
Hypothesis marker_clean : forall rest,
  Redaction.has_match probe ("[REDACTED]" +:+ rest)
  = Redaction.has_match probe rest.

(** One pass for [lit] leaves no match of [probe], if [probe] matched only
    where [lit] did. *)
Lemma re_sub_clears n : forall s,
  (String.length s <= n)%nat ->
  covered_by probe lit s = true ->
  Redaction.has_match probe (ResponseTransformer.re_sub lit s) = false.
Proof.
  induction n as [|n IH]; intros s Hlen Hcov.
  - destruct s; [|cbn in Hlen; lia].
    rewrite re_sub_nil. cbn [Redaction.has_match].
    now rewrite matches_at_nil.
  - destruct s as [|c r].
    { rewrite re_sub_nil. cbn [Redaction.has_match]. now rewrite matches_at_nil. }
    cbn [String.length] in Hlen.
    destruct (Redaction.matches_at lit (String c r)) eqn:E.
    + rewrite (re_sub_match lit c r E), marker_clean.
      apply IH.
      * pose proof (match_rest_length lit c r E). lia.
      * apply covered_by_skip, covered_by_drop. exact Hcov.
    + rewrite (re_sub_step lit c r E). cbn [Redaction.has_match].
      rewrite (IH r) by (try lia; eapply covered_by_tail; exact Hcov).
      rewrite orb_false_r.
      rewrite <- (re_sub_step lit c r E).
      unfold Redaction.matches_at.
      destruct (String.prefix probe
                  (lower (ResponseTransformer.re_sub lit (String c r))))
        eqn:Hpre; [|reflexivity].
      destruct (probe_through_output lit probe (String c r) probe_free Hpre)
        as [Hin Hdrop].
      rewrite Hdrop. cbn [andb].
      apply starts_nonspace_output; [exact lit_head|].
      cbn [covered_by] in Hcov. apply andb_prop in Hcov.
      destruct Hcov as [Himp _]. rewrite E in Himp.
      destruct (ResponseTransformer.starts_nonspace
                  (ResponseTransformer.drop (String.length probe) (String c r)))
        eqn:Es; [|reflexivity].
      exfalso. revert Himp. unfold Redaction.matches_at.
      rewrite Hin, Es. discriminate.
Qed.

End OnePass.

Lemma re_sub_clean lit s :
  Redaction.has_match lit s = false -> ResponseTransformer.re_sub lit s = s.
Proof.
  induction s as [|c r IH]; intros H; [reflexivity|].
  cbn [Redaction.has_match] in H. apply orb_false_elim in H.
  destruct H as [Hm Hr]. rewrite (re_sub_step lit c r Hm). f_equal.
  now apply IH.
Qed.

Lemma marker_clean_token rest :
  Redaction.has_match "token=" ("[REDACTED]" +:+ rest)
  = Redaction.has_match "token=" rest.
Proof. reflexivity. Qed.

Lemma marker_clean_api_key rest :
  Redaction.has_match "api_key=" ("[REDACTED]" +:+ rest)
  = Redaction.has_match "api_key=" rest.
Proof. reflexivity. Qed.

Lemma marker_clean_password rest :
  Redaction.has_match "password=" ("[REDACTED]" +:+ rest)
  = Redaction.has_match "password=" rest.
Proof. reflexivity. Qed.

Lemma sanitize_passes e :
  ResponseTransformer._sanitize_error_message e
  = ResponseTransformer.re_sub "password="
      (ResponseTransformer.re_sub "api_key="
         (ResponseTransformer.re_sub "token=" e)).
Proof. reflexivity. Qed.

Lemma sanitize_no_match e pattern :
  In pattern ResponseTransformer.sensitive_patterns ->
  Redaction.has_match pattern (ResponseTransformer._sanitize_error_message e)
  = false.
Proof.
  intros Hin. rewrite sanitize_passes.
  set (s1 := ResponseTransformer.re_sub "token=" e).
  set (s2 := ResponseTransformer.re_sub "api_key=" s1).
  assert (H1 : Redaction.has_match "token=" s1 = false)
    by (apply (re_sub_clears "token=" "token=" eq_refl eq_refl
                 marker_clean_token (String.length e) e (le_n _));
        apply covered_by_self).
  assert (H12 : Redaction.has_match "token=" s2 = false)
    by (apply (re_sub_clears "token=" "api_key=" eq_refl eq_refl
                 marker_clean_token (String.length s1) s1 (le_n _));
        now apply covered_by_clean).
  assert (H2 : Redaction.has_match "api_key=" s2 = false)
    by (apply (re_sub_clears "api_key=" "api_key=" eq_refl eq_refl
                 marker_clean_api_key (String.length s1) s1 (le_n _));
        apply covered_by_self).
  destruct Hin as [<-|[<-|[<-|[]]]].
  - apply (re_sub_clears "token=" "password=" eq_refl eq_refl
             marker_clean_token (String.length s2) s2 (le_n _)).
    now apply covered_by_clean.
  - apply (re_sub_clears "api_key=" "password=" eq_refl eq_refl
             marker_clean_api_key (String.length s2) s2 (le_n _)).
    now apply covered_by_clean.
  - apply (re_sub_clears "password=" "password=" eq_refl eq_refl
             marker_clean_password (String.length s2) s2 (le_n _)).
    apply covered_by_self.
Qed.

Lemma default_pass_error clk response hook_context :
  error (ResponseTransformer._apply_default_transformations clk response
           hook_context)
  = match error response with
    | Some e =>
        if negb (String.eqb e "")
        then Some (ResponseTransformer._sanitize_error_message e)
        else Some e
    | None => None
    end.
Proof.
  unfold ResponseTransformer._apply_default_transformations.
  cbn [error with_resp_metadata].
  destruct (error response) as [e|] eqn:E; [|cbn; exact E].
  destruct (negb (String.eqb e "")); cbn; [reflexivity|exact E].
Qed.

(** X26. For a backend type other than claude and github, the error text
    of the response the transform returns holds no place where [token=],
    [api_key=] or [password=], in any letter case, is followed by a
    non-blank character; the same holds of whatever
    [_sanitize_error_message] returns. *)
Theorem default_pass_redacts
    (clk : Clock) (server : MCPServer) (response response' : MCPResponse)
    (hook_context : option pydict) (text pattern : string) :
  String.eqb (server_type server) "claude" = false ->
  String.eqb (server_type server) "github" = false ->
  ResponseTransformer.transform clk server response hook_context
  = Ok response' ->
  error response' = Some text ->
  In pattern ResponseTransformer.sensitive_patterns ->
  Redaction.has_match pattern text = false
  /\ forall e,
       Redaction.has_match pattern
         (ResponseTransformer._sanitize_error_message e) = false.
Proof.
  intros Hc Hg Htr Herr Hin.
  split; [|intros e; now apply sanitize_no_match].
  unfold ResponseTransformer.transform in Htr. rewrite Hc, Hg in Htr.
  injection Htr as <-. rewrite default_pass_error in Herr.
  destruct (error response) as [e|]; [|discriminate Herr].
  destruct (String.eqb e "") eqn:Ee; cbn [negb] in Herr;
    injection Herr as Herr; subst text.
  - apply String.eqb_eq in Ee. subst e.
    destruct Hin as [<-|[<-|[<-|[]]]]; reflexivity.
  - now apply sanitize_no_match.
Qed.

Lemma default_pass_redacts_witness :
  Redaction.has_match "api_key="
    "upstream said [REDACTED] and [REDACTED] were rejected" = false.
Proof.
  apply (default_pass_redacts (Sample.clock_at 100 "t100") Sample.backend
           (Sample.failure
              "upstream said API_KEY=abc?token=xyz and Password=hunter2 were rejected")
           (ResponseTransformer._apply_default_transformations
              (Sample.clock_at 100 "t100")
              (Sample.failure
                 "upstream said API_KEY=abc?token=xyz and Password=hunter2 were rejected")
              None)
           None "upstream said [REDACTED] and [REDACTED] were rejected"
           "api_key=").
  - reflexivity.
  - reflexivity.
  - reflexivity.
  - reflexivity.
  - simpl. tauto.
Defined.

Lemma sanitize_fixed_when_clean e :
  (forall pattern, In pattern ResponseTransformer.sensitive_patterns ->
     Redaction.has_match pattern e = false) ->
  ResponseTransformer._sanitize_error_message e = e.
Proof.
  intros Hclean. rewrite sanitize_passes.
  rewrite (re_sub_clean "token=" e) by (apply Hclean; simpl; tauto).
  rewrite (re_sub_clean "api_key=" e) by (apply Hclean; simpl; tauto).
  apply re_sub_clean. apply Hclean. simpl. tauto.
Qed.

(** X27. An error text in which none of the three patterns matches, that
    is, where none of [token=], [api_key=], [password=] (in any letter
    case) is followed by a non-blank character, comes out of the sanitiser
    unchanged. *)
Theorem sanitize_keeps_clean_text (e : string) :
  (forall pattern, In pattern ResponseTransformer.sensitive_patterns ->
     Redaction.has_match pattern e = false) ->
  ResponseTransformer._sanitize_error_message e = e.
Proof. exact (sanitize_fixed_when_clean e). Qed.

Lemma sanitize_keeps_clean_text_witness :
  ResponseTransformer._sanitize_error_message
    "Invalid token= (empty) for password reset"
  = "Invalid token= (empty) for password reset".
Proof.
  apply (sanitize_keeps_clean_text "Invalid token= (empty) for password reset").
  intros pattern Hin. simpl in Hin.
  destruct Hin as [<-|[<-|[<-|[]]]]; reflexivity.
Defined.

(** X28. Sanitising is idempotent: a sanitised text is not changed by
    sanitising it again. *)
Theorem sanitize_idempotent (e : string) :
  ResponseTransformer._sanitize_error_message
    (ResponseTransformer._sanitize_error_message e)
  = ResponseTransformer._sanitize_error_message e.
Proof.
  apply sanitize_fixed_when_clean. intros pattern Hin.
  now apply sanitize_no_match.
Qed.

(** X29. Whatever the backend type, a response the transform returns has
    the success flag and the data it came with, and every metadata entry it
    came with other than [usage], [rate_limit] and [processed_at]. *)
Theorem response_transform_keeps
    (clk : Clock) (server : MCPServer) (response response' : MCPResponse)
    (hook_context : option pydict) :
  ResponseTransformer.transform clk server response hook_context
  = Ok response' ->
  success response' = success response
  /\ data response' = data response
  /\ forall k, k <> "usage" -> k <> "rate_limit" -> k <> "processed_at" ->
       Dict.get k (Dict.or_empty (resp_metadata response'))
       = Dict.get k (Dict.or_empty (resp_metadata response)).
Proof.
  intros Htr.
  assert (Hor : forall md : option pydict,
            (if Dict.nonempty md then Dict.or_empty md else [])
            = Dict.or_empty md)
    by (intros [[|p l]|]; reflexivity).
  unfold ResponseTransformer.transform in Htr.
  destruct (String.eqb (server_type server) "claude").
  { unfold ResponseTransformer._transform_claude_response in Htr.
    destruct (success response && truthy (data response));
      [|injection Htr as <-; auto].
    destruct (ResponseTransformer.py_in "usage" (data response)) as [[|]|e];
      cbn [mbind result_bind] in Htr;
      [|injection Htr as <-; auto|discriminate Htr].
    destruct (ResponseTransformer.py_getitem (data response) "usage")
      as [usage|e]; cbn [mbind result_bind] in Htr; [|discriminate Htr].
    injection Htr as <-. cbn [success data resp_metadata with_resp_metadata].
    repeat split. intros k Hk _ _. rewrite Hor. cbn [Dict.or_empty].
    now rewrite dict_get_set_ne by congruence. }
  destruct (String.eqb (server_type server) "github").
  { unfold ResponseTransformer._transform_github_response in Htr.
    destruct (success response && truthy (data response));
      [|injection Htr as <-; auto].
    destruct (resp_metadata response) as [[|p md]|] eqn:Emd;
      try (injection Htr as <-; rewrite Emd; auto).
    remember (p :: md) as md0 eqn:Emd0. clear Emd0.
    destruct (Dict.get "headers" md0) as [headers|];
      [|injection Htr as <-; rewrite Emd; auto].
    destruct (ResponseTransformer.py_get headers "X-RateLimit-Limit")
      as [limit|e]; cbn [mbind result_bind] in Htr; [|discriminate Htr].
    destruct (ResponseTransformer.py_get headers "X-RateLimit-Remaining")
      as [remaining|e]; cbn [mbind result_bind] in Htr; [|discriminate Htr].
    destruct (ResponseTransformer.py_get headers "X-RateLimit-Reset")
      as [reset|e]; cbn [mbind result_bind] in Htr; [|discriminate Htr].
    injection Htr as <-. cbn [success data resp_metadata with_resp_metadata].
    repeat split. intros k _ Hk _. cbn [Dict.or_empty].
    now rewrite dict_get_set_ne by congruence. }
  injection Htr as <-.
  unfold ResponseTransformer._apply_default_transformations.
  cbn [error with_resp_metadata]. rewrite Hor.
  destruct (error response) as [e|]; [destruct (negb (String.eqb e ""))|];
    cbn [success data resp_metadata with_resp_metadata with_error
         Dict.or_empty];
    repeat split; intros k _ _ Hk;
    now rewrite dict_get_set_ne by congruence.
Qed.

Lemma response_transform_keeps_witness :
  ResponseTransformer.transform (Sample.clock_at 100 "t100") github_backend
    traced_listing None = Ok rated_listing
  /\ resp_metadata rated_listing <> resp_metadata traced_listing
  /\ success rated_listing = true
  /\ data rated_listing = VDict [("total_count", VInt 1)]
  /\ Dict.get "trace" (Dict.or_empty (resp_metadata rated_listing))
     = Some (VStr "t1")
  /\ Dict.get "headers" (Dict.or_empty (resp_metadata rated_listing))
     = Some (VDict [("X-RateLimit-Limit", VInt 60)]).
Proof.
  assert (Htr :
    ResponseTransformer.transform (Sample.clock_at 100 "t100") github_backend
      traced_listing None = Ok rated_listing) by reflexivity.
  destruct (response_transform_keeps (Sample.clock_at 100 "t100")
              github_backend traced_listing rated_listing None Htr)
    as (Hsuccess & Hdata & Hkept).
  split; [exact Htr|]. split; [discriminate|].
  split; [exact Hsuccess|]. split; [exact Hdata|].
  split.
  - rewrite (Hkept "trace") by discriminate. reflexivity.
  - rewrite (Hkept "headers") by discriminate. reflexivity.
Defined.

(** X30. [pre_connect] refuses an inactive backend before the rate limiter
    is consulted, so no connect slot is used; it refuses an active backend
    whose connect counter has reached the maximum, leaving cache and
    metadata as they were; otherwise it uses one slot and stamps
    [last_connection_attempt]. The backend's status plays no part. *)
Theorem pre_connect_outcomes
    (st : Settings) (clk : Clock) (c : Cache.t) (server : MCPServer)
    (hook_context : option pydict) (n : Z) :
  Cache.get (time_time clk) c (RateLimiter.cache_key server "connect") (VInt 0)
  = VInt n ->
  let limit := getattr (MCP_CONNECT_RATE_LIMIT st) 10 in
  let window := getattr (MCP_CONNECT_RATE_WINDOW st) 60 in
  Lifecycle.pre_connect st clk c server hook_context
  = if negb (is_active server) then
      ((c, server),
       Raise (ValueError ("Server " +:+ name server +:+ " is not active")))
    else if limit <=? n then
      ((c, server), Raise (ValueError "Connection rate limit exceeded"))
    else
      ((Cache.set (time_time clk) c (RateLimiter.cache_key server "connect")
          (VInt (n + 1)) window,
        with_metadata server
          (Dict.set "last_connection_attempt" (VStr (isoformat clk))
             (metadata server))), Ok tt).
Proof.
  intros Hget limit window. unfold Lifecycle.pre_connect.
  destruct (is_active server); cbn [negb]; [|reflexivity].
  destruct (Z.leb_spec limit n) as [Hle|Hlt].
  - now rewrite (check_limit_denies st server "connect" limit window eq_refl
                   (time_time clk) c n Hget Hle).
  - now rewrite (check_limit_allows st server "connect" limit window eq_refl
                   (time_time clk) c n Hget Hlt).
Qed.

Lemma pre_connect_outcomes_witness :
  Lifecycle.pre_connect Sample.tight (Sample.clock_at 150 "t150")
    (Cache.set 130 ∅ "mcp_rate_limit:1:connect" (VInt 2) 60)
    (with_status Sample.backend ERROR) None
  = ((Cache.set 130 ∅ "mcp_rate_limit:1:connect" (VInt 2) 60,
      with_status Sample.backend ERROR),
     Raise (ValueError "Connection rate limit exceeded")).
Proof.
  apply (pre_connect_outcomes Sample.tight (Sample.clock_at 150 "t150")
           (Cache.set 130 ∅ "mcp_rate_limit:1:connect" (VInt 2) 60)
           (with_status Sample.backend ERROR) None 2).
  reflexivity.
Defined.
